(** * Skyros swarm link: packet codec, link framer, presence table and
      force-field collision avoidance.

    A shallow embedding of
    - [skyros/lib/packets.py] and [skyros/lib/packet_codec.py] (module [Codec]),
    - the receive path of [skyros/link.py] (module [Link]),
    - the presence table of [skyros/drone.py] (module [Presence]),
    - [skyros/collision_avoidance/force_avoidance.py] (module [Avoidance]),
    followed by the properties established for them.

    Conventions.
    - Python [bytes]/[bytearray] values are [list byte]; Python integers are [Z].
    - A Python call that can raise returns [option]; [None] is the raised
      exception (or, for [unpack_packet], the returned [None]).
    - A float that travels in a packet is held as its IEEE-754 binary32 bit
      pattern ([f32]); module [FloatFields] says which patterns are NaNs and
      what Python's [==] makes of two patterns.
    - The control law is embedded twice: in exact real arithmetic (module
      [Avoidance], numbers in [R]), and in the program's own binary64
      arithmetic (module [AvoidanceF], primitive floats) as far as the
      four operations and the square root reach.  Statements over [R]
      carry the tolerances and the input range under which they are meant
      for the rounded results as well (module [AvoidanceRange]).
    - The presence table is generic in the number type. *)

From Stdlib Require Import ZArith List Lia Bool String.
From Stdlib.Strings Require Import Byte.
From Stdlib Require Import QArith Qminmax.
From Stdlib Require Import Reals Lra Psatz.
From Stdlib Require PrimFloat FloatOps SpecFloat.
From stdpp Require Import base option list gmap.

#[local] Open Scope Z_scope.

(** ** Bytes and the [struct] formats used by the protocol *)

Abbreviation bytes := (list byte).

Definition b2z (b : byte) : Z := Z.of_N (Byte.to_N b).

(** The byte holding the low eight bits of [v]. *)
Definition z2b (v : Z) : byte :=
  default x00 (Byte.of_N (Z.to_N (v mod 256))).

(** [data[:-2]] and [data[-2:]] of Python. *)
Definition but_last2 (data : bytes) : bytes := take (length data - 2)%nat data.
Definition last2 (data : bytes) : bytes := drop (length data - 2)%nat data.

Module Struct.

Definition in_range (v bound : Z) : bool := (0 <=? v) && (v <? bound).

(** [struct.pack("<B", v)], [("<H", v)], [("<I", v)]: [None] is [struct.error]. *)
Definition pack_B (v : Z) : option bytes :=
  if in_range v 256 then Some [z2b v] else None.

Definition pack_H (v : Z) : option bytes :=
  if in_range v 65536 then Some [z2b v; z2b (v / 256)] else None.

Definition pack_I (v : Z) : option bytes :=
  if in_range v 4294967296
  then Some [z2b v; z2b (v / 256); z2b (v / 65536); z2b (v / 16777216)]
  else None.

(** [struct.pack("<f", v)] for a float held as its binary32 pattern: the
    four bytes of the pattern.  (Python holds the field as a double; the
    pattern stands for the binary32 value it is rounded to.  A signalling
    NaN is the one pattern that does not survive the conversions between
    the two formats, see [FloatFields.is_snan32].) *)
Definition pack_f (v : Z) : option bytes := pack_I v.

(** [struct.pack("<126s", d)]: truncated or null-padded to 126 bytes. *)
Definition pack_126s (d : bytes) : option bytes :=
  Some (take 126 d ++ replicate (126 - length d) x00).

Definition le16 (b0 b1 : byte) : Z := b2z b0 + 256 * b2z b1.
Definition le32 (b0 b1 b2 b3 : byte) : Z :=
  b2z b0 + 256 * b2z b1 + 65536 * b2z b2 + 16777216 * b2z b3.

(** [struct.unpack]: [None] is [struct.error] (buffer of the wrong size). *)
Definition unpack_H (l : bytes) : option Z :=
  match l with [b0; b1] => Some (le16 b0 b1) | _ => None end.

Definition unpack_I (l : bytes) : option Z :=
  match l with [b0; b1; b2; b3] => Some (le32 b0 b1 b2 b3) | _ => None end.

Definition unpack_HBBB (l : bytes) : option (Z * Z * Z * Z) :=
  match l with
  | [p0; p1; s; t; n] => Some (le16 p0 p1, b2z s, b2z t, b2z n)
  | _ => None
  end.

Definition unpack_BBH (l : bytes) : option (Z * Z * Z) :=
  match l with
  | [a; b; c0; c1] => Some (b2z a, b2z b, le16 c0 c1)
  | _ => None
  end.

Definition unpack_BBHH (l : bytes) : option (Z * Z * Z * Z) :=
  match l with
  | [a; b; c0; c1; d0; d1] => Some (b2z a, b2z b, le16 c0 c1, le16 d0 d1)
  | _ => None
  end.

Definition unpack_BBB (l : bytes) : option (Z * Z * Z) :=
  match l with
  | [a; b; c] => Some (b2z a, b2z b, b2z c)
  | _ => None
  end.

Definition unpack_Bfff (l : bytes) : option (Z * Z * Z * Z) :=
  match l with
  | [a; x0; x1; x2; x3; y0; y1; y2; y3; z0; z1; z2; z3] =>
      Some (b2z a, le32 x0 x1 x2 x3, le32 y0 y1 y2 y3, le32 z0 z1 z2 z3)
  | _ => None
  end.

Definition unpack_Bffffff (l : bytes) : option (Z * Z * Z * Z * Z * Z * Z) :=
  match l with
  | a :: rest =>
      match rest with
      | [x0; x1; x2; x3; y0; y1; y2; y3; z0; z1; z2; z3;
         u0; u1; u2; u3; v0; v1; v2; v3; w0; w1; w2; w3] =>
          Some (b2z a, le32 x0 x1 x2 x3, le32 y0 y1 y2 y3, le32 z0 z1 z2 z3,
                le32 u0 u1 u2 u3, le32 v0 v1 v2 v3, le32 w0 w1 w2 w3)
      | _ => None
      end
  | [] => None
  end.

Definition unpack_126s (l : bytes) : option bytes :=
  if (length l =? 126)%nat then Some l else None.

End Struct.

(** ** packets.py *)

Module Packets.

Definition PACKET_PREAMBLE : Z := 0xAA55.
Definition MAX_PAYLOAD_SIZE : Z := 128.
Definition HEADER_SIZE : nat := 5.

(** [PacketType] *)
Definition TELEMETRY : Z := 1.
Definition COMMAND : Z := 2.
Definition STATUS : Z := 3.
Definition SENSOR_DATA : Z := 4.
Definition CONFIG : Z := 5.
Definition BULK_DATA : Z := 6.
Definition PING : Z := 7.
Definition ACK : Z := 8.
Definition CUSTOM_MESSAGE : Z := 9.

(** [struct.calcsize(FORMAT) + 2] *)
Definition TELEMETRY_SIZE : Z := 25 + 2.
Definition COMMAND_SIZE : Z := 4 + 2.
Definition STATUS_SIZE : Z := 6 + 2.
Definition SENSOR_SIZE : Z := 13 + 2.
Definition CONFIG_SIZE : Z := 3 + 2.
Definition PING_SIZE : Z := 4 + 2.
Definition ACK_SIZE : Z := 4 + 2.
Definition CUSTOM_MESSAGE_SIZE : Z := 126 + 2.

Record PacketHeader := mkHeader {
  preamble : Z;
  payload_size : Z;
  packet_type : Z;
  network_id : Z
}.

Record TelemetryPacket (F : Type) := mkTelemetry {
  t_header : PacketHeader;
  t_drone_id : Z;
  t_x : F; t_y : F; t_z : F;
  t_vx : F; t_vy : F; t_vz : F;
  t_crc : Z
}.

Record CommandPacket := mkCommand {
  c_header : PacketHeader;
  c_command_id : Z;
  c_target_id : Z;
  c_param : Z;
  c_crc : Z
}.

Record StatusPacket := mkStatus {
  s_header : PacketHeader;
  s_drone_id : Z;
  s_status_code : Z;
  s_battery_mv : Z;
  s_error_flags : Z;
  s_crc : Z
}.

Record SensorPacket (F : Type) := mkSensor {
  se_header : PacketHeader;
  se_sensor_id : Z;
  se_value1 : F; se_value2 : F; se_value3 : F;
  se_crc : Z
}.

Record ConfigPacket := mkConfig {
  cf_header : PacketHeader;
  cf_network_id : Z;
  cf_wifi_channel : Z;
  cf_tx_power : Z;
  cf_crc : Z
}.

Record PingPacket := mkPing {
  p_header : PacketHeader;
  p_timestamp : Z;
  p_crc : Z
}.

Record AckPacket := mkAck {
  a_header : PacketHeader;
  a_ack_type : Z;
  a_ack_id : Z;
  a_status : Z;
  a_crc : Z
}.

Record CustomMessagePacket := mkCustomMessage {
  m_header : PacketHeader;
  m_custom_data : bytes;
  m_crc : Z
}.

Arguments mkTelemetry {F}.
Arguments t_header {F}.
Arguments t_drone_id {F}.
Arguments t_x {F}.
Arguments t_y {F}.
Arguments t_z {F}.
Arguments t_vx {F}.
Arguments t_vy {F}.
Arguments t_vz {F}.
Arguments t_crc {F}.
Arguments mkSensor {F}.
Arguments se_header {F}.
Arguments se_sensor_id {F}.
Arguments se_value1 {F}.
Arguments se_value2 {F}.
Arguments se_value3 {F}.
Arguments se_crc {F}.

(** The dataclass instances, as one sum. *)
Inductive Packet (F : Type) :=
| PTelemetry (p : TelemetryPacket F)
| PCommand (p : CommandPacket)
| PStatus (p : StatusPacket)
| PSensor (p : SensorPacket F)
| PConfig (p : ConfigPacket)
| PPing (p : PingPacket)
| PAck (p : AckPacket)
| PCustomMessage (p : CustomMessagePacket).

Arguments PTelemetry {F}.
Arguments PCommand {F}.
Arguments PStatus {F}.
Arguments PSensor {F}.
Arguments PConfig {F}.
Arguments PPing {F}.
Arguments PAck {F}.
Arguments PCustomMessage {F}.

Definition header {F} (p : Packet F) : PacketHeader :=
  match p with
  | PTelemetry q => t_header q
  | PCommand q => c_header q
  | PStatus q => s_header q
  | PSensor q => se_header q
  | PConfig q => cf_header q
  | PPing q => p_header q
  | PAck q => a_header q
  | PCustomMessage q => m_header q
  end.

Definition crc {F} (p : Packet F) : Z :=
  match p with
  | PTelemetry q => t_crc q
  | PCommand q => c_crc q
  | PStatus q => s_crc q
  | PSensor q => se_crc q
  | PConfig q => cf_crc q
  | PPing q => p_crc q
  | PAck q => a_crc q
  | PCustomMessage q => m_crc q
  end.

(** The same packet with another value in its [crc] field. *)
Definition with_crc {F} (p : Packet F) (c : Z) : Packet F :=
  match p with
  | PTelemetry q =>
      PTelemetry (mkTelemetry (t_header q) (t_drone_id q) (t_x q) (t_y q) (t_z q)
                              (t_vx q) (t_vy q) (t_vz q) c)
  | PCommand q =>
      PCommand (mkCommand (c_header q) (c_command_id q) (c_target_id q) (c_param q) c)
  | PStatus q =>
      PStatus (mkStatus (s_header q) (s_drone_id q) (s_status_code q)
                        (s_battery_mv q) (s_error_flags q) c)
  | PSensor q =>
      PSensor (mkSensor (se_header q) (se_sensor_id q) (se_value1 q)
                        (se_value2 q) (se_value3 q) c)
  | PConfig q =>
      PConfig (mkConfig (cf_header q) (cf_network_id q) (cf_wifi_channel q)
                        (cf_tx_power q) c)
  | PPing q => PPing (mkPing (p_header q) (p_timestamp q) c)
  | PAck q => PAck (mkAck (a_header q) (a_ack_type q) (a_ack_id q) (a_status q) c)
  | PCustomMessage q => PCustomMessage (mkCustomMessage (m_header q) (m_custom_data q) c)
  end.

End Packets.

(** ** packet_codec.py *)

Module Codec.
Import Struct Packets.

(** A single-precision float, as its binary32 bit pattern. *)
Abbreviation f32 := Z (only parsing).

(** What [pack_packet] is given and what [unpack_packet] returns when it does
    not reject: a dataclass instance or raw [bytes]. *)
Inductive PyValue :=
| VPacket (p : Packet f32)
| VBytes (raw : bytes).

(** One round of the inner loop of [calculate_crc16]. *)
Definition crc_bit (crc : Z) : Z :=
  if Z.land crc 1 =? 0
  then Z.shiftr crc 1
  else Z.lxor (Z.shiftr crc 1) 0xA001.

(** The body of the outer loop: [crc ^= byte] and eight rounds. *)
Definition crc_byte (crc : Z) (b : byte) : Z :=
  Nat.iter 8 crc_bit (Z.lxor crc (b2z b)).

Definition calculate_crc16 (data : bytes) : Z :=
  Z.land (fold_left crc_byte (but_last2 data) 0xFFFF) 0xFFFF.

(** [struct.pack(HEADER_FORMAT, preamble, payload_size, packet_type, network_id)] *)
Definition pack_header (h : PacketHeader) : option bytes :=
  p ← pack_H (preamble h);
  s ← pack_B (payload_size h);
  t ← pack_B (packet_type h);
  n ← pack_B (network_id h);
  Some (p ++ s ++ t ++ n).

(** The type-specific [struct.pack] of [pack_packet]. *)
Definition pack_data (p : Packet f32) : option bytes :=
  match p with
  | PTelemetry q =>
      i ← pack_B (t_drone_id q);
      x ← pack_f (t_x q); y ← pack_f (t_y q); z ← pack_f (t_z q);
      vx ← pack_f (t_vx q); vy ← pack_f (t_vy q); vz ← pack_f (t_vz q);
      Some (i ++ x ++ y ++ z ++ vx ++ vy ++ vz)
  | PCommand q =>
      a ← pack_B (c_command_id q);
      b ← pack_B (c_target_id q);
      c ← pack_H (c_param q);
      Some (a ++ b ++ c)
  | PStatus q =>
      a ← pack_B (s_drone_id q);
      b ← pack_B (s_status_code q);
      c ← pack_H (s_battery_mv q);
      d ← pack_H (s_error_flags q);
      Some (a ++ b ++ c ++ d)
  | PSensor q =>
      a ← pack_B (se_sensor_id q);
      x ← pack_f (se_value1 q); y ← pack_f (se_value2 q); z ← pack_f (se_value3 q);
      Some (a ++ x ++ y ++ z)
  | PConfig q =>
      a ← pack_B (cf_network_id q);
      b ← pack_B (cf_wifi_channel q);
      c ← pack_B (cf_tx_power q);
      Some (a ++ b ++ c)
  | PPing q => pack_I (p_timestamp q)
  | PAck q =>
      a ← pack_B (a_ack_type q);
      b ← pack_B (a_ack_id q);
      c ← pack_H (a_status q);
      Some (a ++ b ++ c)
  | PCustomMessage q => pack_126s (m_custom_data q)
  end.

(** [pack_packet].  The header is packed first, from [packet.header]; a
    [bytes] argument has no such attribute, so the call raises before the
    [isinstance(packet, bytes)] branch can be reached. *)
Definition pack_packet (packet : PyValue) : option bytes :=
  match packet with
  | VBytes _ => None
  | VPacket p =>
      hdr ← pack_header (header p);
      data ← pack_data p;
      let temp_packet := hdr ++ data ++ [x00; x00] in
      let crc := calculate_crc16 temp_packet in
      c ← pack_H crc;
      Some (hdr ++ data ++ c)
  end.

(** [unpack_header] *)
Definition unpack_header (data : bytes) : option PacketHeader :=
  '(preamble, payload_size, packet_type, network_id) ← unpack_HBBB data;
  if negb (preamble =? PACKET_PREAMBLE) then None
  else if MAX_PAYLOAD_SIZE <? payload_size then None
  else Some (mkHeader preamble payload_size packet_type network_id).

(** The CRC that [unpack_packet] recomputes, and the one it reads.  Both
    are [None] when the [struct] call raises. *)
Definition received_crc (payload : bytes) : option Z := unpack_H (last2 payload).

Definition calculated_crc (h : PacketHeader) (payload : bytes) : option Z :=
  hdr ← pack_header h;
  Some (calculate_crc16 (hdr ++ but_last2 payload ++ [x00; x00])).

(** The dispatch of [unpack_packet] once the CRC has been accepted. *)
Definition unpack_typed (h : PacketHeader) (payload : bytes) (received_crc : Z)
  : option PyValue :=
  let body := but_last2 payload in
  if packet_type h =? TELEMETRY then
    if negb (payload_size h =? TELEMETRY_SIZE) then None else
    '(drone_id, x, y, z, vx, vy, vz) ← unpack_Bffffff body;
    Some (VPacket (PTelemetry (mkTelemetry h drone_id x y z vx vy vz received_crc)))
  else if packet_type h =? COMMAND then
    if negb (payload_size h =? COMMAND_SIZE) then None else
    '(command_id, target_id, param) ← unpack_BBH body;
    Some (VPacket (PCommand (mkCommand h command_id target_id param received_crc)))
  else if packet_type h =? STATUS then
    if negb (payload_size h =? STATUS_SIZE) then None else
    '(drone_id, status_code, battery_mv, error_flags) ← unpack_BBHH body;
    Some (VPacket (PStatus (mkStatus h drone_id status_code battery_mv error_flags
                                     received_crc)))
  else if packet_type h =? SENSOR_DATA then
    if negb (payload_size h =? SENSOR_SIZE) then None else
    '(sensor_id, value1, value2, value3) ← unpack_Bfff body;
    Some (VPacket (PSensor (mkSensor h sensor_id value1 value2 value3 received_crc)))
  else if packet_type h =? CONFIG then
    if negb (payload_size h =? CONFIG_SIZE) then None else
    '(network_id, wifi_channel, tx_power) ← unpack_BBB body;
    Some (VPacket (PConfig (mkConfig h network_id wifi_channel tx_power received_crc)))
  else if packet_type h =? BULK_DATA then
    Some (VBytes body)
  else if packet_type h =? PING then
    if negb (payload_size h =? PING_SIZE) then None else
    timestamp ← unpack_I body;
    Some (VPacket (PPing (mkPing h timestamp received_crc)))
  else if packet_type h =? ACK then
    if negb (payload_size h =? ACK_SIZE) then None else
    '(ack_type, ack_id, status) ← unpack_BBH body;
    Some (VPacket (PAck (mkAck h ack_type ack_id status received_crc)))
  else if packet_type h =? CUSTOM_MESSAGE then
    if negb (payload_size h =? CUSTOM_MESSAGE_SIZE) then None else
    custom_data ← unpack_126s body;
    Some (VPacket (PCustomMessage (mkCustomMessage h custom_data received_crc)))
  else None.

(** [unpack_packet]: [None] is the value returned on every rejection, the
    caught [struct.error] included. *)
Definition unpack_packet (h : PacketHeader) (payload : bytes) : option PyValue :=
  if (length payload <? 2)%nat then None else
  received ← received_crc payload;
  calculated ← calculated_crc h payload;
  if negb (calculated =? received) then None
  else unpack_typed h payload received.

End Codec.

(** ** link.py: the receive path *)

Module Link.
Import Struct Packets Codec.

(** [InterfaceStats], the counters the receive path touches.  The by-type
    dictionaries are keyed by packet type. *)
Record InterfaceStats := mkStats {
  packets_received : Z;
  packets_corrupted : Z;
  bytes_received : Z;
  packets_received_by_type : gmap Z Z;
  bytes_received_by_type : gmap Z Z
}.

(** [{ptype: 0 for ptype in PacketType}] *)
Definition zero_by_type : gmap Z Z :=
  list_to_map
    [(TELEMETRY, 0); (COMMAND, 0); (STATUS, 0); (SENSOR_DATA, 0); (CONFIG, 0);
     (BULK_DATA, 0); (PING, 0); (ACK, 0); (CUSTOM_MESSAGE, 0)].

Definition InterfaceStats_init : InterfaceStats :=
  mkStats 0 0 0 zero_by_type zero_by_type.

(** The state of [ESP32Link] that reception reads and writes: the receive
    buffer, the UART statistics, and the packets given so far to
    [_handle_received_packet] (which answers pings and calls the registered
    callbacks, swallowing what they raise). *)
Record ESP32Link := mkLink {
  rx_buffer : bytes;
  stats : InterfaceStats;
  handled : list PyValue
}.

Definition ESP32Link_init : ESP32Link := mkLink [] InterfaceStats_init [].

Definition set_rx_buffer (buf : bytes) (l : ESP32Link) : ESP32Link :=
  mkLink buf (stats l) (handled l).

(** [struct.pack("<H", PACKET_PREAMBLE)] *)
Definition _preamble_bytes : bytes := default [] (pack_H PACKET_PREAMBLE).

Fixpoint starts_with (sub buf : bytes) : bool :=
  match sub, buf with
  | [], _ => true
  | _ :: _, [] => false
  | s :: sub', b :: buf' => Byte.eqb s b && starts_with sub' buf'
  end.

(** [buf.find(sub)]: the lowest index at which [sub] occurs; [None] is [-1]. *)
Fixpoint bytes_find (sub buf : bytes) : option nat :=
  if starts_with sub buf then Some 0%nat
  else match buf with
       | [] => None
       | _ :: buf' => S <$> bytes_find sub buf'
       end.

(** [_extract_packet]: the packet it returns, if any, and the buffer it leaves. *)
Definition _extract_packet (rx_buffer : bytes) : option bytes * bytes :=
  if (length rx_buffer <? HEADER_SIZE)%nat then (None, rx_buffer) else
  match bytes_find _preamble_bytes rx_buffer with
  | None =>
      (None,
       if (1 <? length rx_buffer)%nat
       then drop (length rx_buffer - 1) rx_buffer
       else rx_buffer)
  | Some preamble_pos =>
      let rx_buffer :=
        if (0 <? preamble_pos)%nat then drop preamble_pos rx_buffer else rx_buffer in
      if (length rx_buffer <? HEADER_SIZE)%nat then (None, rx_buffer) else
      match unpack_HBBB (take HEADER_SIZE rx_buffer) with
      | None => (None, drop 1 rx_buffer)
      | Some (preamble, payload_size, packet_type, network_id) =>
          if negb (preamble =? PACKET_PREAMBLE) then (None, drop 1 rx_buffer)
          else if (payload_size <? 2) || (MAX_PAYLOAD_SIZE <? payload_size)
               then (None, drop 1 rx_buffer)
          else
            let total_packet_size := (HEADER_SIZE + Z.to_nat payload_size)%nat in
            if (length rx_buffer <? total_packet_size)%nat then (None, rx_buffer)
            else (Some (take total_packet_size rx_buffer),
                  drop total_packet_size rx_buffer)
      end
  end.

(** [d[k] += v]: [None] is [KeyError]. *)
Definition add_at (k v : Z) (d : gmap Z Z) : option (gmap Z Z) :=
  c ← d !! k; Some (<[k := c + v]> d).

(** [_update_receive_stats]: the statistics it leaves, and whether it
    returned ([false]: it raised [KeyError] part-way). *)
Definition _update_receive_stats (packet_type total_size : Z) (s : InterfaceStats)
  : InterfaceStats * bool :=
  let s := mkStats (packets_received s + 1) (packets_corrupted s)
                   (bytes_received s + total_size)
                   (packets_received_by_type s) (bytes_received_by_type s) in
  match add_at packet_type 1 (packets_received_by_type s) with
  | None => (s, false)
  | Some pbt =>
      let s := mkStats (packets_received s) (packets_corrupted s) (bytes_received s)
                       pbt (bytes_received_by_type s) in
      match add_at packet_type total_size (bytes_received_by_type s) with
      | None => (s, false)
      | Some bbt =>
          (mkStats (packets_received s) (packets_corrupted s) (bytes_received s)
                   (packets_received_by_type s) bbt, true)
      end
  end.

Definition count_corrupted (s : InterfaceStats) : InterfaceStats :=
  mkStats (packets_received s) (packets_corrupted s + 1) (bytes_received s)
          (packets_received_by_type s) (bytes_received_by_type s).

(** Python truth of what [unpack_packet] returned: a dataclass instance is
    true, [bytes] are true when not empty. *)
Definition truthy (v : PyValue) : bool :=
  match v with
  | VPacket _ => true
  | VBytes raw => negb (bool_decide (raw = []))
  end.

(** [_handle_packet] *)
Definition _handle_packet (packet_data : bytes) (l : ESP32Link) : ESP32Link :=
  let corrupted s := mkLink (rx_buffer l) (count_corrupted s) (handled l) in
  match unpack_HBBB (take HEADER_SIZE packet_data) with
  | None => corrupted (stats l)
  | Some (preamble, payload_size, packet_type, network_id) =>
      let header_obj := mkHeader preamble payload_size packet_type network_id in
      let payload := drop HEADER_SIZE packet_data in
      match unpack_packet header_obj payload with
      | Some packet =>
          if truthy packet then
            let '(s, returned) :=
              _update_receive_stats packet_type (Z.of_nat HEADER_SIZE + payload_size)
                                    (stats l) in
            if returned then mkLink (rx_buffer l) s (handled l ++ [packet])
            else corrupted s
          else corrupted (stats l)
      | None => corrupted (stats l)
      end
  end.

(** The [while True] loop of [_process_received_data]; [None] when [fuel]
    iterations were not enough to leave it. *)
Fixpoint process_loop (fuel : nat) (l : ESP32Link) : option ESP32Link :=
  match fuel with
  | O => None
  | S fuel =>
      let '(packet_data, rest) := _extract_packet (rx_buffer l) in
      let l := set_rx_buffer rest l in
      match packet_data with
      | None => Some l
      | Some packet_data => process_loop fuel (_handle_packet packet_data l)
      end
  end.

(** [_process_received_data].  Every extracted packet takes at least one
    byte out of the buffer, which bounds the number of iterations. *)
Definition _process_received_data (data : bytes) (l : ESP32Link) : option ESP32Link :=
  let l := set_rx_buffer (rx_buffer l ++ data) l in
  process_loop (S (length (rx_buffer l))) l.

End Link.

(** ** drone_data.py and the presence table of drone.py *)

(** The float operations the presence table uses.  The table only stores,
    subtracts and compares, so it is kept generic in the number type. *)
Class PyFloat (F : Type) := {
  f_zero : F;
  f_one : F;
  f_sub : F -> F -> F;
  f_gt : F -> F -> bool
}.

#[export] Instance Q_PyFloat : PyFloat Q := {
  f_zero := 0%Q;
  f_one := 1%Q;
  f_sub := Qminus;
  f_gt a b := negb (Qle_bool a b)
}.

Module DroneData.

Record DronePosition (F : Type) := mkPosition {
  pos_x : F;
  pos_y : F;
  pos_z : F;
  pos_vx : F;
  pos_vy : F;
  pos_vz : F;
  pos_yaw : F;
  pos_yaw_rate : F;
  pos_frame_id : string
}.

Inductive DroneDiscoveryMethod := VIA_TELEMETRY | VIA_STATUS.

Record DroneInfo (F : Type) := mkInfo {
  di_drone_id : Z;
  di_position : DronePosition F;
  di_last_seen : F;
  di_discovered_via : DroneDiscoveryMethod
}.

Arguments mkPosition {F}.
Arguments pos_x {F}.
Arguments pos_y {F}.
Arguments pos_z {F}.
Arguments pos_vx {F}.
Arguments pos_vy {F}.
Arguments pos_vz {F}.
Arguments pos_yaw {F}.
Arguments pos_yaw_rate {F}.
Arguments pos_frame_id {F}.
Arguments mkInfo {F}.
Arguments di_drone_id {F}.
Arguments di_position {F}.
Arguments di_last_seen {F}.
Arguments di_discovered_via {F}.

End DroneData.

Module Presence.
Import Packets DroneData.

Section WithFloat.
Context {F : Type} `{PyFloat F}.

(** The fields of [Drone] behind the presence table. *)
Record Drone := mkDrone {
  drone_id : Z;
  _other_drones : gmap Z (DroneInfo F);
  _drone_expiry_timeout : F
}.

Definition set_other_drones (m : gmap Z (DroneInfo F)) (d : Drone) : Drone :=
  mkDrone (drone_id d) m (_drone_expiry_timeout d).

(** [DronePosition(x=packet.x, ..., vz=packet.vz)]; the other fields take
    their defaults. *)
Definition telemetry_position (packet : TelemetryPacket F) : DronePosition F :=
  mkPosition (t_x packet) (t_y packet) (t_z packet)
             (t_vx packet) (t_vy packet) (t_vz packet)
             f_zero f_zero "aruco_map".

(** [_handle_telemetry_packet]; [current_time] is what [time.time()] returns. *)
Definition _handle_telemetry_packet (current_time : F) (packet : TelemetryPacket F)
    (d : Drone) : Drone :=
  if negb (t_drone_id packet =? drone_id d) then
    let position := telemetry_position packet in
    set_other_drones
      (<[t_drone_id packet :=
           mkInfo (t_drone_id packet) position current_time VIA_TELEMETRY]>
         (_other_drones d)) d
  else d.

(** [_handle_status_packet] (the warning it may log is not part of the state). *)
Definition _handle_status_packet (current_time : F) (packet : StatusPacket)
    (d : Drone) : Drone :=
  if negb (s_drone_id packet =? drone_id d) then
    match _other_drones d !! s_drone_id packet with
    | Some info =>
        set_other_drones
          (<[s_drone_id packet :=
               mkInfo (di_drone_id info) (di_position info) current_time
                      (di_discovered_via info)]>
             (_other_drones d)) d
    | None => d
    end
  else d.

(** [current_time - drone_info.last_seen > self._drone_expiry_timeout] *)
Definition is_expired (current_time timeout : F) (info : DroneInfo F) : bool :=
  f_gt (f_sub current_time (di_last_seen info)) timeout.

(** [_cleanup_expired_drones]: collect the expired ids, then delete each one
    that is still in the table. *)
Definition _cleanup_expired_drones (current_time : F) (d : Drone) : Drone :=
  let expired_drones :=
    (filter (fun kv => is_expired current_time (_drone_expiry_timeout d) kv.2 = true)
            (map_to_list (_other_drones d))).*1 in
  set_other_drones
    (foldl (fun m drone_id =>
              if bool_decide (is_Some (m !! drone_id)) then delete drone_id m else m)
           (_other_drones d) expired_drones) d.

(** [max(a, b)] of Python on two floats. *)
Definition py_max (a b : F) : F := if f_gt b a then b else a.

(** [set_drone_expiry_timeout] *)
Definition set_drone_expiry_timeout (timeout : F) (d : Drone) : Drone :=
  mkDrone (drone_id d) (_other_drones d) (py_max f_one timeout).

(** The table never tracks the drone itself. *)
Definition own_untracked (d : Drone) : Prop := _other_drones d !! drone_id d = None.

End WithFloat.

Arguments Drone : clear implicits.

(** A drone with id 1 that saw drone 7 at time 0. *)
Definition peer7 : DroneInfo Q :=
  mkInfo 7 (mkPosition 1 2 3 0 0 0 0 0 "aruco_map")%Q 0%Q VIA_TELEMETRY.
Definition drone1 : Drone Q := mkDrone 1 {[ 7 := peer7 ]} 5%Q.

End Presence.

(** ** collision_avoidance/force_avoidance.py *)

Module Avoidance.
Import DroneData.
#[local] Open Scope R_scope.

(** The control law in exact arithmetic: every float is the real number it
    stands for and every operation is the exact one, so rounding, overflow,
    infinities and NaN do not occur here ([AvoidanceF] has them).  What can
    still raise is kept: a division by zero, a square root of a negative
    number, and a fractional power of a negative number (its complex result
    is refused by [math.exp]). *)

(** [a / b]: [None] is [ZeroDivisionError]. *)
Definition py_div (a b : R) : option R :=
  if Req_dec_T b 0 then None else Some (a / b).

(** [math.sqrt(x)]: [None] is [ValueError]. *)
Definition py_sqrt (x : R) : option R :=
  if Rlt_dec x 0 then None else Some (sqrt x).


Definition COLLISION_RADIUS : R := 0.15.
Definition MAX_SPEED : R := 1.5.
Definition MAX_ACCELERATION : R := 3.0.
Definition ATTRACTION_STRENGTH : R := 50.0.
Definition ARRIVAL_RADIUS : R := 0.75.
Definition TARGET_THRESHOLD : R := 0.2.
Definition TARGET_SPEED_THRESHOLD : R := 0.1.
Definition BASE_DAMPING : R := 0.1.
Definition FORCE_DAMPING_FACTOR : R := 0.05.
Definition MAX_DAMPING : R := 0.25.


(** Lines 53-69 of [get_avoidance_vector]: the attraction force and the
    distance to the target.  Here and below [x ** 2] is [x * x], and the
    [** 1.0] of the taper is the identity. *)
Definition attraction (my_pos target_pos : DronePosition R) : option (R * R * R) :=
  let dx_target := pos_x target_pos - pos_x my_pos in
  let dy_target := pos_y target_pos - pos_y my_pos in
  dist_to_target ← py_sqrt (dx_target * dx_target + dy_target * dy_target);
  '(dx_target, dy_target) ←
    (if Rgt_dec dist_to_target ARRIVAL_RADIUS then
       ux ← py_div dx_target dist_to_target;
       uy ← py_div dy_target dist_to_target;
       Some (ux * ARRIVAL_RADIUS, uy * ARRIVAL_RADIUS)
     else Some (dx_target, dy_target));
  let APPROACH_RADIUS := ARRIVAL_RADIUS * 1.5 in
  attraction_mult ←
    (if Rlt_dec dist_to_target APPROACH_RADIUS then
       ratio ← py_div dist_to_target APPROACH_RADIUS;
       Some (ATTRACTION_STRENGTH * Rmax 0.1 ratio)
     else Some ATTRACTION_STRENGTH);
  let attr_fx := dx_target * attraction_mult in
  let attr_fy := dy_target * attraction_mult in
  Some (attr_fx, attr_fy, dist_to_target).



(** Lines 130-167: from the combined force [(fx, fy)] to the returned
    velocity, which is also the new [_previous_velocity]. *)
Definition apply_force (fx fy dist_to_target dt : R) (_previous_velocity : R * R * R)
  : option (R * R * R) :=
  total_force ← py_sqrt (fx * fx + fy * fy);
  let damping := Rmin (BASE_DAMPING + total_force * FORCE_DAMPING_FACTOR) MAX_DAMPING in
  let '(prev_vx, prev_vy, prev_vz) := _previous_velocity in
  let desired_vx := prev_vx * damping + fx * (1 - damping) in
  let desired_vy := prev_vy * damping + fy * (1 - damping) in
  ax ← py_div (desired_vx - prev_vx) dt;
  ay ← py_div (desired_vy - prev_vy) dt;
  acceleration ← py_sqrt (ax * ax + ay * ay);
  '(ax, ay) ←
    (if Rgt_dec acceleration MAX_ACCELERATION then
       kx ← py_div MAX_ACCELERATION acceleration;
       ky ← py_div MAX_ACCELERATION acceleration;
       Some (ax * kx, ay * ky)
     else Some (ax, ay));
  let vx := prev_vx + ax * dt in
  let vy := prev_vy + ay * dt in
  let vz := 0 in
  velocity ← py_sqrt (vx * vx + vy * vy);
  '(vx, vy) ←
    (if Rgt_dec velocity MAX_SPEED then
       kx ← py_div MAX_SPEED velocity;
       ky ← py_div MAX_SPEED velocity;
       Some (vx * kx, vy * ky)
     else Some (vx, vy));
  if Rlt_dec velocity TARGET_SPEED_THRESHOLD then
    if Rlt_dec dist_to_target TARGET_THRESHOLD then Some (0, 0, 0)
    else Some (vx, vy, vz)
  else Some (vx, vy, vz).


(** Euclidean norm; [norm3] is the magnitude of a velocity vector. *)
Definition norm2 (a b : R) : R := sqrt (a * a + b * b).




End Avoidance.

(** ** packet_generator.py: the bulk packet *)

Module Generator.
Import Struct Packets Codec.

(** [generate_bulk_packet]; the two random draws, the payload size and the
    data bytes, are its arguments. *)
Definition generate_bulk_packet (payload_size : Z) (data : bytes) : option bytes :=
  header ← pack_header (mkHeader PACKET_PREAMBLE payload_size BULK_DATA 0x12);
  let temp_packet := header ++ data ++ [x00; x00] in
  let crc := calculate_crc16 temp_packet in
  c ← pack_H crc;
  Some (header ++ data ++ c).

End Generator.

(** ** link.py: custom messages *)

Module LinkSend.
Import Struct Packets Codec.

(** The packet [send_custom_message] hands to [send_packet], from the UTF-8
    encoding of the message (already cut to 125 characters). *)
Definition custom_message_packet (network_id : Z) (message_utf8 : bytes)
  : CustomMessagePacket :=
  let message_bytes := take 125 message_utf8 in
  let custom_data := message_bytes ++ replicate (126 - length message_bytes) x00 in
  mkCustomMessage
    (mkHeader PACKET_PREAMBLE CUSTOM_MESSAGE_SIZE CUSTOM_MESSAGE network_id)
    custom_data 0.

(** [data.rstrip(b"\x00")] *)
Fixpoint rstrip_nul (data : bytes) : bytes :=
  match data with
  | [] => []
  | b :: rest =>
      match rstrip_nul rest with
      | [] => if Byte.eqb b x00 then [] else [b]
      | kept => b :: kept
      end
  end.

(** The bytes [_handle_received_packet] decodes as text for the custom
    message callback. *)
Definition received_message_bytes (packet : CustomMessagePacket) : bytes :=
  rstrip_nul (m_custom_data packet).

End LinkSend.

(** Vocabulary for stating the codec's properties. *)

Module CodecSpec.
Import Struct Packets Codec.

Definition type_tag (p : Packet f32) : Z :=
  match p with
  | PTelemetry _ => TELEMETRY
  | PCommand _ => COMMAND
  | PStatus _ => STATUS
  | PSensor _ => SENSOR_DATA
  | PConfig _ => CONFIG
  | PPing _ => PING
  | PAck _ => ACK
  | PCustomMessage _ => CUSTOM_MESSAGE
  end.

Definition expected_size (p : Packet f32) : Z :=
  match p with
  | PTelemetry _ => TELEMETRY_SIZE
  | PCommand _ => COMMAND_SIZE
  | PStatus _ => STATUS_SIZE
  | PSensor _ => SENSOR_SIZE
  | PConfig _ => CONFIG_SIZE
  | PPing _ => PING_SIZE
  | PAck _ => ACK_SIZE
  | PCustomMessage _ => CUSTOM_MESSAGE_SIZE
  end.

Definition u8 (v : Z) : bool := in_range v 256.
Definition u16 (v : Z) : bool := in_range v 65536.
Definition u32 (v : Z) : bool := in_range v 4294967296.

(** The header fields fit their wire types. *)
Definition header_in_range (h : PacketHeader) : bool :=
  u16 (preamble h) && u8 (payload_size h) && u8 (packet_type h) && u8 (network_id h).

(** The header carries the preamble, and the size and type of its packet. *)
Definition header_correct (p : Packet f32) : bool :=
  (preamble (header p) =? PACKET_PREAMBLE)
  && (payload_size (header p) =? expected_size p)
  && (packet_type (header p) =? type_tag p).

(** The numeric fields fit their wire types (a float: a binary32 pattern). *)
Definition fields_in_range (p : Packet f32) : bool :=
  match p with
  | PTelemetry q =>
      u8 (t_drone_id q) && u32 (t_x q) && u32 (t_y q) && u32 (t_z q)
      && u32 (t_vx q) && u32 (t_vy q) && u32 (t_vz q)
  | PCommand q => u8 (c_command_id q) && u8 (c_target_id q) && u16 (c_param q)
  | PStatus q =>
      u8 (s_drone_id q) && u8 (s_status_code q) && u16 (s_battery_mv q)
      && u16 (s_error_flags q)
  | PSensor q =>
      u8 (se_sensor_id q) && u32 (se_value1 q) && u32 (se_value2 q)
      && u32 (se_value3 q)
  | PConfig q => u8 (cf_network_id q) && u8 (cf_wifi_channel q) && u8 (cf_tx_power q)
  | PPing q => u32 (p_timestamp q)
  | PAck q => u8 (a_ack_type q) && u8 (a_ack_id q) && u16 (a_status q)
  | PCustomMessage _ => true
  end.

(** [custom_data] fills the 126 bytes of its field. *)
Definition custom_data_full (p : Packet f32) : bool :=
  match p with
  | PCustomMessage q => (length (m_custom_data q) =? 126)%nat
  | _ => true
  end.

(** What the round-trip claim asks of a packet. *)
Definition in_wire_ranges (p : Packet f32) : bool :=
  header_in_range (header p) && header_correct p && fields_in_range p.

Definition valid_packet (p : Packet f32) : bool :=
  in_wire_ranges p && custom_data_full p.

(** The bytes of [encoded] after the header: payload and CRC. *)
Definition payload_of (encoded : bytes) : bytes := drop HEADER_SIZE encoded.

(** The three rejection causes of the specification, as [unpack_packet]
    meets them: the first failing check of the source decides. *)
Inductive RejectCause := BadCrc | UnknownType | SizeMismatch.

Definition known_type (t : Z) : bool :=
  (t =? TELEMETRY) || (t =? COMMAND) || (t =? STATUS) || (t =? SENSOR_DATA)
  || (t =? CONFIG) || (t =? BULK_DATA) || (t =? PING) || (t =? ACK)
  || (t =? CUSTOM_MESSAGE).

(** The payload size [unpack_packet] insists on for a type; [BULK_DATA] has none. *)
Definition size_for_type (t : Z) : option Z :=
  if t =? TELEMETRY then Some TELEMETRY_SIZE
  else if t =? COMMAND then Some COMMAND_SIZE
  else if t =? STATUS then Some STATUS_SIZE
  else if t =? SENSOR_DATA then Some SENSOR_SIZE
  else if t =? CONFIG then Some CONFIG_SIZE
  else if t =? PING then Some PING_SIZE
  else if t =? ACK then Some ACK_SIZE
  else if t =? CUSTOM_MESSAGE then Some CUSTOM_MESSAGE_SIZE
  else None.

Definition crc_matches (h : PacketHeader) (payload : bytes) : bool :=
  match calculated_crc h payload, received_crc payload with
  | Some c, Some r => c =? r
  | _, _ => false
  end.

Definition size_matches (h : PacketHeader) : bool :=
  match size_for_type (packet_type h) with
  | Some s => payload_size h =? s
  | None => true
  end.

(** The body handed to [struct.unpack] has the length its format needs. *)
Definition body_fits (h : PacketHeader) (payload : bytes) : bool :=
  match size_for_type (packet_type h) with
  | Some s => (Z.of_nat (length payload) =? s)
  | None => true
  end.

(** [unpack_packet] gets as far as its CRC comparison: the payload holds a
    CRC and the header can be packed again. *)
Definition crc_checked (h : PacketHeader) (payload : bytes) : bool :=
  header_in_range h && negb (length payload <? 2)%nat.

Definition reject_cause (h : PacketHeader) (payload : bytes) : option RejectCause :=
  if negb (crc_checked h payload) then None
  else if negb (crc_matches h payload) then Some BadCrc
  else if negb (known_type (packet_type h)) then Some UnknownType
  else if negb (size_matches h) then Some SizeMismatch
  else None.

(** Every way [unpack_packet] has of returning [None]. *)
Definition rejected (h : PacketHeader) (payload : bytes) : bool :=
  negb (crc_checked h payload)
  || negb (crc_matches h payload)
  || negb (known_type (packet_type h))
  || negb (size_matches h)
  || negb (body_fits h payload).

(** Sample rejected inputs, one per cause. *)
Definition bad_crc_input : PacketHeader * bytes :=
  (mkHeader 0xAA55 6 7 0x12, [x00; x00; x00; x00; x00; x00]).
Definition unknown_type_input : PacketHeader * bytes :=
  (mkHeader 0xAA55 6 42 0x12, [x00; x00; x00; x00; x9a; x6d]).
Definition size_mismatch_input : PacketHeader * bytes :=
  (mkHeader 0xAA55 6 1 0x12, [x00; x00; x00; x00; x9c; x76]).

(** A value that fits sixteen bits, and the inverse of [crc_bit] on such values. *)
Definition word16 (c : Z) : Prop := 0 <= c < 65536.

Definition crc_bit_inv (r : Z) : Z :=
  if r <? 32768 then 2 * r else 2 * Z.lxor r 0xA001 + 1.

(** Sample packets. *)
Definition ping0 : Packet f32 := PPing (mkPing (mkHeader 0xAA55 6 7 0x12) 0 0).
(** The encoding of [ping0]. *)
Definition ping0_bytes : bytes :=
  [x55; xaa; x06; x07; x12; x00; x00; x00; x00; x9c; x10].
Definition short_message : Packet f32 :=
  PCustomMessage (mkCustomMessage (mkHeader 0xAA55 128 9 0x12) [x41; x42] 0x9460).

End CodecSpec.

(** Vocabulary for stating the framer's properties. *)

Module LinkSpec.
Import Packets Codec CodecSpec Link.

(** The by-type dictionaries hold every packet type, as [InterfaceStats]
    creates them. *)
Definition by_type_complete (s : InterfaceStats) : Prop :=
  forall t, known_type t = true ->
    is_Some (packets_received_by_type s !! t) /\
    is_Some (bytes_received_by_type s !! t).

(** No preamble starts inside [garbage]. *)
Definition preamble_free (garbage : bytes) : Prop :=
  bytes_find _preamble_bytes garbage = None.

(** What [unpack_packet] makes of the encoding of [p]. *)
Definition decoded (p : Packet f32) (encoded : bytes) : PyValue :=
  VPacket (with_crc p (calculate_crc16 encoded)).

(** Garbage that looks like a ping header. *)
Definition header_like_garbage : bytes := [x55; xaa; x06; x07; x00].

End LinkSpec.

(** Vocabulary for the framer: what [_extract_packet] takes for a packet. *)

Module FrameSpec.

(** A frame: preamble, size byte in [2, 128], type, network id, and as many
    bytes as the size byte says. *)
Definition is_frame (f : bytes) : Prop :=
  exists sz ty nid tail,
    f = x55 :: xaa :: sz :: ty :: nid :: tail /\
    2 <= b2z sz <= 128 /\ length tail = Z.to_nat (b2z sz).

End FrameSpec.

(** ** The presence table of drone.py: accessors and the events that change it *)

Module PresenceOps.
Import Packets DroneData Presence.

Section WithFloat.
Context {F : Type} `{PyFloat F}.

(** [get_discovered_drones]: [set(self._other_drones.keys())] *)
Definition get_discovered_drones (d : Drone F) : gset Z := dom (_other_drones d).

(** [other_drones_count] of [get_network_status]: [len(self._other_drones)] *)
Definition other_drones_count (d : Drone F) : nat := size (_other_drones d).

(** [drone_info.discovered_via == DroneDiscoveryMethod.TELEMETRY] *)
Definition is_via_telemetry (info : DroneInfo F) : bool :=
  match di_discovered_via info with
  | VIA_TELEMETRY => true
  | VIA_STATUS => false
  end.

(** [telemetry_discovered_count] of [get_network_status]: the loop over
    [self._other_drones.items()] adds one for each entry discovered via
    telemetry. *)
Definition telemetry_discovered_count (d : Drone F) : nat :=
  foldl (fun telemetry_discovered kv =>
           if is_via_telemetry kv.2 then S telemetry_discovered else telemetry_discovered)
        O (map_to_list (_other_drones d)).

(** The table and timeout as [Drone.__init__] sets them ([timeout] is 5.0
    there). *)
Definition Drone_init (drone_id : Z) (timeout : F) : Drone F :=
  mkDrone drone_id ∅ timeout.

(** Everything that touches the presence table: the two packet callbacks,
    the periodic sweep and the timeout setter. *)
Inductive Event :=
| Telemetry (current_time : F) (packet : TelemetryPacket F)
| Status (current_time : F) (packet : StatusPacket)
| Cleanup (current_time : F)
| SetExpiryTimeout (timeout : F).

Definition step (d : Drone F) (e : Event) : Drone F :=
  match e with
  | Telemetry current_time packet => _handle_telemetry_packet current_time packet d
  | Status current_time packet => _handle_status_packet current_time packet d
  | Cleanup current_time => _cleanup_expired_drones current_time d
  | SetExpiryTimeout timeout => set_drone_expiry_timeout timeout d
  end.

Definition run (events : list Event) (d : Drone F) : Drone F := foldl step d events.

(** Every entry is stored under its own id and marked as discovered via
    telemetry, and the drone itself has no entry. *)
Definition table_ok (d : Drone F) : Prop :=
  _other_drones d !! drone_id d = None /\
  forall k info, _other_drones d !! k = Some info ->
    di_drone_id info = k /\ di_discovered_via info = VIA_TELEMETRY.

End WithFloat.

Arguments Event : clear implicits.

End PresenceOps.

(** ** Vocabulary for the peers of the control law *)

Module AvoidanceOps.
Import DroneData Avoidance.
#[local] Open Scope R_scope.




End AvoidanceOps.

(** ** Float fields as Python sees them *)

Module FloatFields.
Import Packets Codec.

(** A binary32 NaN: exponent bits all ones, fraction not zero. *)
Definition is_nan32 (v : f32) : bool :=
  (Z.land (Z.shiftr v 23) 0xFF =? 0xFF) && negb (Z.land v 0x7FFFFF =? 0).

(** A signalling NaN: a NaN whose quiet bit is clear.  Widening it to a
    double, as [struct.unpack] does, sets that bit. *)
Definition is_snan32 (v : f32) : bool :=
  is_nan32 v && (Z.land v 0x400000 =? 0).

(** Plus or minus zero. *)
Definition is_zero32 (v : f32) : bool := Z.land v 0x7FFFFFFF =? 0.

(** [a == b] on two floats: false when either is a NaN, true on the two
    zeros, else equality of the values, that is of the patterns. *)
Definition float_eq (a b : f32) : bool :=
  negb (is_nan32 a) && negb (is_nan32 b) && ((a =? b) || (is_zero32 a && is_zero32 b)).

Definition float_fields (p : Packet f32) : list f32 :=
  match p with
  | PTelemetry q => [t_x q; t_y q; t_z q; t_vx q; t_vy q; t_vz q]
  | PSensor q => [se_value1 q; se_value2 q; se_value3 q]
  | _ => []
  end.

(** No float field is a NaN, or a signalling NaN. *)
Definition nan_free (p : Packet f32) : bool :=
  forallb (fun v => negb (is_nan32 v)) (float_fields p).
Definition snan_free (p : Packet f32) : bool :=
  forallb (fun v => negb (is_snan32 v)) (float_fields p).

(** [==] on two [bytes] values. *)
Fixpoint bytes_eq (a b : bytes) : bool :=
  match a, b with
  | [], [] => true
  | x :: a', y :: b' => Byte.eqb x y && bytes_eq a' b'
  | _, _ => false
  end.

(** [==] on two [PacketHeader]s. *)
Definition header_eq (h h' : PacketHeader) : bool :=
  (preamble h =? preamble h') && (payload_size h =? payload_size h')
  && (packet_type h =? packet_type h') && (network_id h =? network_id h').

(** [p == q] on two packets, the [__eq__] that [@dataclass] generates: the
    classes are the same and the fields are equal one by one.  (Two
    distinct float objects are compared by value; the packets compared
    here never share one.) *)
Definition packet_eq (p q : Packet f32) : bool :=
  match p, q with
  | PTelemetry a, PTelemetry b =>
      header_eq (t_header a) (t_header b) && (t_drone_id a =? t_drone_id b)
      && float_eq (t_x a) (t_x b) && float_eq (t_y a) (t_y b)
      && float_eq (t_z a) (t_z b) && float_eq (t_vx a) (t_vx b)
      && float_eq (t_vy a) (t_vy b) && float_eq (t_vz a) (t_vz b)
      && (t_crc a =? t_crc b)
  | PCommand a, PCommand b =>
      header_eq (c_header a) (c_header b) && (c_command_id a =? c_command_id b)
      && (c_target_id a =? c_target_id b) && (c_param a =? c_param b)
      && (c_crc a =? c_crc b)
  | PStatus a, PStatus b =>
      header_eq (s_header a) (s_header b) && (s_drone_id a =? s_drone_id b)
      && (s_status_code a =? s_status_code b) && (s_battery_mv a =? s_battery_mv b)
      && (s_error_flags a =? s_error_flags b) && (s_crc a =? s_crc b)
  | PSensor a, PSensor b =>
      header_eq (se_header a) (se_header b) && (se_sensor_id a =? se_sensor_id b)
      && float_eq (se_value1 a) (se_value1 b) && float_eq (se_value2 a) (se_value2 b)
      && float_eq (se_value3 a) (se_value3 b) && (se_crc a =? se_crc b)
  | PConfig a, PConfig b =>
      header_eq (cf_header a) (cf_header b) && (cf_network_id a =? cf_network_id b)
      && (cf_wifi_channel a =? cf_wifi_channel b) && (cf_tx_power a =? cf_tx_power b)
      && (cf_crc a =? cf_crc b)
  | PPing a, PPing b =>
      header_eq (p_header a) (p_header b) && (p_timestamp a =? p_timestamp b)
      && (p_crc a =? p_crc b)
  | PAck a, PAck b =>
      header_eq (a_header a) (a_header b) && (a_ack_type a =? a_ack_type b)
      && (a_ack_id a =? a_ack_id b) && (a_status a =? a_status b)
      && (a_crc a =? a_crc b)
  | PCustomMessage a, PCustomMessage b =>
      header_eq (m_header a) (m_header b)
      && bytes_eq (m_custom_data a) (m_custom_data b) && (m_crc a =? m_crc b)
  | _, _ => false
  end.

(** Telemetry of drone 7 at (1.0, 2.0, 1.5) with velocity (0.0, -0.0, -0.5),
    carrying the CRC of its encoding; and the same with a NaN for [z]. *)
Definition telemetry7 : Packet f32 :=
  PTelemetry (mkTelemetry (mkHeader 0xAA55 27 1 0x12) 7
                0x3F800000 0x40000000 0x3FC00000 0 0x80000000 0xBF000000 0x87BE).
Definition nan_telemetry : Packet f32 :=
  PTelemetry (mkTelemetry (mkHeader 0xAA55 27 1 0x12) 7
                0x3F800000 0x40000000 0x7FC00000 0 0x80000000 0xBF000000 0x4740).

(** The encoding of [telemetry7]. *)
Definition telemetry7_bytes : bytes :=
  [x55; xaa; x1b; x01; x12; x07; x00; x00; x80; x3f; x00; x00; x00; x40;
   x00; x00; xc0; x3f; x00; x00; x00; x00; x00; x00; x00; x80; x00; x00;
   x00; xbf; xbe; x87].

End FloatFields.

(** ** The range of inputs and the tolerances of the control law *)

Module AvoidanceRange.
Import DroneData Avoidance.
#[local] Open Scope R_scope.



(** A magnitude at which no square, product or sum of the control law
    leaves the range of a double. *)
Definition in_range (x : R) : Prop := Rabs x <= 10 ^ 100.






End AvoidanceRange.

(** ** The control law in the program's own arithmetic *)

(** Python floats are IEEE 754 binary64 numbers, which is what Rocq's
    primitive floats are: [+], [-], [*], [/] and [math.sqrt] round to
    nearest, comparisons with a NaN are false.  This model covers what the
    code computes with these operations alone: [get_avoidance_vector] on an
    empty [other_drones] (the loop body, the only place that calls
    [math.exp] and raises to a fractional power, is then not executed), and
    [calculate_repulsion_force] up to the argument of those two calls.
    [None] is a raised exception. *)

Module AvoidanceF.
Import DroneData PrimFloat.
#[local] Open Scope float_scope.

Definition COLLISION_RADIUS : float := 0x1.3333333333333p-3.       (* 0.15 *)
Definition MAX_SPEED : float := 1.5.
Definition MAX_ACCELERATION : float := 3.0.
Definition ATTRACTION_STRENGTH : float := 50.0.
Definition ARRIVAL_RADIUS : float := 0.75.
Definition TARGET_THRESHOLD : float := 0x1.999999999999ap-3.       (* 0.2 *)
Definition TARGET_SPEED_THRESHOLD : float := 0x1.999999999999ap-4. (* 0.1 *)
Definition BASE_DAMPING : float := 0x1.999999999999ap-4.           (* 0.1 *)
Definition FORCE_DAMPING_FACTOR : float := 0x1.999999999999ap-5.   (* 0.05 *)
Definition MAX_DAMPING : float := 0.25.

(** [a / b]: [None] is [ZeroDivisionError]; dividing by a NaN is no error. *)
Definition py_div (a b : float) : option float :=
  if b =? 0 then None else Some (a / b).

(** [math.sqrt(x)]: [None] is [ValueError], raised for [x < 0]. *)
Definition py_sqrt (x : float) : option float :=
  if x <? 0 then None else Some (sqrt x).

(** [x ** 2]: [None] is the [OverflowError] that float [**] raises when the
    result of finite operands is not finite.  The C library's [pow(x, 2.0)]
    is taken to be the correctly rounded square. *)
Definition py_sqr (x : float) : option float :=
  let r := x * x in
  if is_infinity r && negb (is_infinity x) then None else Some r.

(** [max(a, b)] and [min(a, b)] keep [a] unless [b] is greater, or smaller. *)
Definition py_max (a b : float) : float := if a <? b then b else a.
Definition py_min (a b : float) : float := if b <? a then b else a.

(** Lines 53-69: the attraction force and the distance to the target.
    [(...) ** 1.0] is taken to return its base. *)
Definition attraction (my_pos target_pos : DronePosition float)
  : option (float * float * float) :=
  let dx_target := pos_x target_pos - pos_x my_pos in
  let dy_target := pos_y target_pos - pos_y my_pos in
  sx ← py_sqr dx_target;
  sy ← py_sqr dy_target;
  dist_to_target ← py_sqrt (sx + sy);
  '(dx_target, dy_target) ←
    (if ARRIVAL_RADIUS <? dist_to_target then
       ux ← py_div dx_target dist_to_target;
       uy ← py_div dy_target dist_to_target;
       Some (ux * ARRIVAL_RADIUS, uy * ARRIVAL_RADIUS)
     else Some (dx_target, dy_target));
  let APPROACH_RADIUS := ARRIVAL_RADIUS * 1.5 in
  attraction_mult ←
    (if dist_to_target <? APPROACH_RADIUS then
       ratio ← py_div dist_to_target APPROACH_RADIUS;
       Some (ATTRACTION_STRENGTH * py_max 0x1.999999999999ap-4 ratio)
     else Some ATTRACTION_STRENGTH);
  let attr_fx := dx_target * attraction_mult in
  let attr_fy := dy_target * attraction_mult in
  Some (attr_fx, attr_fy, dist_to_target).

(** Lines 130-167: from the combined force to the returned velocity. *)
Definition apply_force (fx fy dist_to_target dt : float)
    (_previous_velocity : float * float * float) : option (float * float * float) :=
  sx ← py_sqr fx;
  sy ← py_sqr fy;
  total_force ← py_sqrt (sx + sy);
  let damping := py_min (BASE_DAMPING + total_force * FORCE_DAMPING_FACTOR) MAX_DAMPING in
  let '(prev_vx, prev_vy, prev_vz) := _previous_velocity in
  let desired_vx := prev_vx * damping + fx * (1 - damping) in
  let desired_vy := prev_vy * damping + fy * (1 - damping) in
  ax ← py_div (desired_vx - prev_vx) dt;
  ay ← py_div (desired_vy - prev_vy) dt;
  acceleration ← py_sqrt (ax * ax + ay * ay);
  '(ax, ay) ←
    (if MAX_ACCELERATION <? acceleration then
       kx ← py_div MAX_ACCELERATION acceleration;
       ky ← py_div MAX_ACCELERATION acceleration;
       Some (ax * kx, ay * ky)
     else Some (ax, ay));
  let vx := prev_vx + ax * dt in
  let vy := prev_vy + ay * dt in
  let vz := 0 in
  velocity ← py_sqrt (vx * vx + vy * vy);
  '(vx, vy) ←
    (if MAX_SPEED <? velocity then
       kx ← py_div MAX_SPEED velocity;
       ky ← py_div MAX_SPEED velocity;
       Some (vx * kx, vy * ky)
     else Some (vx, vy));
  if (velocity <? TARGET_SPEED_THRESHOLD) && (dist_to_target <? TARGET_THRESHOLD)
  then Some (0, 0, 0)
  else Some (vx, vy, vz).



(** The exact value of a finite double. *)
Definition exact (x : float) : option Q :=
  match FloatOps.Prim2SF x with
  | SpecFloat.S754_zero _ => Some 0%Q
  | SpecFloat.S754_finite s m e =>
      Some ((if s then - inject_Z (Zpos m) else inject_Z (Zpos m)) * Qpower 2 e)%Q
  | _ => None
  end.



End AvoidanceF.
(** * Properties *)

(** ** Bytes *)

Lemma b2z_range (b : byte) : 0 <= b2z b < 256.
Proof.
  unfold b2z. pose proof (Byte.to_N_bounded b). lia.
Qed.

Lemma b2z_z2b (v : Z) : b2z (z2b v) = v mod 256.
Proof.
  unfold b2z, z2b.
  assert (Hm : 0 <= v mod 256 < 256) by (apply Z.mod_pos_bound; lia).
  destruct (Byte.of_N (Z.to_N (v mod 256))) as [b|] eqn:E; simpl.
  - apply Byte.to_of_N in E. rewrite E. lia.
  - apply Byte.of_N_None_iff in E. lia.
Qed.

Lemma z2b_b2z (b : byte) : z2b (b2z b) = b.
Proof.
  unfold z2b. pose proof (b2z_range b) as Hr.
  rewrite Z.mod_small by lia. unfold b2z. rewrite N2Z.id.
  now rewrite Byte.of_to_N.
Qed.

Lemma b2z_inj (a b : byte) : b2z a = b2z b -> a = b.
Proof.
  intros H. rewrite <- (z2b_b2z a), <- (z2b_b2z b). now rewrite H.
Qed.

Lemma but_last2_app (l : bytes) (a b : byte) : but_last2 (l ++ [a; b]) = l.
Proof.
  unfold but_last2. rewrite length_app. simpl.
  replace (length l + 2 - 2)%nat with (length l) by lia.
  now rewrite take_app_length.
Qed.

Lemma last2_app (l : bytes) (a b : byte) : last2 (l ++ [a; b]) = [a; b].
Proof.
  unfold last2. rewrite length_app. simpl.
  replace (length l + 2 - 2)%nat with (length l) by lia.
  now rewrite drop_app_length.
Qed.

Module StructFacts.
Import Struct.

Lemma in_range_spec v bound : in_range v bound = true <-> 0 <= v < bound.
Proof. unfold in_range. rewrite andb_true_iff, Z.leb_le, Z.ltb_lt. tauto. Qed.

Lemma le16_range b0 b1 : 0 <= le16 b0 b1 < 65536.
Proof.
  unfold le16. pose proof (b2z_range b0). pose proof (b2z_range b1). lia.
Qed.

Lemma le16_z2b v : 0 <= v < 65536 -> le16 (z2b v) (z2b (v / 256)) = v.
Proof.
  intros Hv. unfold le16. rewrite !b2z_z2b.
  rewrite (Z.mod_small (v / 256)) by (split; [apply Z.div_pos|apply Z.div_lt_upper_bound]; lia).
  pose proof (Z.div_mod v 256). lia.
Qed.

Lemma le32_z2b v :
  0 <= v < 4294967296 ->
  le32 (z2b v) (z2b (v / 256)) (z2b (v / 65536)) (z2b (v / 16777216)) = v.
Proof.
  intros Hv. unfold le32. rewrite !b2z_z2b.
  assert (E1 : v / 65536 = v / 256 / 256) by (rewrite Z.div_div by lia; reflexivity).
  assert (E2 : v / 16777216 = v / 256 / 256 / 256)
    by (rewrite !Z.div_div by lia; reflexivity).
  rewrite E1, E2.
  set (a := v / 256). set (b := a / 256). set (c := b / 256).
  pose proof (Z.div_mod v 256). pose proof (Z.div_mod a 256).
  pose proof (Z.div_mod b 256).
  assert (0 <= c < 256).
  { subst c b a. rewrite !Z.div_div by lia. simpl.
    split; [apply Z.div_pos|apply Z.div_lt_upper_bound]; lia. }
  rewrite (Z.mod_small c) by lia. fold a in H. fold b in H0. fold c in H1. lia.
Qed.

Lemma le16_inj a0 a1 b0 b1 : le16 a0 a1 = le16 b0 b1 -> a0 = b0 /\ a1 = b1.
Proof.
  unfold le16. intros H.
  pose proof (b2z_range a0). pose proof (b2z_range a1).
  pose proof (b2z_range b0). pose proof (b2z_range b1).
  split; apply b2z_inj; lia.
Qed.

End StructFacts.

(** ** CRC16 *)

Module CrcFacts.
Import Struct Packets Codec CodecSpec.

Lemma lxor_word16 a b : word16 a -> word16 b -> word16 (Z.lxor a b).
Proof.
  unfold word16. intros Ha Hb.
  assert (Hn : 0 <= Z.lxor a b) by (apply Z.lxor_nonneg; lia).
  split; [exact Hn|].
  destruct (Z.eq_dec (Z.lxor a b) 0) as [->|Hz]; [lia|].
  change 65536 with (2 ^ 16). apply Z.log2_lt_pow2; [lia|].
  pose proof (Z.log2_lxor a b ltac:(lia) ltac:(lia)) as Hl.
  assert (Z.log2 a < 16).
  { destruct (Z.eq_dec a 0) as [->|]; [simpl; lia|]. apply Z.log2_lt_pow2; lia. }
  assert (Z.log2 b < 16).
  { destruct (Z.eq_dec b 0) as [->|]; [simpl; lia|]. apply Z.log2_lt_pow2; lia. }
  lia.
Qed.

Lemma land_1_parity c : Z.land c 1 = c mod 2.
Proof. change 1 with (Z.ones 1). now rewrite Z.land_ones by lia. Qed.

(** The high bit of the polynomial marks the rounds that took the xor branch. *)
Lemma lxor_poly_high q : 0 <= q < 32768 -> 32768 <= Z.lxor q 0xA001 < 65536.
Proof.
  intros Hq.
  assert (Hw : word16 (Z.lxor q 0xA001)) by (apply lxor_word16; unfold word16; lia).
  split; [|apply Hw].
  destruct (Z_lt_le_dec (Z.lxor q 0xA001) 32768) as [Hlt|]; [exfalso|assumption].
  assert (Hb : Z.testbit (Z.lxor q 0xA001) 15 = true).
  { rewrite Z.lxor_spec.
    replace (Z.testbit q 15) with false; [reflexivity|].
    symmetry. destruct (Z.eq_dec q 0) as [->|]; [reflexivity|].
    apply Z.bits_above_log2; [lia|]. apply Z.log2_lt_pow2; lia. }
  destruct Hw as [Hw0 _].
  destruct (Z.eq_dec (Z.lxor q 0xA001) 0) as [E|E].
  - rewrite E in Hb. discriminate.
  - rewrite Z.bits_above_log2 in Hb; [discriminate|lia|].
    apply Z.log2_lt_pow2; lia.
Qed.

Lemma crc_bit_word16 c : word16 c -> word16 (crc_bit c).
Proof.
  unfold word16, crc_bit. intros Hc. rewrite Z.shiftr_div_pow2 by lia.
  change (2 ^ 1) with 2.
  assert (0 <= c / 2 < 32768)
    by (split; [apply Z.div_pos|apply Z.div_lt_upper_bound]; lia).
  destruct (Z.land c 1 =? 0); [lia|].
  pose proof (lxor_poly_high (c / 2)). lia.
Qed.

Lemma crc_bit_inv_l c : word16 c -> crc_bit_inv (crc_bit c) = c.
Proof.
  unfold word16, crc_bit, crc_bit_inv. intros Hc.
  rewrite Z.shiftr_div_pow2 by lia. change (2 ^ 1) with 2.
  rewrite land_1_parity.
  assert (Hq : 0 <= c / 2 < 32768)
    by (split; [apply Z.div_pos|apply Z.div_lt_upper_bound]; lia).
  pose proof (Z.div_mod c 2 ltac:(lia)) as Hdm.
  pose proof (Z.mod_pos_bound c 2 ltac:(lia)) as Hm.
  destruct (c mod 2 =? 0) eqn:E.
  - apply Z.eqb_eq in E.
    destruct (c / 2 <? 32768) eqn:E'; [lia|apply Z.ltb_ge in E'; lia].
  - apply Z.eqb_neq in E.
    pose proof (lxor_poly_high (c / 2) Hq) as Hh.
    destruct (Z.lxor (c / 2) 40961 <? 32768) eqn:E'; [apply Z.ltb_lt in E'; lia|].
    rewrite Z.lxor_assoc, Z.lxor_nilpotent, Z.lxor_0_r. lia.
Qed.

Lemma crc_bit_inj c c' : word16 c -> word16 c' -> crc_bit c = crc_bit c' -> c = c'.
Proof.
  intros Hc Hc' E. rewrite <- (crc_bit_inv_l c Hc), <- (crc_bit_inv_l c' Hc').
  now rewrite E.
Qed.

Lemma iter_crc_bit_word16 n c : word16 c -> word16 (Nat.iter n crc_bit c).
Proof. induction n; simpl; intros; [assumption|apply crc_bit_word16; auto]. Qed.

Lemma iter_crc_bit_inj n c c' :
  word16 c -> word16 c' -> Nat.iter n crc_bit c = Nat.iter n crc_bit c' -> c = c'.
Proof.
  induction n; simpl; intros Hc Hc' E; [assumption|].
  apply IHn; try assumption.
  apply crc_bit_inj; auto using iter_crc_bit_word16.
Qed.

Lemma b2z_word16 b : word16 (b2z b).
Proof. pose proof (b2z_range b). unfold word16. lia. Qed.

Lemma crc_byte_word16 c b : word16 c -> word16 (crc_byte c b).
Proof.
  intros. apply iter_crc_bit_word16, lxor_word16; auto using b2z_word16.
Qed.

(** A byte step is injective in the running CRC ... *)
Lemma crc_byte_inj_state c c' b :
  word16 c -> word16 c' -> crc_byte c b = crc_byte c' b -> c = c'.
Proof.
  unfold crc_byte. intros Hc Hc' E.
  apply iter_crc_bit_inj in E; auto using lxor_word16, b2z_word16.
  apply (f_equal (fun z => Z.lxor z (b2z b))) in E.
  now rewrite !Z.lxor_assoc, !Z.lxor_nilpotent, !Z.lxor_0_r in E.
Qed.

(** ... and in the byte it consumes. *)
Lemma crc_byte_inj_byte c b b' :
  word16 c -> crc_byte c b = crc_byte c b' -> b = b'.
Proof.
  unfold crc_byte. intros Hc E.
  apply iter_crc_bit_inj in E; auto using lxor_word16, b2z_word16.
  apply b2z_inj.
  apply (f_equal (Z.lxor c)) in E.
  now rewrite <- !Z.lxor_assoc, !Z.lxor_nilpotent, !Z.lxor_0_l in E.
Qed.

Lemma fold_crc_word16 l c : word16 c -> word16 (fold_left crc_byte l c).
Proof.
  revert c. induction l as [|b l IH]; simpl; intros; [assumption|].
  apply IH, crc_byte_word16; assumption.
Qed.

Lemma fold_crc_inj l c c' :
  word16 c -> word16 c' ->
  fold_left crc_byte l c = fold_left crc_byte l c' -> c = c'.
Proof.
  revert c c'. induction l as [|b l IH]; simpl; intros c c' Hc Hc' E; [assumption|].
  apply IH in E; auto using crc_byte_word16.
  eapply crc_byte_inj_state; eauto.
Qed.

(** Replacing one byte of the input by another one changes the running CRC. *)
Lemma fold_crc_insert (l : bytes) (j : nat) (b b' : byte) c :
  word16 c -> l !! j = Some b -> b' <> b ->
  fold_left crc_byte (<[j:=b']> l) c <> fold_left crc_byte l c.
Proof.
  revert j c. induction l as [|a l IH]; intros j c Hc Hj Hne; [discriminate|].
  destruct j as [|j]; simpl in *.
  - injection Hj as ->. intros E.
    apply fold_crc_inj in E; auto using crc_byte_word16.
    apply crc_byte_inj_byte in E; auto.
  - apply IH; auto using crc_byte_word16.
Qed.

Lemma land_word16 c : word16 c -> Z.land c 0xFFFF = c.
Proof.
  unfold word16. intros Hc. change 0xFFFF with (Z.ones 16).
  rewrite Z.land_ones by lia. apply Z.mod_small. simpl. lia.
Qed.

Lemma calculate_crc16_fold l :
  calculate_crc16 l = fold_left crc_byte (but_last2 l) 0xFFFF.
Proof.
  unfold calculate_crc16. apply land_word16, fold_crc_word16. unfold word16. lia.
Qed.

Lemma calculate_crc16_range l : 0 <= calculate_crc16 l < 65536.
Proof.
  rewrite calculate_crc16_fold. apply fold_crc_word16. unfold word16. lia.
Qed.

(** The two trailing bytes never enter the computation. *)
Lemma calculate_crc16_trailer l a b a' b' :
  calculate_crc16 (l ++ [a; b]) = calculate_crc16 (l ++ [a'; b']).
Proof. now rewrite !calculate_crc16_fold, !but_last2_app. Qed.

End CrcFacts.

(** ** The codec *)

Module CodecFacts.
Import Struct Packets Codec CodecSpec FloatFields StructFacts CrcFacts.

Lemma pack_header_ok h :
  header_in_range h = true ->
  pack_header h =
    Some [z2b (preamble h); z2b (preamble h / 256); z2b (payload_size h);
          z2b (packet_type h); z2b (network_id h)].
Proof.
  unfold header_in_range, u16, u8, pack_header, pack_H, pack_B.
  rewrite !andb_true_iff. intros [[[-> ->] ->] ->]. reflexivity.
Qed.

Lemma pack_H_crc l :
  pack_H (calculate_crc16 l) =
    Some [z2b (calculate_crc16 l); z2b (calculate_crc16 l / 256)].
Proof.
  unfold pack_H. pose proof (calculate_crc16_range l) as Hr.
  apply in_range_spec in Hr. now rewrite Hr.
Qed.

Lemma unpack_packet_encoded h hdr data :
  pack_header h = Some hdr ->
  let crc := calculate_crc16 (hdr ++ data ++ [x00; x00]) in
  let payload := data ++ [z2b crc; z2b (crc / 256)] in
  unpack_packet h payload = unpack_typed h payload crc.
Proof.
  intros Hh crc payload. unfold unpack_packet.
  assert (Hlen : (length payload <? 2)%nat = false).
  { apply Nat.ltb_ge. subst payload. rewrite length_app. simpl. lia. }
  rewrite Hlen. unfold received_crc, calculated_crc. subst payload.
  rewrite last2_app, but_last2_app, Hh. simpl.
  rewrite le16_z2b by apply calculate_crc16_range.
  fold crc. now rewrite Z.eqb_refl.
Qed.


Lemma pack_packet_shape p hdr data :
  pack_header (header p) = Some hdr ->
  pack_data p = Some data ->
  let crc := calculate_crc16 (hdr ++ data ++ [x00; x00]) in
  pack_packet (VPacket p) = Some (hdr ++ data ++ [z2b crc; z2b (crc / 256)]).
Proof.
  intros Hh Hd crc. unfold pack_packet. rewrite Hh, Hd. simpl.
  fold crc. unfold crc. now rewrite pack_H_crc.
Qed.

Lemma b2z_z2b_u8 v : u8 v = true -> b2z (z2b v) = v.
Proof.
  unfold u8. rewrite in_range_spec. intros. rewrite b2z_z2b. now apply Z.mod_small.
Qed.

Lemma le16_z2b_u16 v : u16 v = true -> le16 (z2b v) (z2b (v / 256)) = v.
Proof. unfold u16. rewrite in_range_spec. apply le16_z2b. Qed.

Lemma le32_z2b_u32 v :
  u32 v = true ->
  le32 (z2b v) (z2b (v / 256)) (z2b (v / 65536)) (z2b (v / 16777216)) = v.
Proof. unfold u32. rewrite in_range_spec. apply le32_z2b. Qed.

Ltac split_ranges :=
  repeat match goal with
         | H : _ && _ = true |- _ => apply andb_true_iff in H; destruct H
         end.

Ltac pack_fields :=
  unfold pack_f, pack_I, pack_H, pack_B;
  repeat match goal with
         | H : u8 ?v = true |- context [in_range ?v 256] =>
             change (in_range v 256) with (u8 v); rewrite H
         | H : u16 ?v = true |- context [in_range ?v 65536] =>
             change (in_range v 65536) with (u16 v); rewrite H
         | H : u32 ?v = true |- context [in_range ?v 4294967296] =>
             change (in_range v 4294967296) with (u32 v); rewrite H
         end.

Ltac unpack_fields :=
  repeat match goal with
         | H : u8 ?v = true |- _ => rewrite (b2z_z2b_u8 v H)
         | H : u16 ?v = true |- _ => rewrite (le16_z2b_u16 v H)
         | H : u32 ?v = true |- _ => rewrite (le32_z2b_u32 v H)
         end.

Lemma unpack_typed_pack_data p :
  header_correct p = true -> fields_in_range p = true -> custom_data_full p = true ->
  exists data,
    pack_data p = Some data /\
    Z.of_nat (length data) + 2 = payload_size (header p) /\
    forall a b c, unpack_typed (header p) (data ++ [a; b]) c = Some (VPacket (with_crc p c)).
Proof.
  unfold header_correct. intros Hc Hf Hd.
  apply andb_true_iff in Hc as [Hc Ht]. apply andb_true_iff in Hc as [_ Hs].
  apply Z.eqb_eq in Hs, Ht.
  destruct p as [q|q|q|q|q|q|q|q]; destruct q as [h ?]; simpl in *;
    split_ranges; pack_fields; simpl;
    (eexists; split; [reflexivity|]); (split; [rewrite Hs|intros a b c]).
  all: try reflexivity.
  all: try (unfold unpack_typed; rewrite but_last2_app, Ht, Hs; simpl;
            unpack_fields; reflexivity).
  - apply Nat.eqb_eq in Hd. rewrite length_app, length_take, length_replicate, Hd.
    reflexivity.
  - unfold unpack_typed; rewrite but_last2_app, Ht, Hs; simpl.
    apply Nat.eqb_eq in Hd. rewrite take_ge by lia. rewrite Hd. simpl.
    rewrite app_nil_r. unfold unpack_126s. rewrite Hd. reflexivity.
Qed.

Lemma with_crc_same (p : Packet f32) : with_crc p (crc p) = p.
Proof. destruct p as [q|q|q|q|q|q|q|q]; destruct q; reflexivity. Qed.

Lemma pack_header_length h hdr : pack_header h = Some hdr -> length hdr = HEADER_SIZE.
Proof.
  unfold pack_header, pack_H, pack_B. intros H.
  repeat match type of H with
         | context [in_range ?v ?b] => destruct (in_range v b); simpl in H; [|discriminate]
         end.
  now injection H as <-.
Qed.

Lemma pack_packet_inv p encoded :
  pack_packet (VPacket p) = Some encoded ->
  exists hdr data,
    pack_header (header p) = Some hdr /\ pack_data p = Some data /\
    encoded = hdr ++ data
              ++ [z2b (calculate_crc16 (hdr ++ data ++ [x00; x00]));
                  z2b (calculate_crc16 (hdr ++ data ++ [x00; x00]) / 256)].
Proof.
  unfold pack_packet. intros H.
  destruct (pack_header (header p)) as [hdr|] eqn:Hh; [|discriminate].
  destruct (pack_data p) as [data|] eqn:Hd; [|discriminate].
  simpl in H. rewrite pack_H_crc in H. simpl in H. injection H as <-.
  now exists hdr, data.
Qed.

Lemma unpack_packet_crc_mismatch h payload :
  crc_matches h payload = false -> unpack_packet h payload = None.
Proof.
  unfold crc_matches, unpack_packet. intros H.
  destruct (length payload <? 2)%nat; [reflexivity|].
  destruct (received_crc payload) as [r|]; [|reflexivity]. simpl.
  destruct (calculated_crc h payload) as [c|]; [|reflexivity]. simpl.
  now rewrite H.
Qed.

(** Decoding the encoding of a valid packet gives the packet back, with the
    CRC of the encoding in its [crc] field. *)
Lemma encode_then_decode p :
  valid_packet p = true ->
  exists encoded,
    pack_packet (VPacket p) = Some encoded /\
    Z.of_nat (length encoded) = Z.of_nat HEADER_SIZE + payload_size (header p) /\
    unpack_packet (header p) (payload_of encoded)
      = Some (VPacket (with_crc p (calculate_crc16 encoded))).
Proof.
  unfold valid_packet, in_wire_ranges. rewrite !andb_true_iff.
  intros [[[Hh Hc] Hf] Hd].
  destruct (unpack_typed_pack_data p Hc Hf Hd) as (data & Hdata & Hlen & Hun).
  pose proof (pack_header_ok _ Hh) as Hhdr.
  pose proof (pack_packet_shape p _ _ Hhdr Hdata) as Hp. cbv zeta in Hp.
  set (hdr := [z2b (preamble (header p)); z2b (preamble (header p) / 256);
               z2b (payload_size (header p)); z2b (packet_type (header p));
               z2b (network_id (header p))]) in *.
  set (c := calculate_crc16 (hdr ++ data ++ [x00; x00])) in *.
  exists (hdr ++ data ++ [z2b c; z2b (c / 256)]).
  assert (Hcrc : calculate_crc16 (hdr ++ data ++ [z2b c; z2b (c / 256)]) = c).
  { unfold c. rewrite !app_assoc. apply calculate_crc16_trailer. }
  assert (Hdec : unpack_packet (header p)
                   (payload_of (hdr ++ data ++ [z2b c; z2b (c / 256)]))
                 = Some (VPacket (with_crc p c))).
  { unfold payload_of. change (drop HEADER_SIZE (hdr ++ ?l)) with l.
    unfold c. rewrite (unpack_packet_encoded _ _ data Hhdr). apply Hun. }
  split; [exact Hp|]. split.
  - rewrite !length_app. simpl. rewrite <- Hlen. unfold HEADER_SIZE. lia.
  - now rewrite Hcrc.
Qed.

(** *** Python's [==] on packets *)

Lemma float_eq_refl v : is_nan32 v = false -> float_eq v v = true.
Proof. intros Hn. unfold float_eq. now rewrite Hn, Z.eqb_refl. Qed.

Lemma float_eq_nan v w : is_nan32 v = true -> float_eq w v = false.
Proof. intros Hn. unfold float_eq. rewrite Hn. now destruct (is_nan32 w). Qed.

Lemma header_eq_refl h : header_eq h h = true.
Proof. unfold header_eq. now rewrite !Z.eqb_refl. Qed.

Lemma bytes_eq_refl d : bytes_eq d d = true.
Proof.
  induction d as [|b d IH]; [reflexivity|]. simpl. rewrite IH, andb_true_r.
  now apply Byte.byte_dec_lb.
Qed.

Ltac nan_free_fields H :=
  unfold nan_free in H; cbn [float_fields forallb] in H;
  rewrite ?andb_true_iff, ?negb_true_iff in H.

(** A packet without NaN fields equals, in Python's sense, its copy with
    another [crc] exactly when the two CRC values are the same. *)
Lemma packet_eq_with_crc p c :
  nan_free p = true -> (packet_eq (with_crc p c) p = true <-> c = Packets.crc p).
Proof.
  intros Hn.
  destruct p as [q|q|q|q|q|q|q|q]; destruct q; nan_free_fields Hn;
    cbn [with_crc packet_eq Packets.crc t_header t_drone_id t_x t_y t_z t_vx t_vy t_vz
           t_crc c_header c_command_id c_target_id c_param c_crc s_header s_drone_id
           s_status_code s_battery_mv s_error_flags s_crc se_header se_sensor_id
           se_value1 se_value2 se_value3 se_crc cf_header cf_network_id cf_wifi_channel
           cf_tx_power cf_crc p_header p_timestamp p_crc a_header a_ack_type a_ack_id
           a_status a_crc m_header m_custom_data m_crc];
    rewrite ?header_eq_refl, ?Z.eqb_refl, ?bytes_eq_refl, ?float_eq_refl by tauto;
    cbn [andb]; apply Z.eqb_eq.
Qed.

(** C1 (in the form the code satisfies).  Round trip: for every typed
    packet whose header and numeric fields fit their wire types, whose
    header carries the preamble and the size and type of the packet, whose
    [custom_data] (for a custom message) is exactly 126 bytes long and
    whose float fields are binary32 values other than NaN, [pack_packet]
    succeeds, the encoding is [HEADER_SIZE + payload_size] bytes long, and
    [unpack_packet] on its payload-and-CRC portion returns the packet with
    its [crc] field set to the CRC16 of the encoding; what it returns is
    [==] to the packet exactly when the packet already carried that CRC. *)
Theorem pack_unpack_roundtrip p :
  valid_packet p = true -> nan_free p = true ->
  exists encoded q,
    pack_packet (VPacket p) = Some encoded /\
    Z.of_nat (length encoded) = Z.of_nat HEADER_SIZE + payload_size (header p) /\
    unpack_packet (header p) (payload_of encoded) = Some (VPacket q) /\
    q = with_crc p (calculate_crc16 encoded) /\
    (packet_eq q p = true <-> Packets.crc p = calculate_crc16 encoded).
Proof.
  intros Hv Hn.
  destruct (encode_then_decode p Hv) as (encoded & Hpack & Hlen & Hdec).
  exists encoded, (with_crc p (calculate_crc16 encoded)).
  split; [exact Hpack|]. split; [exact Hlen|]. split; [exact Hdec|].
  split; [reflexivity|].
  rewrite (packet_eq_with_crc p _ Hn). split; congruence.
Qed.

Lemma pack_unpack_roundtrip_witness :
  exists encoded q,
    pack_packet (VPacket telemetry7) = Some encoded /\
    Z.of_nat (length encoded) = Z.of_nat HEADER_SIZE + payload_size (header telemetry7) /\
    unpack_packet (header telemetry7) (payload_of encoded) = Some (VPacket q) /\
    q = with_crc telemetry7 (calculate_crc16 encoded) /\
    (packet_eq q telemetry7 = true <-> Packets.crc telemetry7 = calculate_crc16 encoded).
Proof.
  apply (pack_unpack_roundtrip telemetry7); vm_compute; reflexivity.
Defined.

Lemma crc_matches_body_changed h hdr data data' c0 c1 :
  pack_header h = Some hdr ->
  le16 c0 c1 = calculate_crc16 (hdr ++ data ++ [x00; x00]) ->
  fold_left crc_byte (hdr ++ data') 0xFFFF <> fold_left crc_byte (hdr ++ data) 0xFFFF ->
  crc_matches h (data' ++ [c0; c1]) = false.
Proof.
  intros Hh Hc Hne. unfold crc_matches, calculated_crc, received_crc.
  rewrite Hh, last2_app, but_last2_app. simpl.
  apply Z.eqb_neq. rewrite Hc, !calculate_crc16_fold.
  rewrite !app_assoc, !but_last2_app. exact Hne.
Qed.

Lemma crc_matches_crc_changed h hdr data c0 c1 c0' c1' :
  pack_header h = Some hdr ->
  le16 c0 c1 = calculate_crc16 (hdr ++ data ++ [x00; x00]) ->
  (c0', c1') <> (c0, c1) ->
  crc_matches h (data ++ [c0'; c1']) = false.
Proof.
  intros Hh Hc Hne. unfold crc_matches, calculated_crc, received_crc.
  rewrite Hh, last2_app, but_last2_app. simpl.
  apply Z.eqb_neq. rewrite <- Hc. intros E. symmetry in E.
  apply le16_inj in E as [-> ->]. now apply Hne.
Qed.

(** C2.  Corruption rejection: in the encoding of any packet produced by
    [pack_packet], replacing one byte after the 5-byte header (a payload byte
    or one of the two CRC bytes) by a different value makes the CRC that
    [unpack_packet] recomputes differ from the one it reads, so it returns
    [None]. *)
Theorem single_byte_corruption_rejected p encoded (i : nat) (b b' : byte) :
  pack_packet (VPacket p) = Some encoded ->
  (HEADER_SIZE <= i)%nat ->
  encoded !! i = Some b ->
  b' <> b ->
  crc_matches (header p) (payload_of (<[i:=b']> encoded)) = false /\
  unpack_packet (header p) (payload_of (<[i:=b']> encoded)) = None.
Proof.
  intros Hp Hi Hb Hne.
  apply pack_packet_inv in Hp as (hdr & data & Hh & _ & ->).
  pose proof (pack_header_length _ _ Hh) as Hl.
  set (c := calculate_crc16 (hdr ++ data ++ [x00; x00])) in *.
  assert (Hc : le16 (z2b c) (z2b (c / 256)) = c)
    by apply le16_z2b, calculate_crc16_range.
  assert (Hm : crc_matches (header p)
                 (payload_of (<[i:=b']> (hdr ++ data ++ [z2b c; z2b (c / 256)]))) = false).
  { unfold payload_of.
    rewrite insert_app_r_alt by lia. rewrite <- Hl at 1. rewrite drop_app_length.
    rewrite lookup_app_r in Hb by lia. rewrite Hl in *.
    set (j := (i - HEADER_SIZE)%nat) in *.
    destruct (decide (j < length data)%nat) as [Hj|Hj].
    - rewrite insert_app_l by lia. rewrite lookup_app_l in Hb by lia.
      eapply crc_matches_body_changed; eauto.
      replace (hdr ++ <[j:=b']> data) with (<[(length hdr + j)%nat:=b']> (hdr ++ data))
        by (rewrite insert_app_r; reflexivity).
      apply (fold_crc_insert _ _ b); [unfold word16; lia| |assumption].
      rewrite lookup_app_r by lia.
      now replace (length hdr + j - length hdr)%nat with j by lia.
    - rewrite lookup_app_r in Hb by lia.
      rewrite insert_app_r_alt by lia.
      destruct (j - length data)%nat as [|[|k]] eqn:Ek; simpl in Hb; [| |discriminate];
        injection Hb as <-; simpl;
        eapply crc_matches_crc_changed; eauto; congruence. }
  split; [exact Hm|]. now apply unpack_packet_crc_mismatch.
Qed.

Lemma single_byte_corruption_rejected_witness :
  crc_matches (header ping0) (payload_of (<[7%nat:=x01]> ping0_bytes)) = false /\
  unpack_packet (header ping0) (payload_of (<[7%nat:=x01]> ping0_bytes)) = None.
Proof.
  apply (single_byte_corruption_rejected ping0 ping0_bytes 7 x00 x01).
  - vm_compute. reflexivity.
  - unfold HEADER_SIZE. lia.
  - reflexivity.
  - discriminate.
Defined.

(** C1, counterexample.  A ping built the way every sender builds it, with
    [crc = 0], does not come back: the decoded packet carries the computed
    CRC.  A custom message whose [custom_data] is shorter than 126 bytes
    does not come back either, even when it carries the right CRC: the
    decoded data are null-padded.  And a telemetry packet with a NaN
    coordinate and the right CRC comes back with the same bits in every
    field, yet is not [==] to the packet that was sent. *)
Lemma roundtrip_counterexample :
  (in_wire_ranges ping0 = true /\
   exists encoded,
     pack_packet (VPacket ping0) = Some encoded /\
     unpack_packet (header ping0) (payload_of encoded) <> Some (VPacket ping0)) /\
  (in_wire_ranges short_message = true /\
   exists encoded,
     pack_packet (VPacket short_message) = Some encoded /\
     calculate_crc16 encoded = Packets.crc short_message /\
     unpack_packet (header short_message) (payload_of encoded)
       <> Some (VPacket short_message)) /\
  (valid_packet nan_telemetry = true /\
   exists encoded q,
     pack_packet (VPacket nan_telemetry) = Some encoded /\
     calculate_crc16 encoded = Packets.crc nan_telemetry /\
     unpack_packet (header nan_telemetry) (payload_of encoded) = Some (VPacket q) /\
     packet_eq q nan_telemetry = false).
Proof.
  split; [|split].
  - split; [reflexivity|]. eexists. split; [vm_compute; reflexivity|].
    vm_compute. discriminate.
  - split; [reflexivity|]. eexists. split; [vm_compute; reflexivity|].
    split; [vm_compute; reflexivity|].
    vm_compute. discriminate.
  - split; [vm_compute; reflexivity|]. eexists _, _.
    split; [vm_compute; reflexivity|]. split; [vm_compute; reflexivity|].
    split; [vm_compute; reflexivity|]. vm_compute. reflexivity.
Qed.

(** C3, counterexample.  A CRC mismatch, an unknown type and a size mismatch
    all make [unpack_packet] return the same value, so no function of the
    returned value tells the cause. *)
Lemma rejection_causes_share_one_value :
  reject_cause bad_crc_input.1 bad_crc_input.2 = Some BadCrc /\
  reject_cause unknown_type_input.1 unknown_type_input.2 = Some UnknownType /\
  reject_cause size_mismatch_input.1 size_mismatch_input.2 = Some SizeMismatch /\
  unpack_packet bad_crc_input.1 bad_crc_input.2
    = unpack_packet unknown_type_input.1 unknown_type_input.2 /\
  unpack_packet unknown_type_input.1 unknown_type_input.2
    = unpack_packet size_mismatch_input.1 size_mismatch_input.2 /\
  (forall classify : option PyValue -> RejectCause,
      ~ forall h payload c,
          reject_cause h payload = Some c -> classify (unpack_packet h payload) = c).
Proof.
  do 5 (split; [vm_compute; reflexivity|]).
  intros classify H.
  pose proof (H bad_crc_input.1 bad_crc_input.2 BadCrc eq_refl) as H1.
  pose proof (H unknown_type_input.1 unknown_type_input.2 UnknownType eq_refl) as H2.
  vm_compute in H1, H2. congruence.
Qed.

Lemma length_but_last2 (l : bytes) : length (but_last2 l) = (length l - 2)%nat.
Proof. unfold but_last2. rewrite length_take. lia. Qed.

Lemma length_last2 (l : bytes) : (2 <= length l)%nat -> length (last2 l) = 2%nat.
Proof. unfold last2. rewrite length_drop. lia. Qed.

Ltac fixed_length body n :=
  let Hn := fresh "Hn" in
  assert (Hn : length body = n) by lia;
  clear - Hn;
  repeat (destruct body as [|? body]; simpl in Hn; try lia);
  simpl; eexists; reflexivity.

Lemma unpack_typed_accepts h payload c :
  known_type (packet_type h) = true ->
  size_matches h = true -> body_fits h payload = true ->
  is_Some (unpack_typed h payload c).
Proof.
  unfold known_type, size_matches, body_fits, size_for_type, unpack_typed.
  intros Hk Hs Hb.
  pose proof (length_but_last2 payload) as Hl.
  set (body := but_last2 payload) in *. clearbody body.
  repeat match goal with
         | |- context [packet_type h =? ?t] =>
             destruct (packet_type h =? t) eqn:?; simpl in *
         end; try discriminate; try (eexists; reflexivity).
  all: rewrite Hs; simpl; apply Z.eqb_eq in Hb.
  all: unfold TELEMETRY_SIZE, COMMAND_SIZE, STATUS_SIZE, SENSOR_SIZE, CONFIG_SIZE,
         PING_SIZE, ACK_SIZE, CUSTOM_MESSAGE_SIZE in Hb.
  - fixed_length body 25%nat.
  - fixed_length body 4%nat.
  - fixed_length body 6%nat.
  - fixed_length body 13%nat.
  - fixed_length body 3%nat.
  - fixed_length body 4%nat.
  - fixed_length body 4%nat.
  - unfold unpack_126s.
    replace (length body =? 126)%nat with true by (symmetry; apply Nat.eqb_eq; lia).
    simpl. eexists; reflexivity.
Qed.

Ltac wrong_length body :=
  match goal with
  | Hb : Z.of_nat (length ?payload) <> ?s, Hl : length body = _ |- _ =>
      let Hn := fresh "Hn" in
      assert (Hn : length body <> Z.to_nat (s - 2)) by lia;
      clear - Hn; simpl in Hn;
      repeat (destruct body as [|? body]; simpl in Hn; try reflexivity; try lia)
  end.

Ltac type_clash :=
  exfalso;
  repeat match goal with
         | H : (packet_type _ =? _) = true |- _ => apply Z.eqb_eq in H
         end;
  unfold TELEMETRY, COMMAND, STATUS, SENSOR_DATA, CONFIG, BULK_DATA, PING, ACK,
    CUSTOM_MESSAGE in *; lia.

Lemma rejected_iff h payload :
  unpack_packet h payload = None <-> rejected h payload = true.
Proof.
  unfold rejected, crc_checked, unpack_packet.
  destruct (length payload <? 2)%nat eqn:Hlen.
  { rewrite andb_false_r. simpl. tauto. }
  apply Nat.ltb_ge in Hlen.
  destruct (header_in_range h) eqn:Hh; simpl.
  2:{ split; [reflexivity|intros _].
      unfold calculated_crc.
      destruct (received_crc payload); [simpl|reflexivity].
      destruct (pack_header h) as [hdr|] eqn:E; [exfalso|reflexivity].
      revert Hh E. unfold header_in_range, u16, u8, pack_header, pack_H, pack_B.
      destruct (in_range (preamble h) 65536), (in_range (payload_size h) 256),
        (in_range (packet_type h) 256), (in_range (network_id h) 256);
        simpl; discriminate. }
  unfold crc_matches, calculated_crc, received_crc.
  rewrite (pack_header_ok _ Hh). simpl.
  pose proof (length_last2 payload Hlen) as Hl2.
  destruct (last2 payload) as [|c0 [|c1 [|? ?]]]; try discriminate. simpl.
  destruct (_ =? le16 c0 c1) eqn:Hc; simpl; [|tauto].
  destruct (known_type (packet_type h)) eqn:Hk; simpl.
  2:{ split; [reflexivity|intros _]. revert Hk. unfold known_type, unpack_typed.
      rewrite !orb_false_iff. intros [[[[[[[[-> ->] ->] ->] ->] ->] ->] ->] ->].
      reflexivity. }
  destruct (size_matches h) eqn:Hs; simpl.
  2:{ split; [reflexivity|intros _]. revert Hs Hk.
      unfold size_matches, size_for_type, known_type, unpack_typed.
      repeat match goal with
             | |- context [packet_type h =? ?t] =>
                 destruct (packet_type h =? t) eqn:?; cbn [orb negb]
             end; try discriminate; try type_clash; intros ->; reflexivity. }
  destruct (body_fits h payload) eqn:Hb; simpl.
  - pose proof (unpack_typed_accepts h payload (le16 c0 c1) Hk Hs Hb) as [v ->].
    split; discriminate.
  - split; [reflexivity|intros _]. clear Hc. revert Hs Hb Hk.
    unfold size_matches, body_fits, size_for_type, known_type, unpack_typed.
    pose proof (length_but_last2 payload) as Hl.
    set (body := but_last2 payload) in *. clearbody body.
    repeat match goal with
           | |- context [packet_type h =? ?t] =>
               destruct (packet_type h =? t) eqn:?; cbn [orb negb]
           end; try discriminate; try type_clash; intros -> Hb _; cbn [negb];
      apply Z.eqb_neq in Hb;
      unfold TELEMETRY_SIZE, COMMAND_SIZE, STATUS_SIZE, SENSOR_SIZE, CONFIG_SIZE,
        PING_SIZE, ACK_SIZE, CUSTOM_MESSAGE_SIZE in Hb.
    1-7: wrong_length body.
    unfold unpack_126s.
    replace (length body =? 126)%nat with false
      by (symmetry; apply Nat.eqb_neq; lia).
    reflexivity.
Qed.

(** C3 (in the form the code satisfies).  [unpack_packet] rejects by returning [None], whatever
    the cause: it returns [None] exactly when the payload is shorter than
    two bytes or a header field does not fit its wire type, or the CRC does
    not match, or the packet type is unknown, or [payload_size] is not the
    size of the type, or the payload is not as long as the type's format;
    in particular each of the three causes of the specification gives
    [None]. *)
Theorem unpack_packet_rejection_is_uniform h payload :
  (unpack_packet h payload = None <-> rejected h payload = true) /\
  (forall c, reject_cause h payload = Some c -> unpack_packet h payload = None).
Proof.
  split; [apply rejected_iff|].
  intros c Hc. apply rejected_iff. revert Hc. unfold reject_cause, rejected.
  destruct (crc_checked h payload); simpl; [|discriminate].
  destruct (crc_matches h payload); simpl; [|reflexivity].
  destruct (known_type (packet_type h)); simpl; [|reflexivity].
  destruct (size_matches h); simpl; [discriminate|reflexivity].
Qed.

End CodecFacts.

(** ** The link framer *)

Module LinkFacts.
Import Struct Packets Codec CodecSpec Link LinkSpec StructFacts CrcFacts CodecFacts.

Lemma find_preamble_skip (G rest : bytes) :
  preamble_free G ->
  bytes_find _preamble_bytes (G ++ x55 :: xaa :: rest) = Some (length G).
Proof.
  unfold preamble_free. change _preamble_bytes with [x55; xaa].
  induction G as [|g G IH]; intros H; [reflexivity|].
  simpl in H.
  destruct (Byte.eqb "U" g && match G with [] => false | b :: _ => Byte.eqb "170" b && true end) eqn:E;
    [discriminate|].
  destruct (bytes_find [x55; xaa] G) as [n|] eqn:EG; [discriminate|].
  specialize (IH eq_refl).
  change ((g :: G) ++ x55 :: xaa :: rest) with (g :: (G ++ x55 :: xaa :: rest)).
  cbn [bytes_find]. rewrite IH.
  replace (starts_with [x55; xaa] (g :: G ++ x55 :: xaa :: rest)) with false;
    [reflexivity|].
  symmetry. simpl. destruct (Byte.eqb "U" g); [|reflexivity].
  destruct G as [|b G]; simpl in *; [reflexivity|]. exact E.
Qed.

Lemma expected_size_bounds p : 2 <= expected_size p <= 128.
Proof. destruct p; simpl; unfold TELEMETRY_SIZE, COMMAND_SIZE, STATUS_SIZE, SENSOR_SIZE,
  CONFIG_SIZE, PING_SIZE, ACK_SIZE, CUSTOM_MESSAGE_SIZE; lia. Qed.

Lemma known_type_tag p : known_type (type_tag p) = true.
Proof. destruct p; reflexivity. Qed.

(** The wire image of a valid packet. *)
Lemma encoded_shape p encoded :
  valid_packet p = true ->
  pack_packet (VPacket p) = Some encoded ->
  exists tail,
    encoded = x55 :: xaa :: tail /\
    length encoded = (HEADER_SIZE + Z.to_nat (payload_size (header p)))%nat /\
    unpack_HBBB (take HEADER_SIZE encoded)
      = Some (PACKET_PREAMBLE, payload_size (header p), packet_type (header p),
              network_id (header p)) /\
    payload_size (header p) = expected_size p /\
    packet_type (header p) = type_tag p /\
    unpack_packet (header p) (drop HEADER_SIZE encoded) = Some (decoded p encoded).
Proof.
  intros Hv Hp.
  destruct (encode_then_decode p Hv) as (enc & Hp' & Hlen & Hdec).
  rewrite Hp in Hp'. injection Hp' as <-.
  apply pack_packet_inv in Hp as (hdr & data & Hh & _ & Henc).
  unfold valid_packet, in_wire_ranges in Hv. rewrite !andb_true_iff in Hv.
  destruct Hv as [[[Hr Hc] _] _].
  rewrite (pack_header_ok _ Hr) in Hh. injection Hh as <-.
  unfold header_correct in Hc. rewrite !andb_true_iff, !Z.eqb_eq in Hc.
  destruct Hc as [[Hpre Hs] Ht].
  unfold header_in_range in Hr. rewrite !andb_true_iff in Hr.
  destruct Hr as [[[_ Hrs] Hrt] Hrn].
  pose proof (expected_size_bounds p).
  eexists. repeat split.
  - rewrite Henc at 1. rewrite Hpre. simpl. reflexivity.
  - unfold HEADER_SIZE in *. lia.
  - rewrite Henc. simpl. unfold le16.
    rewrite !(b2z_z2b_u8 _ Hrs), !(b2z_z2b_u8 _ Hrt), !(b2z_z2b_u8 _ Hrn), Hpre.
    reflexivity.
  - exact Hs.
  - exact Ht.
  - exact Hdec.
Qed.

Lemma extract_one p encoded (G rest : bytes) :
  valid_packet p = true ->
  pack_packet (VPacket p) = Some encoded ->
  preamble_free G ->
  _extract_packet (G ++ encoded ++ rest) = (Some encoded, rest).
Proof.
  intros Hv Hp HG.
  destruct (encoded_shape p encoded Hv Hp) as (tail & Hsh & Hlen & Hhdr & Hs & _ & _).
  pose proof (expected_size_bounds p) as Hb. rewrite <- Hs in Hb.
  unfold _extract_packet.
  assert (H5 : forall pre, (length (pre ++ encoded ++ rest) <? HEADER_SIZE)%nat = false).
  { intros pre. apply Nat.ltb_ge. rewrite !length_app. lia. }
  rewrite H5. rewrite Hsh at 1. change ((x55 :: xaa :: tail) ++ rest)
    with (x55 :: xaa :: (tail ++ rest)).
  rewrite (find_preamble_skip G (tail ++ rest) HG).
  assert (Hdrop : (if (0 <? length G)%nat
                   then drop (length G) (G ++ encoded ++ rest)
                   else G ++ encoded ++ rest) = encoded ++ rest).
  { destruct G as [|g G]; simpl; [reflexivity|]. apply drop_app_length. }
  rewrite Hdrop. pose proof (H5 []) as H5'. simpl in H5'. rewrite H5'.
  rewrite take_app_le by lia. rewrite Hhdr.
  rewrite Z.eqb_refl. simpl negb. cbv iota.
  replace ((payload_size (header p) <? 2) || (MAX_PAYLOAD_SIZE <? payload_size (header p)))
    with false
    by (symmetry; apply orb_false_iff; split; apply Z.ltb_ge; unfold MAX_PAYLOAD_SIZE; lia).
  rewrite <- Hlen.
  replace (length (encoded ++ rest) <? length encoded)%nat with false
    by (symmetry; apply Nat.ltb_ge; rewrite length_app; lia).
  now rewrite take_app_length, drop_app_length.
Qed.

Lemma add_at_complete (d : gmap Z Z) k v :
  is_Some (d !! k) -> exists d', add_at k v d = Some d' /\ forall t, is_Some (d !! t) -> is_Some (d' !! t).
Proof.
  intros [c Hc]. unfold add_at. rewrite Hc. simpl. eexists. split; [reflexivity|].
  intros t [c' Hc']. destruct (decide (t = k)) as [->|Hne].
  - rewrite lookup_insert_eq. eauto.
  - rewrite lookup_insert_ne by congruence. eauto.
Qed.

Lemma update_receive_stats_ok t size s :
  by_type_complete s -> known_type t = true ->
  exists s',
    _update_receive_stats t size s = (s', true) /\
    by_type_complete s' /\
    packets_corrupted s' = packets_corrupted s /\
    packets_received s' = packets_received s + 1 /\
    bytes_received s' = bytes_received s + size.
Proof.
  intros Hc Hk. destruct (Hc t Hk) as [Hp Hb].
  destruct (add_at_complete _ t 1 Hp) as (pbt & Ep & Hpbt).
  destruct (add_at_complete _ t size Hb) as (bbt & Eb & Hbbt).
  unfold _update_receive_stats. simpl. rewrite Ep. simpl. rewrite Eb.
  eexists. split; [reflexivity|]. simpl. repeat split; simpl.
  - apply Hpbt, Hc, H.
  - apply Hbbt, Hc, H.
Qed.

Lemma handle_one p encoded l :
  valid_packet p = true ->
  pack_packet (VPacket p) = Some encoded ->
  by_type_complete (stats l) ->
  exists s',
    _handle_packet encoded l = mkLink (rx_buffer l) s' (handled l ++ [decoded p encoded]) /\
    by_type_complete s' /\
    packets_corrupted s' = packets_corrupted (stats l) /\
    packets_received s' = packets_received (stats l) + 1.
Proof.
  intros Hv Hp Hc.
  destruct (encoded_shape p encoded Hv Hp) as (tail & _ & _ & Hhdr & _ & Ht & Hdec).
  unfold _handle_packet. rewrite Hhdr.
  assert (Hh : mkHeader PACKET_PREAMBLE (payload_size (header p))
                 (packet_type (header p)) (network_id (header p)) = header p).
  { unfold valid_packet, in_wire_ranges, header_correct in Hv.
    rewrite !andb_true_iff, !Z.eqb_eq in Hv.
    destruct Hv as [[[_ [[<- _] _]] _] _]. now destruct (header p). }
  rewrite Hh, Hdec. simpl truthy. cbv iota.
  destruct (update_receive_stats_ok (packet_type (header p))
              (Z.of_nat HEADER_SIZE + payload_size (header p)) (stats l) Hc)
    as (s' & Es & Hc' & Hcor & Hrec & _).
  { rewrite Ht. apply known_type_tag. }
  rewrite Es. exists s'. auto.
Qed.

Lemma extract_shrinks buf pd rest :
  _extract_packet buf = (Some pd, rest) -> (length rest < length buf)%nat.
Proof.
  unfold _extract_packet. intros H.
  destruct (length buf <? HEADER_SIZE)%nat; [discriminate|].
  destruct (bytes_find _preamble_bytes buf) as [pos|]; [|discriminate].
  set (b := if (0 <? pos)%nat then drop pos buf else buf) in *.
  assert (Hb : (length b <= length buf)%nat).
  { subst b. destruct (0 <? pos)%nat; [rewrite length_drop|]; lia. }
  clearbody b.
  destruct (length b <? HEADER_SIZE)%nat eqn:E5; [discriminate|].
  apply Nat.ltb_ge in E5.
  destruct (unpack_HBBB (take HEADER_SIZE b)) as [[[[pre sz] ty] nid]|]; [|discriminate].
  destruct (negb (pre =? PACKET_PREAMBLE)); [discriminate|].
  destruct ((sz <? 2) || (MAX_PAYLOAD_SIZE <? sz)); [discriminate|].
  destruct (length b <? HEADER_SIZE + Z.to_nat sz)%nat eqn:E; [discriminate|].
  injection H as _ <-. rewrite length_drop. unfold HEADER_SIZE in *. lia.
Qed.

Lemma handle_packet_rx_buffer pd l : rx_buffer (_handle_packet pd l) = rx_buffer l.
Proof.
  unfold _handle_packet.
  destruct (unpack_HBBB _) as [[[[pre sz] ty] nid]|]; [|reflexivity].
  destruct (unpack_packet _ _) as [v|]; [|reflexivity].
  destruct (truthy v); [|reflexivity].
  destruct (_update_receive_stats _ _ _) as [s []]; reflexivity.
Qed.

(** The extraction loop always leaves within its bound. *)
Lemma process_loop_returns fuel l :
  (length (rx_buffer l) < fuel)%nat -> is_Some (process_loop fuel l).
Proof.
  revert l. induction fuel as [|fuel IH]; intros l Hl; [lia|].
  simpl. destruct (_extract_packet (rx_buffer l)) as [[pd|] rest] eqn:E; [|eauto].
  apply IH. rewrite handle_packet_rx_buffer. simpl.
  apply extract_shrinks in E. lia.
Qed.

Lemma process_received_data_returns data l : is_Some (_process_received_data data l).
Proof. unfold _process_received_data. apply process_loop_returns. simpl. lia. Qed.

(** C4 (in the form the code satisfies).  Resync: starting from an empty receive buffer, for
    valid packets A and B and garbage G1 and G2 in which no preamble occurs,
    feeding G1 + A + G2 + B extracts exactly the bytes of A, then those of
    B, then nothing; [_process_received_data] hands the decoded A and B, in
    that order, to [_handle_received_packet], counts two packets received
    and none corrupted, and leaves the buffer empty. *)
Theorem resync_between_garbage (A B : Packet f32) (encA encB G1 G2 : bytes) (l : ESP32Link) :
  valid_packet A = true -> valid_packet B = true ->
  pack_packet (VPacket A) = Some encA -> pack_packet (VPacket B) = Some encB ->
  preamble_free G1 -> preamble_free G2 ->
  rx_buffer l = [] -> by_type_complete (stats l) ->
  (_extract_packet (G1 ++ encA ++ G2 ++ encB) = (Some encA, G2 ++ encB) /\
   _extract_packet (G2 ++ encB) = (Some encB, []) /\
   _extract_packet [] = (None, [])) /\
  exists l',
    _process_received_data (G1 ++ encA ++ G2 ++ encB) l = Some l' /\
    handled l' = handled l ++ [decoded A encA; decoded B encB] /\
    packets_corrupted (stats l') = packets_corrupted (stats l) /\
    packets_received (stats l') = packets_received (stats l) + 2 /\
    rx_buffer l' = [].
Proof.
  intros HvA HvB HpA HpB HG1 HG2 Hbuf Hc.
  pose proof (extract_one A encA G1 (G2 ++ encB) HvA HpA HG1) as E1.
  pose proof (extract_one B encB G2 [] HvB HpB HG2) as E2.
  rewrite app_nil_r in E2.
  split; [repeat split; assumption|].
  unfold _process_received_data. rewrite Hbuf. simpl app.
  cbn [rx_buffer set_rx_buffer].
  destruct (encoded_shape A encA HvA HpA) as (? & _ & HlA & _).
  destruct (encoded_shape B encB HvB HpB) as (? & _ & HlB & _).
  assert (Hfuel : exists k, length (G1 ++ encA ++ G2 ++ encB) = S (S k)).
  { exists (length (G1 ++ encA ++ G2 ++ encB) - 2)%nat.
    rewrite !length_app, HlA, HlB. unfold HEADER_SIZE. lia. }
  destruct Hfuel as [k ->].
  cbn [process_loop rx_buffer set_rx_buffer]. rewrite E1.
  match goal with
  | |- context [_handle_packet encA ?l0] =>
      destruct (handle_one A encA l0 HvA HpA Hc) as (s1 & -> & Hc1 & Hcor1 & Hrec1)
  end.
  cbn [process_loop rx_buffer set_rx_buffer handled stats]. rewrite E2.
  match goal with
  | |- context [_handle_packet encB ?l0] =>
      destruct (handle_one B encB l0 HvB HpB Hc1) as (s2 & -> & Hc2 & Hcor2 & Hrec2)
  end.
  cbn [process_loop rx_buffer set_rx_buffer handled stats] in *.
  eexists. split; [reflexivity|]. cbn [handled stats rx_buffer].
  rewrite <- app_assoc. repeat split; simpl; lia.
Qed.

Lemma by_type_complete_init : by_type_complete InterfaceStats_init.
Proof.
  intros t Hk. unfold known_type in Hk. rewrite !orb_true_iff, !Z.eqb_eq in Hk.
  destruct Hk as [[[[[[[[->| ->]| ->]| ->]| ->]| ->]| ->]| ->]| ->];
    split; eexists; vm_compute; reflexivity.
Qed.

Lemma resync_between_garbage_witness :
  (_extract_packet ([x01; x55; x02] ++ ping0_bytes ++ [x03; xaa; x55] ++ ping0_bytes)
     = (Some ping0_bytes, [x03; xaa; x55] ++ ping0_bytes) /\
   _extract_packet ([x03; xaa; x55] ++ ping0_bytes) = (Some ping0_bytes, []) /\
   _extract_packet [] = (None, [])) /\
  exists l',
    _process_received_data
      ([x01; x55; x02] ++ ping0_bytes ++ [x03; xaa; x55] ++ ping0_bytes) ESP32Link_init
      = Some l' /\
    handled l' = handled ESP32Link_init
                 ++ [decoded ping0 ping0_bytes; decoded ping0 ping0_bytes] /\
    packets_corrupted (stats l') = packets_corrupted (stats ESP32Link_init) /\
    packets_received (stats l') = packets_received (stats ESP32Link_init) + 2 /\
    rx_buffer l' = [].
Proof.
  apply (resync_between_garbage ping0 ping0 ping0_bytes ping0_bytes
           [x01; x55; x02] [x03; xaa; x55] ESP32Link_init).
  1-7: vm_compute; reflexivity.
  apply by_type_complete_init.
Defined.

(** C4, counterexample.  Garbage that holds a preamble followed by a
    plausible size is taken for a header: it swallows the first bytes of A,
    the result fails the CRC check, and only B is delivered. *)
Lemma garbage_with_preamble_swallows_packet :
  valid_packet ping0 = true /\
  pack_packet (VPacket ping0) = Some ping0_bytes /\
  exists l',
    _process_received_data
      (header_like_garbage ++ ping0_bytes ++ [] ++ ping0_bytes) ESP32Link_init = Some l' /\
    handled l' = [decoded ping0 ping0_bytes] /\
    handled l' <> [decoded ping0 ping0_bytes; decoded ping0 ping0_bytes] /\
    packets_corrupted (stats l') = 1.
Proof.
  split; [vm_compute; reflexivity|]. split; [vm_compute; reflexivity|].
  eexists. split; [vm_compute; reflexivity|].
  split; [vm_compute; reflexivity|].
  split; [vm_compute; discriminate|vm_compute; reflexivity].
Qed.

End LinkFacts.

(** ** The presence table *)

Module PresenceFacts.
Import Packets DroneData Presence.

Section PresenceFacts.
Context {F : Type} `{PyFloat F}.
Implicit Types (d : Drone F) (m : gmap Z (DroneInfo F)).

Lemma handle_telemetry_other d now (p : TelemetryPacket F) :
  t_drone_id p <> drone_id d ->
  _other_drones (_handle_telemetry_packet now p d)
  = <[t_drone_id p := mkInfo (t_drone_id p) (telemetry_position p) now VIA_TELEMETRY]>
      (_other_drones d).
Proof.
  intros Hne. unfold _handle_telemetry_packet.
  apply Z.eqb_neq in Hne. now rewrite Hne.
Qed.

Lemma handle_telemetry_own_untracked d now (p : TelemetryPacket F) :
  own_untracked d -> own_untracked (_handle_telemetry_packet now p d).
Proof.
  unfold own_untracked, _handle_telemetry_packet. intros Hd.
  destruct (t_drone_id p =? drone_id d) eqn:E; simpl; [assumption|].
  apply Z.eqb_neq in E. now rewrite lookup_insert_ne.
Qed.

Lemma handle_status_own_untracked d now (s : StatusPacket) :
  own_untracked d -> own_untracked (_handle_status_packet now s d).
Proof.
  unfold own_untracked, _handle_status_packet. intros Hd.
  destruct (s_drone_id s =? drone_id d) eqn:E; simpl; [assumption|].
  apply Z.eqb_neq in E.
  destruct (_other_drones d !! s_drone_id s); simpl; [|assumption].
  now rewrite lookup_insert_ne.
Qed.

(** Deleting the ids of a list, one after the other. *)
Lemma delete_all_lookup (ids : list Z) m k :
  foldl (fun m id => if bool_decide (is_Some (m !! id)) then delete id m else m) m ids !! k
  = if bool_decide (k ∈ ids) then None else m !! k.
Proof.
  revert m. induction ids as [|id ids IH]; intros m.
  - reflexivity.
  - cbn [foldl]. rewrite IH. clear IH.
    destruct (decide (k ∈ ids)) as [Hin|Hin].
    + rewrite !bool_decide_eq_true_2; [reflexivity|now apply elem_of_cons; right|assumption].
    + rewrite (bool_decide_eq_false_2 (k ∈ ids)) by assumption.
      destruct (decide (k = id)) as [->|Hne].
      * rewrite (bool_decide_eq_true_2 (id ∈ id :: ids)) by (apply elem_of_cons; now left).
        destruct (bool_decide (is_Some (m !! id))) eqn:Hs;
          [apply lookup_delete_eq|].
        apply bool_decide_eq_false in Hs. now apply eq_None_not_Some.
      * rewrite (bool_decide_eq_false_2 (k ∈ id :: ids))
          by (rewrite elem_of_cons; tauto).
        destruct (bool_decide (is_Some (m !! id)));
          [now rewrite lookup_delete_ne|reflexivity].
Qed.

Lemma cleanup_lookup d now k :
  _other_drones (_cleanup_expired_drones now d) !! k
  = match _other_drones d !! k with
    | Some info => if is_expired now (_drone_expiry_timeout d) info then None else Some info
    | None => None
    end.
Proof.
  unfold _cleanup_expired_drones. simpl. rewrite delete_all_lookup.
  destruct (_other_drones d !! k) as [info|] eqn:E.
  - destruct (is_expired now (_drone_expiry_timeout d) info) eqn:Ex.
    + rewrite bool_decide_eq_true_2; [reflexivity|].
      apply list_elem_of_fmap. exists (k, info). split; [reflexivity|].
      apply list_elem_of_filter. split; [exact Ex|]. now apply elem_of_map_to_list.
    + rewrite bool_decide_eq_false_2; [reflexivity|].
      intros Hin. apply list_elem_of_fmap in Hin as [[k' info'] [-> Hin]].
      apply list_elem_of_filter in Hin as [Hex Hin]. simpl in *.
      apply elem_of_map_to_list in Hin. rewrite E in Hin. injection Hin as <-.
      congruence.
  - destruct (bool_decide _); reflexivity.
Qed.


Lemma cleanup_own_untracked d now :
  own_untracked d -> own_untracked (_cleanup_expired_drones now d).
Proof.
  unfold own_untracked. intros Hd. change (drone_id (_cleanup_expired_drones now d))
    with (drone_id d).
  now rewrite cleanup_lookup, Hd.
Qed.

(** C5.  Discovery semantics, for a table that does not track the drone
    itself.  A Telemetry packet from another id leaves that id with an entry
    whose position holds the packet's [x], [y], [z], [vx], [vy], [vz] (yaw,
    yaw rate and frame at their defaults), whose [last_seen] is the current
    time and which is marked [VIA_TELEMETRY], whether or not the id had an
    entry, and changes no other entry.  A Status packet from an id without
    an entry changes nothing.  A Status packet from an id with an entry
    replaces that entry's [last_seen] by the current time, keeps its
    position and [discovered_via], and changes no other entry. *)
Theorem discovery_semantics d now :
  own_untracked d ->
  (forall p : TelemetryPacket F,
      t_drone_id p <> drone_id d ->
      _other_drones (_handle_telemetry_packet now p d) !! t_drone_id p
        = Some (mkInfo (t_drone_id p)
                       (mkPosition (t_x p) (t_y p) (t_z p) (t_vx p) (t_vy p) (t_vz p)
                                   f_zero f_zero "aruco_map")
                       now VIA_TELEMETRY) /\
      forall k, k <> t_drone_id p ->
        _other_drones (_handle_telemetry_packet now p d) !! k = _other_drones d !! k) /\
  (forall s : StatusPacket,
      _other_drones d !! s_drone_id s = None ->
      _handle_status_packet now s d = d) /\
  (forall (s : StatusPacket) info,
      _other_drones d !! s_drone_id s = Some info ->
      _other_drones (_handle_status_packet now s d) !! s_drone_id s
        = Some (mkInfo (di_drone_id info) (di_position info) now (di_discovered_via info)) /\
      forall k, k <> s_drone_id s ->
        _other_drones (_handle_status_packet now s d) !! k = _other_drones d !! k).
Proof.
  intros Hown. split; [|split].
  - intros p Hne. rewrite handle_telemetry_other by assumption. split.
    + unfold telemetry_position. apply lookup_insert_eq.
    + intros k Hk. now rewrite lookup_insert_ne.
  - intros s Hs. unfold _handle_status_packet. rewrite Hs.
    now destruct (negb _).
  - intros s info Hs.
    assert (Hne : s_drone_id s <> drone_id d).
    { intros E. unfold own_untracked in Hown. rewrite <- E, Hs in Hown. discriminate. }
    unfold _handle_status_packet. apply Z.eqb_neq in Hne. rewrite Hne, Hs. simpl. split.
    + apply lookup_insert_eq.
    + intros k Hk. now rewrite lookup_insert_ne.
Qed.

End PresenceFacts.

Lemma discovery_semantics_witness :
  (forall p : TelemetryPacket Q,
      t_drone_id p <> drone_id drone1 ->
      _other_drones (_handle_telemetry_packet 10%Q p drone1) !! t_drone_id p
        = Some (mkInfo (t_drone_id p)
                       (mkPosition (t_x p) (t_y p) (t_z p) (t_vx p) (t_vy p) (t_vz p)
                                   f_zero f_zero "aruco_map")
                       10%Q VIA_TELEMETRY) /\
      forall k, k <> t_drone_id p ->
        _other_drones (_handle_telemetry_packet 10%Q p drone1) !! k
        = _other_drones drone1 !! k) /\
  (forall s : StatusPacket,
      _other_drones drone1 !! s_drone_id s = None ->
      _handle_status_packet 10%Q s drone1 = drone1) /\
  (forall (s : StatusPacket) info,
      _other_drones drone1 !! s_drone_id s = Some info ->
      _other_drones (_handle_status_packet 10%Q s drone1) !! s_drone_id s
        = Some (mkInfo (di_drone_id info) (di_position info) 10%Q (di_discovered_via info)) /\
      forall k, k <> s_drone_id s ->
        _other_drones (_handle_status_packet 10%Q s drone1) !! k
        = _other_drones drone1 !! k).
Proof.
  apply (discovery_semantics drone1 10%Q). vm_compute. reflexivity.
Defined.

(** C6.  Expiry sweep: one run of [_cleanup_expired_drones] at time [now]
    removes exactly the entries with [now - last_seen > timeout] and leaves
    the others as they were; with the timeout set to 3.0, an entry last seen
    at 0 survives a sweep at 2.9 and is gone after a sweep at 3.1. *)
Theorem expiry_sweep_correct :
  (forall (F : Type) (HF : PyFloat F) (d : Drone F) (now : F) (k : Z),
      _other_drones (_cleanup_expired_drones now d) !! k
      = match _other_drones d !! k with
        | Some info =>
            if f_gt (f_sub now (di_last_seen info)) (_drone_expiry_timeout d)
            then None else Some info
        | None => None
        end) /\
  (forall (d : Drone Q) (now : Q) (k : Z) (info : DroneInfo Q),
      _other_drones d !! k = Some info ->
      (_other_drones (_cleanup_expired_drones now d) !! k = None
       <-> (_drone_expiry_timeout d < now - di_last_seen info)%Q) /\
      (_other_drones (_cleanup_expired_drones now d) !! k = Some info
       <-> (now - di_last_seen info <= _drone_expiry_timeout d)%Q)) /\
  (forall (d : Drone Q) (k : Z) (info : DroneInfo Q),
      _other_drones d !! k = Some info ->
      di_last_seen info = 0%Q ->
      _other_drones (_cleanup_expired_drones 2.9%Q (set_drone_expiry_timeout 3%Q d)) !! k
        = Some info /\
      _other_drones (_cleanup_expired_drones 3.1%Q (set_drone_expiry_timeout 3%Q d)) !! k
        = None).
Proof.
  split; [|split].
  - intros F HF d now k. apply cleanup_lookup.
  - intros d now k info Hk. rewrite cleanup_lookup, Hk. unfold is_expired. simpl.
    destruct (Qle_bool (now - di_last_seen info) (_drone_expiry_timeout d)) eqn:E; simpl.
    + apply Qle_bool_iff in E. split; split; try discriminate; auto.
      intros Hlt. exfalso. eapply Qlt_not_le; eauto.
    + assert (Hn : ~ (now - di_last_seen info <= _drone_expiry_timeout d)%Q).
      { intros Hle. apply Qle_bool_iff in Hle. congruence. }
      split; split; try discriminate; auto; try tauto.
      intros _. now apply Qnot_le_lt.
  - intros d k info Hk Hls. rewrite !cleanup_lookup. simpl. rewrite Hk.
    unfold is_expired. rewrite Hls. split; reflexivity.
Qed.

End PresenceFacts.

(** ** The collision-avoidance control law *)

Module AvoidanceFacts.
Import DroneData Avoidance AvoidanceRange.
#[local] Open Scope R_scope.

Lemma sum_squares_nonneg a b : 0 <= a * a + b * b.
Proof. nra. Qed.






Lemma norm2_le a b r : 0 <= r -> a * a + b * b <= r * r -> norm2 a b <= r.
Proof.
  intros Hr H. unfold norm2. rewrite <- (sqrt_square r) by assumption.
  apply sqrt_le_1; [apply sum_squares_nonneg|nra|assumption].
Qed.


(** *** The repulsion magnitude *)

















(** *** The two clamps *)





(** *** From force to velocity *)




(** *** Totality of the stages *)












(** *** Inputs in range *)














End AvoidanceFacts.

(** ** The control law in binary64 arithmetic *)

Module AvoidanceDoubles.
Import DroneData AvoidanceF PrimFloat.
#[local] Open Scope float_scope.





End AvoidanceDoubles.

(** ** More on the codec *)

Module CodecMore.
Import Struct Packets Codec CodecSpec FloatFields Generator StructFacts CrcFacts CodecFacts.
#[local] Open Scope Z_scope.

Lemma z2b_mod v : z2b (v mod 256) = z2b v.
Proof. unfold z2b. now rewrite Z.mod_mod by lia. Qed.

Lemma pack_B_b2z a : pack_B (b2z a) = Some [a].
Proof.
  unfold pack_B. pose proof (b2z_range a) as Hr. apply in_range_spec in Hr.
  now rewrite Hr, z2b_b2z.
Qed.

Lemma pack_H_le16 a b : pack_H (le16 a b) = Some [a; b].
Proof.
  unfold pack_H. pose proof (le16_range a b) as Hr. apply in_range_spec in Hr.
  rewrite Hr. unfold le16.
  pose proof (b2z_range a). pose proof (b2z_range b).
  rewrite <- (z2b_mod (b2z a + 256 * b2z b)).
  replace (b2z a + 256 * b2z b) with (b2z a + b2z b * 256) by lia.
  rewrite Z.mod_add, Z.div_add, Z.mod_small, Z.div_small by lia.
  now rewrite Z.add_0_l, !z2b_b2z.
Qed.

Lemma pack_I_le32 a b c d : pack_I (le32 a b c d) = Some [a; b; c; d].
Proof.
  unfold pack_I, le32.
  pose proof (b2z_range a). pose proof (b2z_range b).
  pose proof (b2z_range c). pose proof (b2z_range d).
  set (v := b2z a + 256 * b2z b + 65536 * b2z c + 16777216 * b2z d).
  assert (Hr : in_range v 4294967296 = true) by (apply in_range_spec; lia).
  rewrite Hr.
  assert (E0 : v mod 256 = b2z a).
  { replace v with (b2z a + (b2z b + 256 * b2z c + 65536 * b2z d) * 256) by lia.
    rewrite Z.mod_add, Z.mod_small; lia. }
  assert (E1 : (v / 256) mod 256 = b2z b).
  { replace v with (b2z a + (b2z b + 256 * b2z c + 65536 * b2z d) * 256) by lia.
    rewrite Z.div_add, Z.div_small by lia.
    replace (0 + (b2z b + 256 * b2z c + 65536 * b2z d))
      with (b2z b + (b2z c + 256 * b2z d) * 256) by lia.
    rewrite Z.mod_add, Z.mod_small; lia. }
  assert (E2 : (v / 65536) mod 256 = b2z c).
  { replace v with (b2z a + 256 * b2z b + (b2z c + 256 * b2z d) * 65536) by lia.
    rewrite Z.div_add, Z.div_small by lia.
    replace (0 + (b2z c + 256 * b2z d)) with (b2z c + b2z d * 256) by lia.
    rewrite Z.mod_add, Z.mod_small; lia. }
  assert (E3 : (v / 16777216) mod 256 = b2z d).
  { replace v with (b2z a + 256 * b2z b + 65536 * b2z c + b2z d * 16777216) by lia.
    rewrite Z.div_add, Z.div_small by lia. rewrite Z.mod_small; lia. }
  rewrite <- (z2b_mod v), <- (z2b_mod (v / 256)), <- (z2b_mod (v / 65536)),
    <- (z2b_mod (v / 16777216)), E0, E1, E2, E3.
  now rewrite !z2b_b2z.
Qed.

(** X1.  [unpack_header] inverts [pack_header], and accepts nothing else. *)
Theorem unpack_header_iff (data : bytes) (h : PacketHeader) :
  unpack_header data = Some h <->
  pack_header h = Some data /\ preamble h = PACKET_PREAMBLE
  /\ payload_size h <= MAX_PAYLOAD_SIZE.
Proof.
  unfold unpack_header. split.
  - destruct data as [|p0 [|p1 [|s [|t [|n [|? ?]]]]]]; try discriminate. simpl.
    destruct (le16 p0 p1 =? PACKET_PREAMBLE) eqn:Ep; simpl; [|discriminate].
    destruct (MAX_PAYLOAD_SIZE <? b2z s) eqn:Es; [discriminate|].
    intros [= <-]. simpl. apply Z.eqb_eq in Ep. apply Z.ltb_ge in Es.
    split; [|split; assumption].
    unfold pack_header. simpl. rewrite pack_H_le16, !pack_B_b2z. reflexivity.
  - intros (Hp & Hpre & Hsz). destruct h as [pre sz ty nid]. simpl in *.
    unfold pack_header in Hp. simpl in Hp. unfold pack_H, pack_B in Hp.
    destruct (in_range pre 65536) eqn:R1; [|discriminate].
    destruct (in_range sz 256) eqn:R2; [|discriminate].
    destruct (in_range ty 256) eqn:R3; [|discriminate].
    destruct (in_range nid 256) eqn:R4; [|discriminate].
    simpl in Hp. injection Hp as <-. simpl.
    rewrite (le16_z2b_u16 pre R1), (b2z_z2b_u8 sz R2), (b2z_z2b_u8 ty R3),
      (b2z_z2b_u8 nid R4).
    subst pre. rewrite Z.eqb_refl. simpl.
    apply Z.ltb_ge in Hsz. now rewrite Hsz.
Qed.

Lemma payload_split (payload : bytes) :
  (2 <= length payload)%nat ->
  exists c0 c1, last2 payload = [c0; c1] /\ payload = but_last2 payload ++ [c0; c1].
Proof.
  intros Hl. pose proof (length_last2 payload Hl) as H2.
  destruct (last2 payload) as [|c0 [|c1 [|? ?]]] eqn:E; try discriminate.
  exists c0, c1. split; [reflexivity|].
  rewrite <- E. unfold but_last2, last2. now rewrite take_drop.
Qed.

Ltac known_length body :=
  repeat (destruct body as [|? body]; try discriminate).

Lemma unpack_typed_inv h payload c p :
  unpack_typed h payload c = Some (VPacket p) ->
  header p = h /\ Packets.crc p = c /\ pack_data p = Some (but_last2 payload)
  /\ payload_size h = expected_size p /\ packet_type h = type_tag p.
Proof.
  unfold unpack_typed. set (body := but_last2 payload). clearbody body.
  repeat match goal with
         | |- context [packet_type h =? ?t] =>
             let E := fresh "Et" in
             destruct (packet_type h =? t) eqn:E;
             [apply Z.eqb_eq in E|clear E]
         end; try discriminate; try (intros [=]; fail).
  all: match goal with
       | |- context [payload_size ?hh =? ?s] =>
           let E := fresh "Es" in
           destruct (payload_size hh =? s) eqn:E; [apply Z.eqb_eq in E|discriminate]
       end; cbn [negb].
  - known_length body. simpl. intros [= <-]. simpl.
    rewrite pack_B_b2z. unfold pack_f. rewrite !pack_I_le32. simpl. auto.
  - known_length body. simpl. intros [= <-]. simpl.
    rewrite !pack_B_b2z, pack_H_le16. simpl. auto.
  - known_length body. simpl. intros [= <-]. simpl.
    rewrite !pack_B_b2z, !pack_H_le16. simpl. auto.
  - known_length body. simpl. intros [= <-]. simpl.
    rewrite pack_B_b2z. unfold pack_f. rewrite !pack_I_le32. simpl. auto.
  - known_length body. simpl. intros [= <-]. simpl.
    rewrite !pack_B_b2z. simpl. auto.
  - known_length body. simpl. intros [= <-]. simpl.
    rewrite !pack_I_le32. simpl. auto.
  - known_length body. simpl. intros [= <-]. simpl.
    rewrite !pack_B_b2z, pack_H_le16. simpl. auto.
  - unfold unpack_126s. destruct (length body =? 126)%nat eqn:El; [|discriminate].
    simpl. intros [= <-]. simpl. apply Nat.eqb_eq in El.
    unfold pack_126s. rewrite take_ge by lia. rewrite El. simpl.
    rewrite app_nil_r. auto.
Qed.

Lemma pack_header_in_range h hdr : pack_header h = Some hdr -> header_in_range h = true.
Proof.
  unfold pack_header, pack_H, pack_B, header_in_range, u16, u8.
  destruct (in_range (preamble h) 65536), (in_range (payload_size h) 256),
    (in_range (packet_type h) 256), (in_range (network_id h) 256);
    simpl; try discriminate; reflexivity.
Qed.

Lemma unpack_packet_inv h payload v :
  unpack_packet h payload = Some v ->
  exists hdr c0 c1,
    pack_header h = Some hdr /\ payload = but_last2 payload ++ [c0; c1] /\
    calculate_crc16 (hdr ++ but_last2 payload ++ [x00; x00]) = le16 c0 c1 /\
    unpack_typed h payload (le16 c0 c1) = Some v.
Proof.
  unfold unpack_packet. destruct (length payload <? 2)%nat eqn:Hl; [discriminate|].
  apply Nat.ltb_ge in Hl.
  destruct (payload_split payload Hl) as (c0 & c1 & Hlast & Hsplit).
  unfold received_crc, calculated_crc. rewrite Hlast. simpl.
  destruct (pack_header h) as [hdr|]; [|discriminate]. simpl.
  destruct (_ =? le16 c0 c1) eqn:Ec; [|discriminate]. simpl.
  apply Z.eqb_eq in Ec. intros Hv. exists hdr, c0, c1. auto.
Qed.

(** X2.  Whatever [unpack_packet] accepts as a typed packet packs back to the
    bytes it came from, provided no float in it is a signalling NaN: that
    one pattern is changed when [struct.unpack] widens it to a double, so
    that Python never holds it in a field. *)
Theorem unpack_then_pack h payload p :
  unpack_packet h payload = Some (VPacket p) ->
  snan_free p = true ->
  exists hdr,
    pack_header h = Some hdr /\
    header p = h /\
    payload_size h = expected_size p /\
    packet_type h = type_tag p /\
    Packets.crc p = calculate_crc16 (hdr ++ payload) /\
    pack_packet (VPacket p) = Some (hdr ++ payload).
Proof.
  intros Hu _.
  destruct (unpack_packet_inv _ _ _ Hu) as (hdr & c0 & c1 & Hh & Hsplit & Hc & Ht).
  destruct (unpack_typed_inv _ _ _ _ Ht) as (Hhp & Hcrc & Hd & Hs & Hty).
  exists hdr. repeat (split; [assumption|]).
  assert (Hcalc : calculate_crc16 (hdr ++ payload) = le16 c0 c1).
  { rewrite Hsplit at 1. rewrite <- Hc, !app_assoc. apply calculate_crc16_trailer. }
  split; [congruence|].
  unfold pack_packet. rewrite Hhp, Hh, Hd. simpl.
  rewrite Hc, pack_H_le16. simpl. now rewrite <- Hsplit.
Qed.

Lemma unpack_then_pack_witness :
  exists hdr,
    pack_header (header telemetry7) = Some hdr /\
    header telemetry7 = header telemetry7 /\
    payload_size (header telemetry7) = expected_size telemetry7 /\
    packet_type (header telemetry7) = type_tag telemetry7 /\
    Packets.crc telemetry7
      = calculate_crc16 (hdr ++ payload_of telemetry7_bytes) /\
    pack_packet (VPacket telemetry7) = Some (hdr ++ payload_of telemetry7_bytes).
Proof.
  apply (unpack_then_pack (header telemetry7) (payload_of telemetry7_bytes) telemetry7);
    vm_compute; reflexivity.
Defined.

Lemma pack_data_some p :
  fields_in_range p = true ->
  exists data, pack_data p = Some data /\ Z.of_nat (length data) + 2 = expected_size p.
Proof.
  intros Hf.
  destruct p as [q|q|q|q|q|q|q|q]; destruct q as [h ?]; simpl in *;
    split_ranges; pack_fields; simpl; (eexists; split; [reflexivity|]);
    try reflexivity.
  rewrite length_app, length_take, length_replicate.
  unfold CUSTOM_MESSAGE_SIZE. lia.
Qed.

Lemma pack_data_in_range p data : pack_data p = Some data -> fields_in_range p = true.
Proof.
  destruct p as [q|q|q|q|q|q|q|q]; destruct q as [h ?]; simpl;
    unfold pack_f, pack_I, pack_H, pack_B, u8, u16, u32;
    repeat match goal with
           | |- context [in_range ?v ?b] => destruct (in_range v b); simpl
           end; try discriminate; reflexivity.
Qed.

(** X3.  [pack_packet] succeeds exactly on packets whose header and numeric
    fields fit their wire types; what it returns has the length of the
    packet's type, whatever [payload_size] says, and passes the CRC check. *)
Theorem pack_packet_succeeds_iff p :
  (is_Some (pack_packet (VPacket p))
   <-> header_in_range (header p) && fields_in_range p = true) /\
  (forall encoded,
      pack_packet (VPacket p) = Some encoded ->
      Z.of_nat (length encoded) = Z.of_nat HEADER_SIZE + expected_size p /\
      pack_header (header p) = Some (take HEADER_SIZE encoded) /\
      crc_matches (header p) (payload_of encoded) = true).
Proof.
  split.
  - rewrite andb_true_iff. split.
    + intros [encoded He].
      apply pack_packet_inv in He as (hdr & data & Hh & Hd & _).
      eauto using pack_header_in_range, pack_data_in_range.
    + intros [Hh Hf]. destruct (pack_data_some p Hf) as (data & Hd & _).
      rewrite (pack_packet_shape p _ _ (pack_header_ok _ Hh) Hd). eauto.
  - intros encoded He.
    pose proof He as He'.
    apply pack_packet_inv in He' as (hdr & data & Hh & Hd & ->).
    pose proof (pack_header_length _ _ Hh) as Hl.
    destruct (pack_data_some p (pack_data_in_range _ _ Hd)) as (data' & Hd' & Hlen).
    rewrite Hd in Hd'. injection Hd' as <-.
    split; [|split].
    + rewrite !length_app, Hl, <- Hlen. cbn [length]. lia.
    + rewrite <- Hl, take_app_length. exact Hh.
    + unfold payload_of. rewrite <- Hl, drop_app_length.
      unfold crc_matches, calculated_crc, received_crc.
      rewrite Hh, last2_app, but_last2_app. simpl.
      rewrite le16_z2b by apply calculate_crc16_range. apply Z.eqb_refl.
Qed.

(** X4.  The CRC fits sixteen bits, is blind to the last two bytes of its input,
    and is the initial value on inputs of at most two bytes. *)
Theorem calculate_crc16_facts (data : bytes) :
  0 <= calculate_crc16 data <= 0xFFFF /\
  (forall a b, calculate_crc16 (but_last2 data ++ [a; b])
               = fold_left crc_byte (but_last2 data) 0xFFFF) /\
  calculate_crc16 data = fold_left crc_byte (but_last2 data) 0xFFFF /\
  ((length data <= 2)%nat -> calculate_crc16 data = 0xFFFF).
Proof.
  pose proof (calculate_crc16_range data) as Hr.
  split; [lia|]. split; [|split].
  - intros a b. now rewrite calculate_crc16_fold, but_last2_app.
  - apply calculate_crc16_fold.
  - intros Hl. rewrite calculate_crc16_fold. unfold but_last2.
    replace (length data - 2)%nat with 0%nat by lia. reflexivity.
Qed.

Lemma generate_bulk_packet_ok (payload_size : Z) (data : bytes) :
  0 <= payload_size < 256 ->
  let h := mkHeader PACKET_PREAMBLE payload_size BULK_DATA 0x12 in
  exists c0 c1,
    generate_bulk_packet payload_size data
    = Some (x55 :: xaa :: z2b payload_size :: x06 :: x12 :: data ++ [c0; c1]) /\
    unpack_packet h (data ++ [c0; c1]) = Some (VBytes data).
Proof.
  intros Hs h. unfold generate_bulk_packet. fold h.
  assert (Hh : header_in_range h = true).
  { unfold header_in_range, h, u16, u8. simpl.
    apply in_range_spec in Hs. now rewrite Hs. }
  rewrite (pack_header_ok _ Hh). cbn [mbind option_bind].
  rewrite pack_H_crc. cbn [mbind option_bind].
  eexists _, _. split; [reflexivity|].
  pose proof (unpack_packet_encoded h _ data (pack_header_ok _ Hh)) as Hu.
  cbv zeta in Hu. etransitivity; [exact Hu|].
  unfold unpack_typed. rewrite but_last2_app. reflexivity.
Qed.

(** X5.  A bulk packet decodes to its data, whatever its declared size. *)
Theorem bulk_packet_roundtrip (payload_size : Z) (data : bytes) :
  0 <= payload_size < 256 ->
  exists encoded,
    generate_bulk_packet payload_size data = Some encoded /\
    length encoded = (HEADER_SIZE + length data + 2)%nat /\
    unpack_packet (mkHeader PACKET_PREAMBLE payload_size BULK_DATA 0x12)
                  (payload_of encoded)
    = Some (VBytes data).
Proof.
  intros Hs.
  destruct (generate_bulk_packet_ok payload_size data Hs) as (c0 & c1 & -> & Hu).
  eexists. split; [reflexivity|]. split.
  - cbn [length]. rewrite length_app. simpl. unfold HEADER_SIZE. lia.
  - exact Hu.
Qed.

Lemma bulk_packet_roundtrip_witness :
  exists encoded,
    generate_bulk_packet 12 [x01; x02; x03] = Some encoded /\
    length encoded = (HEADER_SIZE + length [x01; x02; x03] + 2)%nat /\
    unpack_packet (mkHeader PACKET_PREAMBLE 12 BULK_DATA 0x12) (payload_of encoded)
    = Some (VBytes [x01; x02; x03]).
Proof. apply (bulk_packet_roundtrip 12 [x01; x02; x03]). lia. Defined.

End CodecMore.

(** ** The framer and the receive path of link.py, further properties *)

Module LinkMore.
Import Struct Packets Codec CodecSpec Generator Link LinkSpec LinkSend FrameSpec.
Import StructFacts CrcFacts CodecFacts LinkFacts CodecMore.

Lemma starts_with_preamble (buf : bytes) :
  starts_with _preamble_bytes buf = true <-> exists rest, buf = x55 :: xaa :: rest.
Proof.
  change _preamble_bytes with [x55; xaa]. split.
  - destruct buf as [|a [|b rest]]; simpl; try discriminate.
    + rewrite andb_false_r. discriminate.
    + rewrite andb_true_r, andb_true_iff. intros [Ha Hb].
      apply Byte.byte_dec_bl in Ha, Hb. subst. eauto.
  - intros [rest ->]. reflexivity.
Qed.

Lemma find_preamble_Some (buf : bytes) (n : nat) :
  bytes_find _preamble_bytes buf = Some n ->
  (exists rest, drop n buf = x55 :: xaa :: rest) /\ preamble_free (take n buf).
Proof.
  unfold preamble_free. revert n. induction buf as [|b buf IH]; intros n.
  - vm_compute. discriminate.
  - cbn [bytes_find].
    destruct (starts_with _preamble_bytes (b :: buf)) eqn:Es.
    + intros [= <-]. split; [now apply starts_with_preamble|reflexivity].
    + destruct (bytes_find _preamble_bytes buf) as [m|] eqn:Ef; [|discriminate].
      simpl. intros [= <-]. destruct (IH m eq_refl) as [Hd Hfree].
      split; [exact Hd|].
      cbn [take bytes_find]. rewrite Hfree.
      replace (starts_with _preamble_bytes (b :: take m buf)) with false; [reflexivity|].
      symmetry. apply not_true_is_false. intros Ht.
      apply starts_with_preamble in Ht as [rest Hr].
      assert (starts_with _preamble_bytes (b :: buf) = true); [|congruence].
      apply starts_with_preamble.
      destruct m as [|m]; [discriminate|]. destruct buf as [|b' buf]; [discriminate|].
      simpl in Hr. injection Hr as -> -> _. eauto.
Qed.

Lemma extract_frame (G f rest : bytes) :
  is_frame f -> preamble_free G ->
  _extract_packet (G ++ f ++ rest) = (Some f, rest).
Proof.
  intros (sz & ty & nid & tail & -> & Hsz & Hlen) HG.
  unfold _extract_packet.
  assert (H5 : forall pre,
             (length (pre ++ (x55 :: xaa :: sz :: ty :: nid :: tail) ++ rest)
              <? HEADER_SIZE)%nat = false).
  { intros pre. apply Nat.ltb_ge. rewrite !length_app. simpl. unfold HEADER_SIZE. lia. }
  rewrite H5.
  change ((x55 :: xaa :: sz :: ty :: nid :: tail) ++ rest)
    with (x55 :: xaa :: (sz :: ty :: nid :: tail) ++ rest).
  rewrite (find_preamble_skip G _ HG).
  change (x55 :: xaa :: (sz :: ty :: nid :: tail) ++ rest)
    with ((x55 :: xaa :: sz :: ty :: nid :: tail) ++ rest).
  set (f := x55 :: xaa :: sz :: ty :: nid :: tail) in *.
  assert (Hdrop : (if (0 <? length G)%nat
                   then drop (length G) (G ++ f ++ rest)
                   else G ++ f ++ rest) = f ++ rest).
  { destruct G as [|g G]; simpl; [reflexivity|]. apply drop_app_length. }
  rewrite Hdrop. pose proof (H5 []) as H5'.
  change ((length (f ++ rest) <? HEADER_SIZE)%nat = false) in H5'. rewrite H5'.
  change (take HEADER_SIZE (f ++ rest)) with [x55; xaa; sz; ty; nid].
  cbn [unpack_HBBB].
  change (le16 "U" "170" =? PACKET_PREAMBLE) with true. cbn [negb].
  replace ((b2z sz <? 2) || (MAX_PAYLOAD_SIZE <? b2z sz)) with false
    by (symmetry; apply orb_false_iff; split; apply Z.ltb_ge; unfold MAX_PAYLOAD_SIZE; lia).
  assert (Hf : length f = (HEADER_SIZE + Z.to_nat (b2z sz))%nat)
    by (unfold f, HEADER_SIZE; simpl; lia).
  rewrite <- Hf.
  replace (length (f ++ rest) <? length f)%nat with false
    by (symmetry; apply Nat.ltb_ge; rewrite length_app; lia).
  now rewrite take_app_length, drop_app_length.
Qed.

Lemma extract_suffix (buf : bytes) :
  snd (_extract_packet buf) `suffix_of` buf.
Proof.
  unfold _extract_packet.
  destruct (length buf <? HEADER_SIZE)%nat; [reflexivity|].
  destruct (bytes_find _preamble_bytes buf) as [pos|]; simpl.
  2:{ destruct (1 <? length buf)%nat; [apply suffix_drop|reflexivity]. }
  set (b := if (0 <? pos)%nat then drop pos buf else buf).
  assert (Hb : b `suffix_of` buf).
  { subst b. destruct (0 <? pos)%nat; [apply suffix_drop|reflexivity]. }
  clearbody b.
  destruct (length b <? HEADER_SIZE)%nat; [exact Hb|].
  assert (Hd : forall n, drop n b `suffix_of` buf)
    by (intros n; etransitivity; [apply suffix_drop|exact Hb]).
  destruct (unpack_HBBB (take HEADER_SIZE b)) as [[[[pre sz] ty] nid]|]; [|apply Hd].
  destruct (negb (pre =? PACKET_PREAMBLE)); [apply Hd|].
  destruct ((sz <? 2) || (MAX_PAYLOAD_SIZE <? sz)); [apply Hd|].
  match goal with
  | |- context [if ?c then _ else _] => destruct c
  end; [exact Hb|apply Hd].
Qed.

(** X7.  What [_extract_packet] returns is a frame, found after bytes that hold
    no preamble, and nothing of the buffer is lost or reordered. *)
Theorem extract_packet_sound (buf pd rest : bytes) :
  _extract_packet buf = (Some pd, rest) ->
  exists skipped,
    buf = skipped ++ pd ++ rest /\ preamble_free skipped /\ is_frame pd.
Proof.
  unfold _extract_packet. intros H.
  destruct (length buf <? HEADER_SIZE)%nat; [discriminate|].
  destruct (bytes_find _preamble_bytes buf) as [pos|] eqn:Ef; [|discriminate].
  destruct (find_preamble_Some buf pos Ef) as [[tl Hdrop] Hfree].
  assert (Hb : (if (0 <? pos)%nat then drop pos buf else buf) = drop pos buf)
    by (destruct pos; reflexivity).
  rewrite Hb in H. clear Hb.
  destruct (length (drop pos buf) <? HEADER_SIZE)%nat eqn:E5; [discriminate|].
  apply Nat.ltb_ge in E5.
  exists (take pos buf).
  rewrite Hdrop in *.
  destruct tl as [|sz [|ty [|nid tail]]]; try (simpl in E5; unfold HEADER_SIZE in E5; lia).
  change (take HEADER_SIZE (x55 :: xaa :: sz :: ty :: nid :: tail))
    with [x55; xaa; sz; ty; nid] in H.
  cbn [unpack_HBBB] in H.
  change (le16 "U" "170" =? PACKET_PREAMBLE) with true in H. cbn [negb] in H.
  destruct ((b2z sz <? 2) || (MAX_PAYLOAD_SIZE <? b2z sz)) eqn:Es; [discriminate|].
  apply orb_false_iff in Es as [Es1 Es2]. apply Z.ltb_ge in Es1, Es2.
  set (f := x55 :: xaa :: sz :: ty :: nid :: tail) in *.
  match type of H with
  | context [if ?c then _ else _] => destruct c eqn:El; [discriminate|]
  end.
  apply Nat.ltb_ge in El. injection H as <- <-.
  split; [|split; [exact Hfree|]].
  - rewrite <- (take_drop pos buf) at 1. rewrite Hdrop. f_equal. simpl.
    now rewrite take_drop.
  - exists sz, ty, nid, (take (Z.to_nat (b2z sz)) tail).
    split; [reflexivity|]. split; [unfold MAX_PAYLOAD_SIZE in *; lia|].
    rewrite length_take. unfold HEADER_SIZE in El. simpl in El. lia.
Qed.

Lemma extract_packet_sound_witness :
  exists skipped,
    [x00; x55] ++ ping0_bytes ++ [x07] = skipped ++ ping0_bytes ++ [x07] /\
    preamble_free skipped /\ is_frame ping0_bytes.
Proof.
  apply (extract_packet_sound ([x00; x55] ++ ping0_bytes ++ [x07]) ping0_bytes [x07]).
  vm_compute. reflexivity.
Defined.

Lemma extract_at_preamble (sz ty nid : byte) (tail : bytes) :
  let buf := x55 :: xaa :: sz :: ty :: nid :: tail in
  _extract_packet buf
  = if (b2z sz <? 2) || (MAX_PAYLOAD_SIZE <? b2z sz) then (None, drop 1 buf)
    else if (length buf <? HEADER_SIZE + Z.to_nat (b2z sz))%nat then (None, buf)
         else (Some (take (HEADER_SIZE + Z.to_nat (b2z sz)) buf),
               drop (HEADER_SIZE + Z.to_nat (b2z sz)) buf).
Proof.
  intros buf. unfold _extract_packet.
  assert (E1 : (length buf <? HEADER_SIZE)%nat = false) by reflexivity.
  assert (E2 : bytes_find _preamble_bytes buf = Some 0%nat) by reflexivity.
  rewrite E1, E2. change (0 <? 0)%nat with false. cbv iota. rewrite E1.
  assert (E3 : unpack_HBBB (take HEADER_SIZE buf)
               = Some (PACKET_PREAMBLE, b2z sz, b2z ty, b2z nid)) by reflexivity.
  rewrite E3. now rewrite Z.eqb_refl.
Qed.

(** X8.  When [_extract_packet] returns nothing: a buffer shorter than a header
    is kept; with no preamble in it only the last byte is kept; a preamble
    followed by a size outside [2, 128] costs one byte; an incomplete frame
    is kept whole.  In every case what is left is a suffix of the buffer. *)
Theorem extract_packet_waits_or_drops :
  (forall buf, (length buf < HEADER_SIZE)%nat -> _extract_packet buf = (None, buf)) /\
  (forall buf, (HEADER_SIZE <= length buf)%nat -> preamble_free buf ->
     _extract_packet buf = (None, drop (length buf - 1) buf)) /\
  (forall sz ty nid tail,
     b2z sz < 2 \/ 128 < b2z sz ->
     _extract_packet (x55 :: xaa :: sz :: ty :: nid :: tail)
     = (None, xaa :: sz :: ty :: nid :: tail)) /\
  (forall f n, is_frame f -> (HEADER_SIZE <= n < length f)%nat ->
     _extract_packet (take n f) = (None, take n f)) /\
  (forall buf, snd (_extract_packet buf) `suffix_of` buf).
Proof.
  split; [|split; [|split; [|split]]].
  - intros buf Hl. unfold _extract_packet.
    now replace (length buf <? HEADER_SIZE)%nat with true
      by (symmetry; apply Nat.ltb_lt; assumption).
  - intros buf Hl Hfree. unfold _extract_packet.
    replace (length buf <? HEADER_SIZE)%nat with false
      by (symmetry; apply Nat.ltb_ge; assumption).
    unfold preamble_free in Hfree. rewrite Hfree.
    now replace (1 <? length buf)%nat with true
      by (symmetry; apply Nat.ltb_lt; unfold HEADER_SIZE in Hl; lia).
  - intros sz ty nid tail Hsz. rewrite extract_at_preamble.
    replace ((b2z sz <? 2) || (MAX_PAYLOAD_SIZE <? b2z sz)) with true; [reflexivity|].
    symmetry. apply orb_true_iff. unfold MAX_PAYLOAD_SIZE.
    destruct Hsz; [left; apply Z.ltb_lt|right; apply Z.ltb_lt]; assumption.
  - intros f n (sz & ty & nid & tail & -> & Hsz & Hlen) Hn.
    unfold HEADER_SIZE in Hn.
    do 5 (destruct n as [|n]; [lia|]). cbn [take].
    rewrite extract_at_preamble.
    replace ((b2z sz <? 2) || (MAX_PAYLOAD_SIZE <? b2z sz)) with false
      by (symmetry; apply orb_false_iff; split; apply Z.ltb_ge;
          unfold MAX_PAYLOAD_SIZE; lia).
    match goal with
    | |- context [if ?c then _ else _] => replace c with true; [reflexivity|]
    end.
    symmetry. apply Nat.ltb_lt. cbn [length] in *. rewrite length_take.
    unfold HEADER_SIZE. lia.
  - apply extract_suffix.
Qed.

Lemma count_corrupted_complete s : by_type_complete s -> by_type_complete (count_corrupted s).
Proof. intros Hc t Ht. exact (Hc t Ht). Qed.

Lemma unpack_packet_known_type h payload v :
  unpack_packet h payload = Some v -> known_type (packet_type h) = true.
Proof.
  intros Hu. destruct (rejected h payload) eqn:Er.
  - apply rejected_iff in Er. congruence.
  - unfold rejected in Er. rewrite !orb_false_iff in Er.
    destruct Er as [[[_ Hk] _] _]. now apply negb_false_iff in Hk.
Qed.

(** The two ways [_handle_packet] can go when the statistics hold every type. *)
Lemma handle_packet_cases pd l :
  by_type_complete (stats l) ->
  (exists v s',
      _handle_packet pd l = mkLink (rx_buffer l) s' (handled l ++ [v]) /\
      truthy v = true /\
      by_type_complete s' /\
      packets_corrupted s' = packets_corrupted (stats l) /\
      packets_received s' = packets_received (stats l) + 1) \/
  _handle_packet pd l = mkLink (rx_buffer l) (count_corrupted (stats l)) (handled l).
Proof.
  intros Hc. unfold _handle_packet.
  destruct (unpack_HBBB _) as [[[[pre sz] ty] nid]|]; [|now right].
  destruct (unpack_packet _ _) as [v|] eqn:Hu; [|now right].
  destruct (truthy v) eqn:Ht; [|now right].
  apply unpack_packet_known_type in Hu. simpl in Hu.
  destruct (update_receive_stats_ok ty (Z.of_nat HEADER_SIZE + sz) (stats l) Hc Hu)
    as (s' & -> & Hc' & Hcor & Hrec & _).
  left. exists v, s'. auto.
Qed.

(** X10.  Every frame handed to [_handle_packet] is counted exactly once, as
    received or as corrupted, and at most one packet is passed on. *)
Theorem handle_packet_counts_once pd l :
  by_type_complete (stats l) ->
  by_type_complete (stats (_handle_packet pd l)) /\
  rx_buffer (_handle_packet pd l) = rx_buffer l /\
  packets_received (stats (_handle_packet pd l))
  + packets_corrupted (stats (_handle_packet pd l))
  = packets_received (stats l) + packets_corrupted (stats l) + 1 /\
  ((handled (_handle_packet pd l) = handled l /\
    packets_corrupted (stats (_handle_packet pd l)) = packets_corrupted (stats l) + 1)
   \/
   (exists v, handled (_handle_packet pd l) = handled l ++ [v] /\
              packets_received (stats (_handle_packet pd l))
              = packets_received (stats l) + 1)).
Proof.
  intros Hc.
  destruct (handle_packet_cases pd l Hc) as [(v & s' & -> & _ & Hc' & Hcor & Hrec)| ->];
    cbn [stats rx_buffer handled].
  - split; [exact Hc'|]. split; [reflexivity|]. split; [lia|]. right. eauto.
  - split; [now apply count_corrupted_complete|]. split; [reflexivity|].
    split; [simpl; lia|]. left. simpl. auto.
Qed.

Lemma handle_packet_counts_once_witness :
  by_type_complete (stats (_handle_packet ping0_bytes ESP32Link_init)) /\
  rx_buffer (_handle_packet ping0_bytes ESP32Link_init) = rx_buffer ESP32Link_init /\
  packets_received (stats (_handle_packet ping0_bytes ESP32Link_init))
  + packets_corrupted (stats (_handle_packet ping0_bytes ESP32Link_init))
  = packets_received (stats ESP32Link_init) + packets_corrupted (stats ESP32Link_init) + 1 /\
  ((handled (_handle_packet ping0_bytes ESP32Link_init) = handled ESP32Link_init /\
    packets_corrupted (stats (_handle_packet ping0_bytes ESP32Link_init))
    = packets_corrupted (stats ESP32Link_init) + 1)
   \/
   (exists v, handled (_handle_packet ping0_bytes ESP32Link_init)
              = handled ESP32Link_init ++ [v] /\
              packets_received (stats (_handle_packet ping0_bytes ESP32Link_init))
              = packets_received (stats ESP32Link_init) + 1)).
Proof.
  apply (handle_packet_counts_once ping0_bytes ESP32Link_init).
  apply by_type_complete_init.
Defined.

Lemma handle_packet_monotone pd l :
  handled l `prefix_of` handled (_handle_packet pd l) /\
  packets_received (stats l) <= packets_received (stats (_handle_packet pd l)) /\
  packets_corrupted (stats l) <= packets_corrupted (stats (_handle_packet pd l)).
Proof.
  unfold _handle_packet.
  destruct (unpack_HBBB _) as [[[[pre sz] ty] nid]|];
    [|simpl; repeat split; [reflexivity|lia..]].
  destruct (unpack_packet _ _) as [v|]; [|simpl; repeat split; [reflexivity|lia..]].
  destruct (truthy v); [|simpl; repeat split; [reflexivity|lia..]].
  unfold _update_receive_stats. cbn [packets_received_by_type bytes_received_by_type
    packets_received packets_corrupted bytes_received].
  destruct (add_at ty 1 _) as [pbt|]; [|simpl; repeat split; [reflexivity|lia..]].
  cbn [packets_received_by_type bytes_received_by_type
    packets_received packets_corrupted bytes_received].
  destruct (add_at ty _ _) as [bbt|]; simpl; repeat split;
    try reflexivity; try lia.
  now apply prefix_app_r.
Qed.

Lemma process_loop_monotone fuel l :
  (length (rx_buffer l) < fuel)%nat ->
  exists l',
    process_loop fuel l = Some l' /\
    rx_buffer l' `suffix_of` rx_buffer l /\
    handled l `prefix_of` handled l' /\
    packets_received (stats l) <= packets_received (stats l') /\
    packets_corrupted (stats l) <= packets_corrupted (stats l').
Proof.
  revert l. induction fuel as [|fuel IH]; intros l Hl; [lia|].
  cbn [process_loop].
  pose proof (extract_suffix (rx_buffer l)) as Hsuf.
  destruct (_extract_packet (rx_buffer l)) as [[pd|] rest] eqn:E; cbn [snd] in Hsuf.
  - pose proof (extract_shrinks _ _ _ E) as Hshr.
    pose proof (handle_packet_monotone pd (set_rx_buffer rest l)) as (Hh & Hr & Hc).
    destruct (IH (_handle_packet pd (set_rx_buffer rest l))) as (l' & -> & Hs' & Hh' & Hr' & Hc').
    { rewrite handle_packet_rx_buffer. simpl. lia. }
    rewrite handle_packet_rx_buffer in Hs'. cbn [set_rx_buffer rx_buffer handled stats] in *.
    exists l'. split; [reflexivity|]. split; [etransitivity; eassumption|].
    split; [etransitivity; eassumption|]. lia.
  - eexists. split; [reflexivity|]. simpl. repeat split; try reflexivity; try lia.
    exact Hsuf.
Qed.

(** X12.  [_process_received_data] always leaves its loop; it keeps a suffix of
    the buffered bytes, only appends to what was handled, and never
    lowers a counter. *)
Theorem process_received_data_progress data l :
  exists l',
    _process_received_data data l = Some l' /\
    rx_buffer l' `suffix_of` (rx_buffer l ++ data) /\
    handled l `prefix_of` handled l' /\
    packets_received (stats l) <= packets_received (stats l') /\
    packets_corrupted (stats l) <= packets_corrupted (stats l').
Proof.
  unfold _process_received_data.
  destruct (process_loop_monotone
              (S (length (rx_buffer (set_rx_buffer (rx_buffer l ++ data) l))))
              (set_rx_buffer (rx_buffer l ++ data) l))
    as (l' & Hp & Hs & Hh & Hr & Hc); [lia|].
  exists l'. auto.
Qed.

Lemma encoded_is_frame p encoded :
  valid_packet p = true -> pack_packet (VPacket p) = Some encoded -> is_frame encoded.
Proof.
  intros Hv Hp.
  destruct (encoded_shape p encoded Hv Hp) as (tl & -> & Hlen & Hhdr & Hs & _).
  pose proof (expected_size_bounds p) as Hb. rewrite <- Hs in Hb.
  destruct tl as [|sz [|ty [|nid tail]]];
    try (simpl in Hlen; unfold HEADER_SIZE in Hlen; lia).
  change (take HEADER_SIZE (x55 :: xaa :: sz :: ty :: nid :: tail))
    with [x55; xaa; sz; ty; nid] in Hhdr.
  cbn [unpack_HBBB] in Hhdr. injection Hhdr as Hsz _ _.
  exists sz, ty, nid, tail. split; [reflexivity|]. rewrite Hsz.
  split; [lia|]. simpl in Hlen. unfold HEADER_SIZE in Hlen. lia.
Qed.

Lemma process_loop_frame fuel l (G f rest : bytes) :
  rx_buffer l = G ++ f ++ rest -> is_frame f -> preamble_free G ->
  process_loop (S fuel) l = process_loop fuel (_handle_packet f (set_rx_buffer rest l)).
Proof.
  intros Hb Hf HG. cbn [process_loop]. now rewrite Hb, (extract_frame G f rest Hf HG).
Qed.

Lemma process_loop_done fuel l rest :
  _extract_packet (rx_buffer l) = (None, rest) ->
  process_loop (S fuel) l = Some (set_rx_buffer rest l).
Proof. intros He. cbn [process_loop]. now rewrite He. Qed.

Lemma extract_short buf :
  (length buf < HEADER_SIZE)%nat -> _extract_packet buf = (None, buf).
Proof.
  intros Hl. unfold _extract_packet.
  now replace (length buf <? HEADER_SIZE)%nat with true
    by (symmetry; apply Nat.ltb_lt; assumption).
Qed.

Lemma extract_incomplete f n :
  is_frame f -> (n < length f)%nat -> _extract_packet (take n f) = (None, take n f).
Proof.
  intros Hf Hn. destruct (le_lt_dec HEADER_SIZE n) as [H5|H5].
  2:{ apply extract_short. rewrite length_take. lia. }
  destruct Hf as (sz & ty & nid & tail & -> & Hsz & Hlen).
  unfold HEADER_SIZE in H5.
  do 5 (destruct n as [|n]; [lia|]). cbn [take].
  rewrite extract_at_preamble.
  replace ((b2z sz <? 2) || (MAX_PAYLOAD_SIZE <? b2z sz)) with false
    by (symmetry; apply orb_false_iff; split; apply Z.ltb_ge;
        unfold MAX_PAYLOAD_SIZE; lia).
  match goal with
  | |- context [if ?c then _ else _] => replace c with true; [reflexivity|]
  end.
  symmetry. apply Nat.ltb_lt. cbn [length] in *. rewrite length_take.
  unfold HEADER_SIZE. lia.
Qed.

(** X9.  A packet that arrives in two reads is delivered once, on the second. *)
Theorem chunked_delivery p encoded (c1 c2 : bytes) l :
  valid_packet p = true ->
  pack_packet (VPacket p) = Some encoded ->
  encoded = c1 ++ c2 ->
  c2 <> [] ->
  rx_buffer l = [] ->
  by_type_complete (stats l) ->
  exists l2,
    _process_received_data c1 l = Some (set_rx_buffer c1 l) /\
    _process_received_data c2 (set_rx_buffer c1 l) = Some l2 /\
    handled l2 = handled l ++ [decoded p encoded] /\
    rx_buffer l2 = [] /\
    packets_corrupted (stats l2) = packets_corrupted (stats l) /\
    packets_received (stats l2) = packets_received (stats l) + 1.
Proof.
  intros Hv Hp Henc Hc2 Hbuf Hc.
  pose proof (encoded_is_frame p encoded Hv Hp) as Hf.
  assert (Hc1 : c1 = take (length c1) encoded) by (now rewrite Henc, take_app_length).
  assert (Hl1 : (length c1 < length encoded)%nat).
  { rewrite Henc, length_app. destruct c2; [congruence|simpl; lia]. }
  assert (H1 : _process_received_data c1 l = Some (set_rx_buffer c1 l)).
  { unfold _process_received_data. rewrite Hbuf. cbn [app].
    rewrite (process_loop_done _ _ c1); [reflexivity|].
    cbn [rx_buffer set_rx_buffer]. rewrite Hc1. now apply extract_incomplete. }
  destruct (handle_one p encoded (set_rx_buffer [] (set_rx_buffer (c1 ++ c2) (set_rx_buffer c1 l)))
              Hv Hp Hc) as (s' & Hh & Hc' & Hcor & Hrec).
  eexists. split; [exact H1|]. split.
  - unfold _process_received_data. cbn [rx_buffer set_rx_buffer].
    rewrite (process_loop_frame _ _ [] encoded []);
      [|cbn [rx_buffer set_rx_buffer]; now rewrite app_nil_r, Henc|exact Hf|reflexivity].
    assert (Hfuel : exists k, length (c1 ++ c2) = S k).
    { rewrite <- Henc. destruct encoded; [simpl in Hl1; lia|eauto]. }
    destruct Hfuel as [k ->].
    rewrite (process_loop_done k _ []); [reflexivity|].
    rewrite handle_packet_rx_buffer. reflexivity.
  - rewrite Hh. cbn [set_rx_buffer handled stats rx_buffer]. auto.
Qed.

Lemma chunked_delivery_witness :
  exists l2,
    _process_received_data (take 3 ping0_bytes) ESP32Link_init
    = Some (set_rx_buffer (take 3 ping0_bytes) ESP32Link_init) /\
    _process_received_data (drop 3 ping0_bytes)
      (set_rx_buffer (take 3 ping0_bytes) ESP32Link_init) = Some l2 /\
    handled l2 = handled ESP32Link_init ++ [decoded ping0 ping0_bytes] /\
    rx_buffer l2 = [] /\
    packets_corrupted (stats l2) = packets_corrupted (stats ESP32Link_init) /\
    packets_received (stats l2) = packets_received (stats ESP32Link_init) + 1.
Proof.
  apply (chunked_delivery ping0 ping0_bytes (take 3 ping0_bytes) (drop 3 ping0_bytes)
           ESP32Link_init).
  - vm_compute. reflexivity.
  - vm_compute. reflexivity.
  - reflexivity.
  - discriminate.
  - reflexivity.
  - apply by_type_complete_init.
Defined.

Lemma changed_byte_rejected p encoded (i : nat) (b b' : byte) :
  pack_packet (VPacket p) = Some encoded ->
  (HEADER_SIZE <= i)%nat -> encoded !! i = Some b -> b' <> b ->
  unpack_packet (header p) (drop HEADER_SIZE (<[i:=b']> encoded)) = None.
Proof.
  intros Hp Hi Hb Hne.
  apply pack_packet_inv in Hp as (hdr & data & Hh & _ & ->).
  pose proof (pack_header_length _ _ Hh) as Hl.
  set (c := calculate_crc16 (hdr ++ data ++ [x00; x00])) in *.
  assert (Hc : le16 (z2b c) (z2b (c / 256)) = c)
    by apply le16_z2b, calculate_crc16_range.
  apply unpack_packet_crc_mismatch.
  rewrite insert_app_r_alt by lia. rewrite <- Hl at 1. rewrite drop_app_length.
  rewrite lookup_app_r in Hb by lia. rewrite Hl in *.
  set (j := (i - HEADER_SIZE)%nat) in *.
  destruct (decide (j < length data)%nat) as [Hj|Hj].
  - rewrite insert_app_l by lia. rewrite lookup_app_l in Hb by lia.
    eapply crc_matches_body_changed; eauto.
    replace (hdr ++ <[j:=b']> data) with (<[(length hdr + j)%nat:=b']> (hdr ++ data))
      by (rewrite insert_app_r; reflexivity).
    apply (fold_crc_insert _ _ b); [unfold word16; lia| |assumption].
    rewrite lookup_app_r by lia.
    now replace (length hdr + j - length hdr)%nat with j by lia.
  - rewrite lookup_app_r in Hb by lia.
    rewrite insert_app_r_alt by lia.
    destruct (j - length data)%nat as [|[|k]] eqn:Ek; simpl in Hb; [| |discriminate];
      injection Hb as <-; simpl;
      eapply crc_matches_crc_changed; eauto; congruence.
Qed.

Lemma is_frame_insert f (i : nat) (b' : byte) :
  is_frame f -> (HEADER_SIZE <= i)%nat ->
  is_frame (<[i:=b']> f) /\ take HEADER_SIZE (<[i:=b']> f) = take HEADER_SIZE f.
Proof.
  intros (sz & ty & nid & tail & -> & Hsz & Hlen) Hi. unfold HEADER_SIZE in Hi.
  do 5 (destruct i as [|i]; [lia|]). cbn [list_insert insert]. simpl.
  split; [|reflexivity].
  exists sz, ty, nid, (<[i:=b']> tail). split; [reflexivity|].
  split; [assumption|]. now rewrite length_insert.
Qed.

(** X11.  A packet with one byte changed after its header is dropped and counted
    as corrupted; the packet that follows it is still delivered. *)
Theorem corrupted_packet_is_skipped (A B : Packet f32) (encA encB G1 G2 : bytes)
    (i : nat) (b b' : byte) (l : ESP32Link) :
  valid_packet A = true -> valid_packet B = true ->
  pack_packet (VPacket A) = Some encA -> pack_packet (VPacket B) = Some encB ->
  (HEADER_SIZE <= i)%nat -> encA !! i = Some b -> b' <> b ->
  preamble_free G1 -> preamble_free G2 ->
  rx_buffer l = [] -> by_type_complete (stats l) ->
  exists l',
    _process_received_data (G1 ++ <[i:=b']> encA ++ G2 ++ encB) l = Some l' /\
    handled l' = handled l ++ [decoded B encB] /\
    packets_corrupted (stats l') = packets_corrupted (stats l) + 1 /\
    packets_received (stats l') = packets_received (stats l) + 1 /\
    rx_buffer l' = [].
Proof.
  intros HvA HvB HpA HpB Hi Hb Hne HG1 HG2 Hbuf Hc.
  pose proof (encoded_is_frame A encA HvA HpA) as HfA.
  pose proof (encoded_is_frame B encB HvB HpB) as HfB.
  destruct (is_frame_insert encA i b' HfA Hi) as [HfA' Htake].
  destruct (encoded_shape A encA HvA HpA) as (? & _ & _ & Hhdr & _ & _ & _).
  assert (Hbad : forall l0, _handle_packet (<[i:=b']> encA) l0
                   = mkLink (rx_buffer l0) (count_corrupted (stats l0)) (handled l0)).
  { intros l0. unfold _handle_packet. rewrite Htake, Hhdr.
    assert (Hh : mkHeader PACKET_PREAMBLE (payload_size (header A))
                   (packet_type (header A)) (network_id (header A)) = header A).
    { unfold valid_packet, in_wire_ranges, header_correct in HvA.
      rewrite !andb_true_iff, !Z.eqb_eq in HvA.
      destruct HvA as [[[_ [[<- _] _]] _] _]. now destruct (header A). }
    rewrite Hh, (changed_byte_rejected A encA i b b' HpA Hi Hb Hne). reflexivity. }
  unfold _process_received_data. rewrite Hbuf. cbn [app rx_buffer set_rx_buffer].
  assert (Hfuel : exists k, length (G1 ++ <[i:=b']> encA ++ G2 ++ encB) = S (S k)).
  { exists (length (G1 ++ <[i:=b']> encA ++ G2 ++ encB) - 2)%nat.
    destruct HfA' as (? & ? & ? & ? & -> & _). rewrite !length_app. simpl. lia. }
  destruct Hfuel as [k ->].
  rewrite (process_loop_frame _ _ G1 (<[i:=b']> encA) (G2 ++ encB)); auto.
  rewrite Hbad. cbn [rx_buffer set_rx_buffer stats handled].
  rewrite (process_loop_frame _ _ G2 encB []);
    [|cbn [rx_buffer]; now rewrite app_nil_r|exact HfB|exact HG2].
  destruct (handle_one B encB
              (set_rx_buffer [] (mkLink (G2 ++ encB) (count_corrupted (stats l)) (handled l)))
              HvB HpB (count_corrupted_complete _ Hc)) as (s' & -> & Hc' & Hcor & Hrec).
  rewrite (process_loop_done k _ []); [|reflexivity].
  eexists. split; [reflexivity|].
  cbn [set_rx_buffer handled stats rx_buffer count_corrupted packets_corrupted
         packets_received] in *.
  repeat split; auto.
Qed.

Lemma corrupted_packet_is_skipped_witness :
  exists l',
    _process_received_data ([x01] ++ <[7%nat:=x01]> ping0_bytes ++ [x02] ++ ping0_bytes)
      ESP32Link_init = Some l' /\
    handled l' = handled ESP32Link_init ++ [decoded ping0 ping0_bytes] /\
    packets_corrupted (stats l') = packets_corrupted (stats ESP32Link_init) + 1 /\
    packets_received (stats l') = packets_received (stats ESP32Link_init) + 1 /\
    rx_buffer l' = [].
Proof.
  apply (corrupted_packet_is_skipped ping0 ping0 ping0_bytes ping0_bytes [x01] [x02]
           7 x00 x01 ESP32Link_init).
  1-4: vm_compute; reflexivity.
  - unfold HEADER_SIZE. lia.
  - reflexivity.
  - discriminate.
  - reflexivity.
  - reflexivity.
  - reflexivity.
  - apply by_type_complete_init.
Defined.

(** X6.  A bulk frame is passed on as its raw payload, unless the payload is
    empty: empty [bytes] are false in Python, and the frame is counted as
    corrupted although its CRC is right. *)
Theorem bulk_frame_handling (data : bytes) (l : ESP32Link) :
  (length data <= 126)%nat ->
  rx_buffer l = [] -> by_type_complete (stats l) ->
  exists encoded l',
    generate_bulk_packet (Z.of_nat (length data) + 2) data = Some encoded /\
    _process_received_data encoded l = Some l' /\
    rx_buffer l' = [] /\
    (data = [] ->
     handled l' = handled l /\
     packets_corrupted (stats l') = packets_corrupted (stats l) + 1 /\
     packets_received (stats l') = packets_received (stats l)) /\
    (data <> [] ->
     handled l' = handled l ++ [VBytes data] /\
     packets_corrupted (stats l') = packets_corrupted (stats l) /\
     packets_received (stats l') = packets_received (stats l) + 1).
Proof.
  intros Hlen Hbuf Hc.
  set (ps := Z.of_nat (length data) + 2).
  assert (Hps : 0 <= ps < 256) by (unfold ps; lia).
  destruct (generate_bulk_packet_ok ps data Hps) as (c0 & c1 & Hg & Hu).
  set (enc := x55 :: xaa :: z2b ps :: x06 :: x12 :: data ++ [c0; c1]) in *.
  assert (Hsz : b2z (z2b ps) = ps) by (rewrite b2z_z2b; apply Z.mod_small; lia).
  assert (Hf : is_frame enc).
  { exists (z2b ps), x06, x12, (data ++ [c0; c1]). split; [reflexivity|].
    rewrite Hsz. split; [unfold ps; lia|]. rewrite length_app. unfold ps. simpl. lia. }
  assert (Hhandle : forall l0,
             _handle_packet enc l0
             = if truthy (VBytes data) then
                 let '(s, returned) :=
                   _update_receive_stats BULK_DATA (Z.of_nat HEADER_SIZE + ps) (stats l0) in
                 if returned then mkLink (rx_buffer l0) s (handled l0 ++ [VBytes data])
                 else mkLink (rx_buffer l0) (count_corrupted s) (handled l0)
               else mkLink (rx_buffer l0) (count_corrupted (stats l0)) (handled l0)).
  { intros l0. unfold _handle_packet.
    change (take HEADER_SIZE enc) with [x55; xaa; z2b ps; x06; x12].
    cbn [unpack_HBBB]. rewrite Hsz.
    change (drop HEADER_SIZE enc) with (data ++ [c0; c1]).
    change (le16 "U" "170") with PACKET_PREAMBLE.
    change (b2z "006") with BULK_DATA. change (b2z "018") with 18.
    rewrite Hu. reflexivity. }
  exists enc. unfold _process_received_data. rewrite Hbuf.
  cbn [app rx_buffer set_rx_buffer].
  assert (Hfuel : exists k, length enc = S k) by (unfold enc; simpl; eauto).
  destruct Hfuel as [k ->].
  rewrite (process_loop_frame _ _ [] enc []);
    [|cbn [rx_buffer]; now rewrite app_nil_r|exact Hf|reflexivity].
  rewrite (process_loop_done k _ []) by (rewrite handle_packet_rx_buffer; reflexivity).
  eexists. split; [exact Hg|]. split; [reflexivity|].
  rewrite Hhandle. cbn [truthy stats set_rx_buffer rx_buffer handled].
  destruct (update_receive_stats_ok BULK_DATA (Z.of_nat HEADER_SIZE + ps)
              (stats l) Hc eq_refl) as (s' & Hs & _ & Hcor & Hrec & _).
  rewrite Hs.
  split; [|split].
  - now destruct (negb (bool_decide (data = []))).
  - intros ->. simpl. auto.
  - intros Hne. rewrite bool_decide_eq_false_2 by assumption. simpl. auto.
Qed.

Lemma bulk_frame_handling_witness :
  exists encoded l',
    generate_bulk_packet (Z.of_nat (length [x01; x02]) + 2) [x01; x02] = Some encoded /\
    _process_received_data encoded ESP32Link_init = Some l' /\
    rx_buffer l' = [] /\
    ([x01; x02] = [] ->
     handled l' = handled ESP32Link_init /\
     packets_corrupted (stats l') = packets_corrupted (stats ESP32Link_init) + 1 /\
     packets_received (stats l') = packets_received (stats ESP32Link_init)) /\
    ([x01; x02] <> [] ->
     handled l' = handled ESP32Link_init ++ [VBytes [x01; x02]] /\
     packets_corrupted (stats l') = packets_corrupted (stats ESP32Link_init) /\
     packets_received (stats l') = packets_received (stats ESP32Link_init) + 1).
Proof.
  apply (bulk_frame_handling [x01; x02] ESP32Link_init).
  - simpl. lia.
  - reflexivity.
  - apply by_type_complete_init.
Defined.

Lemma rstrip_nul_zeros n : rstrip_nul (replicate n x00) = [].
Proof. induction n as [|n IH]; simpl; [reflexivity|]. now rewrite IH. Qed.

Lemma rstrip_nul_padded (msg : bytes) n :
  rstrip_nul (msg ++ replicate n x00) = rstrip_nul msg.
Proof.
  induction msg as [|b msg IH]; simpl.
  - apply rstrip_nul_zeros.
  - now rewrite IH.
Qed.

(** X13.  A custom message comes back as it was sent: the packet that
    [send_custom_message] builds is valid, it carries 126 data bytes, and
    stripping the padding from what [unpack_packet] returns gives the first
    125 bytes of the message without their trailing NULs. *)
Theorem custom_message_roundtrip (network_id : Z) (message_utf8 : bytes) :
  u8 network_id = true ->
  let packet := custom_message_packet network_id message_utf8 in
  length (m_custom_data packet) = 126%nat /\
  exists encoded received,
    pack_packet (VPacket (PCustomMessage packet)) = Some encoded /\
    length encoded = 133%nat /\
    unpack_packet (m_header packet) (payload_of encoded)
    = Some (VPacket (PCustomMessage received)) /\
    received_message_bytes received = rstrip_nul (take 125 message_utf8) /\
    ((length message_utf8 <= 125)%nat -> rstrip_nul message_utf8 = message_utf8 ->
     received_message_bytes received = message_utf8).
Proof.
  intros Hn packet.
  assert (Hl : length (m_custom_data packet) = 126%nat).
  { unfold packet, custom_message_packet. cbn [m_custom_data].
    rewrite length_app, length_replicate, length_take. lia. }
  split; [exact Hl|].
  assert (Hv : valid_packet (PCustomMessage packet) = true).
  { unfold valid_packet, in_wire_ranges, header_in_range, header_correct.
    cbn [header m_header packet custom_message_packet preamble payload_size
           packet_type Packets.network_id fields_in_range custom_data_full
           expected_size type_tag].
    rewrite Hn. fold packet. rewrite Hl. reflexivity. }
  destruct (encode_then_decode _ Hv) as (encoded & Hp & Hlen & Hdec).
  exists encoded. eexists. split; [exact Hp|]. split.
  - cbn [header m_header packet custom_message_packet payload_size] in Hlen.
    unfold CUSTOM_MESSAGE_SIZE, HEADER_SIZE in Hlen. lia.
  - split; [exact Hdec|].
    unfold received_message_bytes. cbn [m_custom_data packet custom_message_packet].
    rewrite rstrip_nul_padded. split; [reflexivity|].
    intros Hle Hs. now rewrite take_ge by lia.
Qed.

Lemma custom_message_roundtrip_witness :
  length (m_custom_data (custom_message_packet 0x12 [x68; x69])) = 126%nat /\
  exists encoded received,
    pack_packet (VPacket (PCustomMessage (custom_message_packet 0x12 [x68; x69])))
    = Some encoded /\
    length encoded = 133%nat /\
    unpack_packet (m_header (custom_message_packet 0x12 [x68; x69])) (payload_of encoded)
    = Some (VPacket (PCustomMessage received)) /\
    received_message_bytes received = rstrip_nul (take 125 [x68; x69]) /\
    ((length [x68; x69] <= 125)%nat -> rstrip_nul [x68; x69] = [x68; x69] ->
     received_message_bytes received = [x68; x69]).
Proof. apply (custom_message_roundtrip 0x12 [x68; x69]). reflexivity. Defined.

End LinkMore.

(** ** The presence table of drone.py, further properties *)

Module PresenceMore.
Import Packets DroneData Presence PresenceOps PresenceFacts.

Section PresenceMore.
Context {F : Type} `{PyFloat F}.
Implicit Types (d : Drone F) (m : gmap Z (DroneInfo F)).

Lemma drone_eq d d' :
  drone_id d = drone_id d' -> _other_drones d = _other_drones d' ->
  _drone_expiry_timeout d = _drone_expiry_timeout d' -> d = d'.
Proof. destruct d, d'. simpl. now intros -> -> ->. Qed.

Lemma step_drone_id d (e : Event F) : drone_id (step d e) = drone_id d.
Proof.
  destruct e as [t p|t s|t|t]; simpl; try reflexivity.
  - unfold _handle_telemetry_packet. now destruct (negb _).
  - unfold _handle_status_packet. destruct (negb _); [|reflexivity].
    now destruct (_other_drones d !! s_drone_id s).
Qed.

Lemma step_table_ok d (e : Event F) : table_ok d -> table_ok (step d e).
Proof.
  intros [Hown Hent]. split.
  - destruct e as [t p|t s|t|t]; cbn [step].
    + now apply handle_telemetry_own_untracked.
    + now apply handle_status_own_untracked.
    + now apply cleanup_own_untracked.
    + exact Hown.
  - intros k info. destruct e as [t p|t s|t|t]; cbn [step].
    + unfold _handle_telemetry_packet. destruct (negb _); [|apply Hent]. simpl.
      destruct (decide (k = t_drone_id p)) as [->|Hne].
      * rewrite lookup_insert_eq. intros [= <-]. now split.
      * rewrite lookup_insert_ne by congruence. apply Hent.
    + unfold _handle_status_packet. destruct (negb _); [|apply Hent].
      destruct (_other_drones d !! s_drone_id s) as [old|] eqn:Eold; [|apply Hent]. simpl.
      destruct (decide (k = s_drone_id s)) as [->|Hne].
      * rewrite lookup_insert_eq. intros [= <-]. simpl. now apply Hent.
      * rewrite lookup_insert_ne by congruence. apply Hent.
    + rewrite cleanup_lookup. destruct (_other_drones d !! k) as [old|] eqn:Eold;
        [|discriminate].
      destruct (is_expired _ _ _); [discriminate|]. intros [= <-]. now apply Hent.
    + apply Hent.
Qed.

Lemma count_via_telemetry (l : list (Z * DroneInfo F)) (n : nat) :
  (forall kv, kv ∈ l -> is_via_telemetry kv.2 = true) ->
  foldl (fun c kv => if is_via_telemetry kv.2 then S c else c) n l = (n + length l)%nat.
Proof.
  revert n. induction l as [|kv l IH]; intros n Hall; simpl; [lia|].
  rewrite (Hall kv) by (apply elem_of_cons; now left).
  rewrite IH; [lia|]. intros kv' Hin. apply Hall, elem_of_cons. now right.
Qed.

(** X14.  Whatever telemetry packets, status packets, sweeps and timeout changes
    a drone goes through from its initial, empty table, the table never
    holds the drone's own id, every entry is stored under its own
    [drone_id] and is marked as discovered via telemetry (no code path
    assigns [DroneDiscoveryMethod.STATUS]), so [get_network_status] reports
    a [telemetry_discovered_count] equal to [other_drones_count]. *)
Theorem presence_table_invariant (own : Z) (timeout : F) (events : list (Event F)) :
  let d := run events (Drone_init own timeout) in
  drone_id d = own /\
  (own ∉ get_discovered_drones d) /\
  (forall k info, _other_drones d !! k = Some info ->
     di_drone_id info = k /\ di_discovered_via info = VIA_TELEMETRY) /\
  telemetry_discovered_count d = other_drones_count d.
Proof.
  intros d.
  assert (Hgen : forall d0 : Drone F, drone_id d0 = own -> table_ok d0 ->
             drone_id (run events d0) = own /\ table_ok (run events d0)).
  { unfold run. induction events as [|e events' IH]; intros d0 Hid Hok; simpl; [now split|].
    apply IH; [now rewrite step_drone_id|now apply step_table_ok]. }
  destruct (Hgen (Drone_init own timeout)) as (Hid & Hown & Hent).
  { reflexivity. }
  { split; [apply lookup_empty|]. intros k info. cbn [Drone_init _other_drones].
    rewrite lookup_empty. discriminate. }
  fold d in Hid, Hown, Hent. split; [exact Hid|]. split; [|split; [exact Hent|]].
  - unfold get_discovered_drones. rewrite Hid in Hown. now apply not_elem_of_dom.
  - unfold telemetry_discovered_count, other_drones_count.
    rewrite count_via_telemetry.
    + now rewrite length_map_to_list.
    + intros [k info] Hin. apply elem_of_map_to_list in Hin. simpl.
      unfold is_via_telemetry. now destruct (Hent k info Hin) as [_ ->].
Qed.

(** X15.  The sweep only removes entries, keeps the drone's id and timeout, and
    a second sweep at the same time removes nothing more. *)
Theorem cleanup_shrinks_and_is_idempotent d (now : F) :
  let d' := _cleanup_expired_drones now d in
  drone_id d' = drone_id d /\
  _drone_expiry_timeout d' = _drone_expiry_timeout d /\
  get_discovered_drones d' ⊆ get_discovered_drones d /\
  (other_drones_count d' <= other_drones_count d)%nat /\
  _cleanup_expired_drones now d' = d'.
Proof.
  intros d'.
  assert (Hsub : _other_drones d' ⊆ _other_drones d).
  { apply map_subseteq_spec. intros k info. unfold d'. rewrite cleanup_lookup.
    destruct (_other_drones d !! k) as [old|]; [|discriminate].
    now destruct (is_expired _ _ _). }
  split; [reflexivity|]. split; [reflexivity|]. split; [|split].
  - unfold get_discovered_drones. now apply subseteq_dom.
  - unfold other_drones_count. now apply map_subseteq_size.
  - apply drone_eq; try reflexivity. apply map_eq. intros k.
    rewrite cleanup_lookup. change (_drone_expiry_timeout d') with (_drone_expiry_timeout d).
    unfold d'. rewrite cleanup_lookup.
    destruct (_other_drones d !! k) as [old|]; [|reflexivity].
    destruct (is_expired now (_drone_expiry_timeout d) old) eqn:E; [reflexivity|].
    now rewrite E.
Qed.

(** X16.  How the set of discovered drones changes: a telemetry packet from
    another drone adds its id, a telemetry packet from the drone itself
    changes nothing, and a status packet never adds or removes an id. *)
Theorem discovered_drones_changes d (now : F) :
  (forall p : TelemetryPacket F,
     get_discovered_drones (_handle_telemetry_packet now p d)
     = if t_drone_id p =? drone_id d then get_discovered_drones d
       else {[t_drone_id p]} ∪ get_discovered_drones d) /\
  (forall p : TelemetryPacket F,
     (other_drones_count d <= other_drones_count (_handle_telemetry_packet now p d)
      <= S (other_drones_count d))%nat) /\
  (forall s : StatusPacket,
     get_discovered_drones (_handle_status_packet now s d) = get_discovered_drones d /\
     other_drones_count (_handle_status_packet now s d) = other_drones_count d).
Proof.
  unfold get_discovered_drones, other_drones_count. split; [|split].
  - intros p. unfold _handle_telemetry_packet.
    destruct (t_drone_id p =? drone_id d); simpl; [reflexivity|]. apply dom_insert_L.
  - intros p. unfold _handle_telemetry_packet.
    destruct (t_drone_id p =? drone_id d); simpl; [lia|].
    destruct (_other_drones d !! t_drone_id p) as [old|] eqn:E.
    + rewrite map_size_insert_Some by eauto. lia.
    + rewrite map_size_insert_None by assumption. lia.
  - intros s. unfold _handle_status_packet.
    destruct (negb _); [|now split].
    destruct (_other_drones d !! s_drone_id s) as [old|] eqn:E; [|now split]. simpl. split.
    + apply dom_insert_lookup_L. eauto.
    + apply map_size_insert_Some. eauto.
Qed.

End PresenceMore.

Lemma Qgt_false (a b : Q) : negb (Qle_bool a b) = false <-> (a <= b)%Q.
Proof. rewrite negb_false_iff. apply Qle_bool_iff. Qed.

Lemma Qgt_true (a b : Q) : negb (Qle_bool a b) = true <-> (b < a)%Q.
Proof.
  rewrite negb_true_iff. split.
  - intros E. apply Qnot_le_lt. intros Hle. apply Qle_bool_iff in Hle. congruence.
  - intros Hlt. destruct (Qle_bool a b) eqn:E; [|reflexivity].
    apply Qle_bool_iff in E. exfalso. eapply Qlt_not_le; eauto.
Qed.

(** X17.  Sweeps compose: a sweep followed by a sweep at a later time leaves the
    table that the later sweep alone would leave. *)
Theorem later_sweep_subsumes_earlier (d : Drone Q) (now now' : Q) :
  (now <= now')%Q ->
  _cleanup_expired_drones now' (_cleanup_expired_drones now d)
  = _cleanup_expired_drones now' d.
Proof.
  intros Hle. apply drone_eq; try reflexivity. apply map_eq. intros k.
  rewrite !cleanup_lookup.
  change (_drone_expiry_timeout (_cleanup_expired_drones now d))
    with (_drone_expiry_timeout d).
  destruct (_other_drones d !! k) as [old|]; [|reflexivity].
  destruct (is_expired now (_drone_expiry_timeout d) old) eqn:E; [|reflexivity].
  destruct (is_expired now' (_drone_expiry_timeout d) old) eqn:E'; [reflexivity|].
  unfold is_expired in *. simpl in E, E'.
  apply Qgt_true in E. apply Qgt_false in E'. exfalso.
  apply (Qlt_irrefl (_drone_expiry_timeout d)).
  eapply Qlt_le_trans; [exact E|]. eapply Qle_trans; [|exact E'].
  apply Qplus_le_l. exact Hle.
Qed.

Lemma later_sweep_subsumes_earlier_witness :
  _cleanup_expired_drones 6%Q (_cleanup_expired_drones 2%Q drone1)
  = _cleanup_expired_drones 6%Q drone1.
Proof. apply (later_sweep_subsumes_earlier drone1 2%Q 6%Q). vm_compute. discriminate. Defined.

(** X18.  A peer that has just been heard survives a sweep exactly as long as the
    time since then does not exceed the timeout: after a telemetry packet
    from another drone, or a status packet from a tracked drone, received
    at time [seen], the sweep at time [now] keeps the refreshed entry when
    [now - seen <= timeout] and removes it otherwise. *)
Theorem refreshed_peer_expiry (d : Drone Q) (seen now : Q) :
  own_untracked d ->
  (forall p : TelemetryPacket Q,
     t_drone_id p <> drone_id d ->
     _other_drones (_cleanup_expired_drones now (_handle_telemetry_packet seen p d))
       !! t_drone_id p
     = if Qle_bool (now - seen) (_drone_expiry_timeout d)
       then Some (mkInfo (t_drone_id p) (telemetry_position p) seen VIA_TELEMETRY)
       else None) /\
  (forall (s : StatusPacket) info,
     _other_drones d !! s_drone_id s = Some info ->
     _other_drones (_cleanup_expired_drones now (_handle_status_packet seen s d))
       !! s_drone_id s
     = if Qle_bool (now - seen) (_drone_expiry_timeout d)
       then Some (mkInfo (di_drone_id info) (di_position info) seen (di_discovered_via info))
       else None).
Proof.
  intros Hown. split.
  - intros p Hne. rewrite cleanup_lookup, handle_telemetry_other by assumption.
    rewrite lookup_insert_eq. unfold is_expired, _handle_telemetry_packet.
    apply Z.eqb_neq in Hne. rewrite Hne. simpl.
    now destruct (Qle_bool (now - seen) (_drone_expiry_timeout d)).
  - intros s info Hs.
    assert (Hne : s_drone_id s <> drone_id d).
    { intros E. unfold own_untracked in Hown. rewrite <- E, Hs in Hown. discriminate. }
    rewrite cleanup_lookup. unfold _handle_status_packet.
    apply Z.eqb_neq in Hne. rewrite Hne, Hs. simpl.
    rewrite lookup_insert_eq. unfold is_expired. simpl.
    now destruct (Qle_bool (now - seen) (_drone_expiry_timeout d)).
Qed.

Lemma refreshed_peer_expiry_witness :
  (forall p : TelemetryPacket Q,
     t_drone_id p <> drone_id drone1 ->
     _other_drones (_cleanup_expired_drones 12%Q (_handle_telemetry_packet 10%Q p drone1))
       !! t_drone_id p
     = if Qle_bool (12 - 10) (_drone_expiry_timeout drone1)
       then Some (mkInfo (t_drone_id p) (telemetry_position p) 10%Q VIA_TELEMETRY)
       else None) /\
  (forall (s : StatusPacket) info,
     _other_drones drone1 !! s_drone_id s = Some info ->
     _other_drones (_cleanup_expired_drones 12%Q (_handle_status_packet 10%Q s drone1))
       !! s_drone_id s
     = if Qle_bool (12 - 10) (_drone_expiry_timeout drone1)
       then Some (mkInfo (di_drone_id info) (di_position info) 10%Q (di_discovered_via info))
       else None).
Proof. apply (refreshed_peer_expiry drone1 10%Q 12%Q). vm_compute. reflexivity. Defined.

(** X19.  The expiry timeout has a floor of one second: whatever value is asked
    for, the stored timeout is at least 1 (the value itself when it is
    greater than 1, else 1), so an entry last seen no more than one second
    ago survives the next sweep. *)
Theorem expiry_timeout_floor (d : Drone Q) (timeout now : Q) (k : Z) (info : DroneInfo Q) :
  _other_drones d !! k = Some info ->
  (now - di_last_seen info <= 1)%Q ->
  let d' := set_drone_expiry_timeout timeout d in
  (1 <= _drone_expiry_timeout d')%Q /\
  _drone_expiry_timeout d' = (if Qle_bool timeout 1 then 1%Q else timeout) /\
  _other_drones d' = _other_drones d /\
  _other_drones (_cleanup_expired_drones now d') !! k = Some info.
Proof.
  intros Hk Hage d'.
  assert (Ht : _drone_expiry_timeout d' = (if Qle_bool timeout 1 then 1%Q else timeout)).
  { unfold d', set_drone_expiry_timeout, py_max. simpl.
    now destruct (Qle_bool timeout 1). }
  assert (Hfloor : (1 <= _drone_expiry_timeout d')%Q).
  { rewrite Ht. destruct (Qle_bool timeout 1) eqn:E; [apply Qle_refl|].
    apply Qlt_le_weak, Qgt_true. now rewrite E. }
  split; [exact Hfloor|]. split; [exact Ht|]. split; [reflexivity|].
  assert (Hx : is_expired now (_drone_expiry_timeout d') info = false).
  { apply (proj2 (Qgt_false (now - di_last_seen info) (_drone_expiry_timeout d'))).
    eapply Qle_trans; eauto. }
  rewrite cleanup_lookup. change (_other_drones d') with (_other_drones d).
  now rewrite Hk, Hx.
Qed.

Lemma expiry_timeout_floor_witness :
  (1 <= _drone_expiry_timeout (set_drone_expiry_timeout 0.2%Q drone1))%Q /\
  _drone_expiry_timeout (set_drone_expiry_timeout 0.2%Q drone1)
  = (if Qle_bool 0.2 1 then 1%Q else 0.2%Q) /\
  _other_drones (set_drone_expiry_timeout 0.2%Q drone1) = _other_drones drone1 /\
  _other_drones (_cleanup_expired_drones 0.5%Q (set_drone_expiry_timeout 0.2%Q drone1)) !! 7
  = Some peer7.
Proof.
  apply (expiry_timeout_floor drone1 0.2%Q 0.5%Q 7 peer7).
  - reflexivity.
  - vm_compute. discriminate.
Defined.

End PresenceMore.

(** ** The control law, further properties *)

Module AvoidanceMore.
Import DroneData Avoidance AvoidanceOps AvoidanceFacts.
#[local] Open Scope R_scope.














End AvoidanceMore.
